(** * aqt.metadata: the metadata-resolution engine of aqtinstall

    A shallow embedding of [src/aqt/metadata.py] and the properties of its
    version codec, repository paths, mirror fetch, directory-index parser,
    manifest resolution, version selection, module listings and tables,
    with the package name and the command line of [src/aqt/commercial.py].

    Conventions of the embedding.
    - A Python [str] is a [string]; a character is a code point below 256.
    - A Python [int] is a [Z].
    - A function that may raise returns a [Res]; the exception is a value of
      [exn].  A function whose only failure is caught and turned into [None]
      by the source returns an [option].
    - A [dict] iterated by the source is the list of its items in insertion
      order; an attribute dictionary that is only looked up is a [gmap]. *)

From Stdlib Require Import ZArith Lia Bool Ascii String DecimalString DecimalZ.
From stdpp Require Import base option list strings gmap sorting.

#[local] Open Scope Z_scope.

(** ** Python primitives used by the source *)

Module Py.

(** [f"{n}"] and [str(n)] for an [int]. *)
Definition str (n : Z) : string := NilZero.string_of_int (Z.to_int n).

Definition code (c : ascii) : N := N_of_ascii c.

(** An ASCII decimal digit. *)
Definition is_ascii_digit (c : ascii) : bool :=
  ((48 <=? code c) && (code c <=? 57))%N.

(** [ch.isdigit()]: below code point 256 the ASCII digits and the
    superscripts U+00B2, U+00B3 and U+00B9. *)
Definition isdigit (c : ascii) : bool :=
  is_ascii_digit c || (code c =? 178)%N || (code c =? 179)%N || (code c =? 185)%N.

(** [ch.isspace()] below code point 256; [int()] ignores these around a
    literal. *)
Definition isspace (c : ascii) : bool :=
  (((9 <=? code c) && (code c <=? 13)) || ((28 <=? code c) && (code c <=? 32))
   || (code c =? 133) || (code c =? 160))%N.

Fixpoint forallb (p : ascii -> bool) (s : string) : bool :=
  match s with
  | EmptyString => true
  | String c s' => p c && forallb p s'
  end.

Definition existsb (p : ascii -> bool) (s : string) : bool :=
  negb (forallb (fun c => negb (p c)) s).

(** [c in s] for a one-character string [c]. *)
Definition contains_char (c : ascii) (s : string) : bool :=
  existsb (Ascii.eqb c) s.

(** [s.startswith(p)]. *)
Definition startswith (s p : string) : bool := String.prefix p s.

Fixpoint lstrip (s : string) : string :=
  match s with
  | EmptyString => EmptyString
  | String c s' => if isspace c then lstrip s' else s
  end.

Fixpoint rstrip (s : string) : string :=
  match s with
  | EmptyString => EmptyString
  | String c s' =>
      match rstrip s' with
      | EmptyString => if isspace c then EmptyString else String c EmptyString
      | r => String c r
      end
  end.

Definition strip (s : string) : string := rstrip (lstrip s).

(** Digit grouping of an [int()] literal: one underscore is allowed between
    two digits.  [prev] tells whether the previous character was a digit. *)
Fixpoint ungroup (prev : bool) (s : string) : option string :=
  match s with
  | EmptyString => if prev then Some EmptyString else None
  | String c s' =>
      if Ascii.eqb c "_"
      then if prev then ungroup false s' else None
      else String c <$> ungroup true s'
  end.

(** The unsigned part of an [int()] literal. *)
Definition int_digits (s : string) : option Z :=
  match s with
  | EmptyString => None
  | String c _ =>
      if Ascii.eqb c "_" then None
      else d ← ungroup true s; Z.of_uint <$> NilEmpty.uint_of_string d
  end.

(** [int(s)] in base ten; [None] is [ValueError].  The interpreter's
    configurable bound on the length of a literal is not modelled. *)
Definition int (s : string) : option Z :=
  match strip s with
  | EmptyString => None
  | String c r =>
      if Ascii.eqb c "+" then int_digits r
      else if Ascii.eqb c "-" then Z.opp <$> int_digits r
      else int_digits (String c r)
  end.

(** [s.split(sep)] for a non-empty separator.  [skip] counts the characters
    of a separator that was matched and is still to be dropped. *)
Fixpoint split_go (sep : string) (skip : nat) (s : string) : list string :=
  match s with
  | EmptyString => [EmptyString]
  | String c s' =>
      match skip with
      | S k => split_go sep k s'
      | O =>
          if String.prefix sep s
          then EmptyString :: split_go sep (Nat.pred (String.length sep)) s'
          else match split_go sep 0 s' with
               | p :: ps => String c p :: ps
               | [] => [String c EmptyString]
               end
      end
  end.

Definition split (sep s : string) : list string := split_go sep 0 s.

(** [s.split(sep, maxsplit)]: at most [maxsplit] cuts, the rest unsplit. *)
Fixpoint split_max_go (sep : string) (maxsplit skip : nat) (s : string)
  : list string :=
  match s with
  | EmptyString => [EmptyString]
  | String c s' =>
      match skip with
      | S k => split_max_go sep maxsplit k s'
      | O =>
          match maxsplit with
          | O => [s]
          | S n =>
              if String.prefix sep s
              then EmptyString
                   :: split_max_go sep n (Nat.pred (String.length sep)) s'
              else match split_max_go sep maxsplit 0 s' with
                   | p :: ps => String c p :: ps
                   | [] => [String c EmptyString]
                   end
          end
      end
  end.

Definition split_max (sep : string) (maxsplit : nat) (s : string) : list string :=
  split_max_go sep maxsplit 0 s.

(** [sub in s] for strings. *)
Fixpoint contains (sub s : string) : bool :=
  String.prefix sub s
  || match s with
     | EmptyString => false
     | String _ s' => contains sub s'
     end.

(** [s[i:j]] and [s[i:]] for indices within the string. *)
Definition slice (i j : nat) (s : string) : string := String.substring i (j - i) s.
Definition slice_from (i : nat) (s : string) : string :=
  String.substring i (String.length s - i) s.

(** [l[-2:]]: the last two items, or the whole list when it is shorter. *)
Definition last2 {A} (l : list A) : list A := drop (length l - 2) l.

(** [l[-1]] of a list; [None] is [IndexError]. *)
Definition last_item {A} (l : list A) : option A := last l.

(** [s.endswith(p)]. *)
Definition endswith (s p : string) : bool :=
  String.prefix (String.rev p) (String.rev s).

(** One step of [posixpath.join]: an absolute component replaces the path so
    far; otherwise it is appended, with a slash unless the path is empty or
    already ends in one. *)
Definition join2 (path b : string) : string :=
  if startswith b "/" then b
  else if String.eqb path "" || endswith path "/" then path +:+ b
  else path +:+ "/" +:+ b.

(** [posixpath.join(a, *p)]. *)
Definition join (a : string) (p : list string) : string := fold_left join2 p a.

(** [sep.join(l)]. *)
Definition sep_join (sep : string) (l : list string) : string := String.concat sep l.

(** The loop of [posixpath.normpath] over the components of the path. *)
Fixpoint normpath_comps (initial_slashes : nat) (comps new_comps : list string)
  : list string :=
  match comps with
  | [] => new_comps
  | comp :: comps' =>
      if String.eqb comp "" || String.eqb comp "." then
        normpath_comps initial_slashes comps' new_comps
      else if negb (String.eqb comp "..")
              || ((initial_slashes =? 0)%nat && (length new_comps =? 0)%nat)
              || match last new_comps with
                 | Some l => String.eqb l ".."
                 | None => false
                 end
      then normpath_comps initial_slashes comps' (new_comps ++ [comp])
      else normpath_comps initial_slashes comps' (removelast new_comps)
  end.

(** [posixpath.normpath(path)]. *)
Definition normpath (path : string) : string :=
  if String.eqb path "" then "."
  else
    let initial_slashes :=
      if startswith path "/" then
        if startswith path "//" && negb (startswith path "///") then 2%nat
        else 1%nat
      else 0%nat in
    let comps := normpath_comps initial_slashes (split "/" path) [] in
    let path' := sep_join "/" comps in
    let path'' :=
      match initial_slashes with
      | 0%nat => path'
      | 1%nat => "/" +:+ path'
      | _ => "//" +:+ path'
      end in
    if String.eqb path'' "" then "." else path''.

(** [sorted(l)] for strings, compared by code point. *)
Definition sorted (l : list string) : list string := merge_sort String.le l.

(** [sorted(set(l))]: the members of [l], each once, in ascending order. *)
Definition sorted_set (l : list string) : list string :=
  sorted (remove_dups l).

(** [itertools.groupby(l, key)]: the maximal runs of consecutive items with
    equal keys, each with its key. *)
Fixpoint groupby {A} (key : A -> Z) (l : list A) : list (Z * list A) :=
  match l with
  | [] => []
  | x :: l' =>
      match groupby key l' with
      | (k, g) :: gs =>
          if key x =? k then (k, x :: g) :: gs
          else (key x, [x]) :: (k, g) :: gs
      | [] => [(key x, [x])]
      end
  end.

(** The newline character, and ["\n"]. *)
Definition LF : ascii := ascii_of_nat 10.
Definition newline : string := String LF "".

(** [s.rsplit(sep, 1)] for a one-character separator: the text before its
    last occurrence and the text after it; [None] when it does not occur,
    where the source gets the one-item list. *)
Fixpoint rsplit1 (sep : ascii) (s : string) : option (string * string) :=
  match s with
  | EmptyString => None
  | String c s' =>
      match rsplit1 sep s' with
      | Some (before, after) => Some (String c before, after)
      | None => if Ascii.eqb c sep then Some (EmptyString, s') else None
      end
  end.

(** [s.replace(old, new)] for a non-empty [old]: the occurrences are taken
    from the left and do not overlap.  [skip] counts the characters of an
    occurrence that was replaced and is still to be dropped. *)
Fixpoint replace_go (old new : string) (skip : nat) (s : string) : string :=
  match s with
  | EmptyString => EmptyString
  | String c s' =>
      match skip with
      | S k => replace_go old new k s'
      | O =>
          if String.prefix old s
          then new +:+ replace_go old new (Nat.pred (String.length old)) s'
          else String c (replace_go old new 0 s')
      end
  end.

Definition replace (old new s : string) : string := replace_go old new 0 s.

(** [s[len(p):]] when [s] starts with [p]. *)
Fixpoint strip_prefix (p s : string) : option string :=
  match p, s with
  | EmptyString, _ => Some s
  | String a p', String b s' => if Ascii.eqb a b then strip_prefix p' s' else None
  | String _ _, EmptyString => None
  end.

End Py.
(** ** Versions *)

(** Modelled from the spec: the class [Version], which [aqt.metadata]
    imports from [aqt.repository].  A version is
    [{major, minor, patch, prerelease: optional(tag)}], totally ordered by
    (major, minor, patch), a prerelease sorting below the same version
    without one. *)
Record Version : Type := mkVersion {
  major : Z;
  minor : Z;
  patch : Z;
  prerelease : option string
}.

#[global] Instance Version_eq_dec : EqDecision Version.
Proof. solve_decision. Defined.

Module Ver.

(** Modelled from the spec: the order of the class [Version], by major,
    minor and patch, absence of a prerelease above its presence; two
    prerelease tags compare as strings. *)
Definition prerelease_compare (a b : option string) : comparison :=
  match a, b with
  | None, None => Eq
  | None, Some _ => Gt
  | Some _, None => Lt
  | Some x, Some y => String.compare x y
  end.

Definition compare (v w : Version) : comparison :=
  match major v ?= major w with
  | Eq =>
      match minor v ?= minor w with
      | Eq =>
          match patch v ?= patch w with
          | Eq => prerelease_compare (prerelease v) (prerelease w)
          | c => c
          end
      | c => c
      end
  | c => c
  end.

(** [v < w], [v <= w] and [v >= w] of the source. *)
Definition ltb (v w : Version) : bool :=
  match compare v w with Lt => true | _ => false end.
Definition leb (v w : Version) : bool :=
  match compare v w with Gt => false | _ => true end.
Definition geb (v w : Version) : bool := leb w v.

Definition le (v w : Version) : Prop := leb v w = true.

#[global] Instance le_dec : RelDecision le.
Proof. intros v w. unfold le. apply _. Defined.

Definition release (M m p : Z) : Version := mkVersion M m p None.

(** One numeric component of a dotted literal: decimal digits only. *)
Definition component (s : string) : option Z :=
  if Py.forallb Py.is_ascii_digit s then Py.int_digits s else None.

(** Modelled from the spec: the constructor [Version(version_string)].  A
    dotted literal [M.m.p] is the release version; followed by the marker
    [.dev0], which the decoder appends for a preview, it carries a
    prerelease tag.  [None] is [ValueError]. *)
Definition of_string (s : string) : option Version :=
  match Py.split "." s with
  | [a; b; c] =>
      M ← component a; m ← component b; p ← component c;
      Some (mkVersion M m p None)
  | [a; b; c; d] =>
      if String.eqb d "dev0"
      then M ← component a; m ← component b; p ← component c;
           Some (mkVersion M m p (Some "dev0"))
      else None
  | _ => None
  end.

End Ver.

(** ** VersionCodec: [get_semantic_version] *)

Section VersionCodec.

(** The constructor [Version(version_string)]; [None] is [ValueError]. *)
Variable Version_new : string -> option Version.

(** [f"{major}.{minor}.{patch}"], with [".dev0"] appended for a preview. *)
Definition version_str (M m p : Z) (is_preview : bool) : string :=
  let version_str := Py.str M +:+ "." +:+ Py.str m +:+ "." +:+ Py.str p in
  if is_preview then version_str +:+ ".dev0" else version_str.

(** The three slices of the traditional format, by the length of the
    fragment. *)
Definition packed_parts (qt_ver : string) : option (Z * Z * Z) :=
  let n := String.length qt_ver in
  if (4 <=? n)%nat then
    M ← Py.int (Py.slice 0 1 qt_ver);
    m ← Py.int (Py.slice 1 3 qt_ver);
    p ← Py.int (Py.slice_from 3 qt_ver);
    Some (M, m, p)
  else if (n =? 3)%nat then
    M ← Py.int (Py.slice 0 1 qt_ver);
    m ← Py.int (Py.slice 1 2 qt_ver);
    p ← Py.int (Py.slice_from 2 qt_ver);
    Some (M, m, p)
  else if (n =? 2)%nat then
    M ← Py.int (Py.slice 0 1 qt_ver);
    m ← Py.int (Py.slice_from 1 qt_ver);
    Some (M, m, 0)
  else None.

(** The parts of the underscore format: [major_minor[_patch]]. *)
Definition underscore_parts (qt_ver : string) : option (Z * Z * Z) :=
  let parts := Py.split "_" qt_ver in
  if (length parts <? 2)%nat || (3 <? length parts)%nat then None
  else
    M ← Py.int (nth 0 parts "");
    m ← Py.int (nth 1 parts "");
    p ← (if (length parts =? 3)%nat then Py.int (nth 2 parts "") else Some 0);
    Some (M, m, p).

Definition get_semantic_version (qt_ver : string) (is_preview : bool)
  : option Version :=
  if String.eqb qt_ver "" then None
  else if Py.contains_char "_" qt_ver then
    '(M, m, p) ← underscore_parts qt_ver;
    Version_new (version_str M m p is_preview)
  else if Py.existsb (fun ch => negb (Py.isdigit ch)) qt_ver then None
  else
    '(M, m, p) ← packed_parts qt_ver;
    Version_new (version_str M m p is_preview).

End VersionCodec.

(** The underscore-delimited form of a version triple. *)
Definition underscore_form (M m p : Z) : string :=
  Py.str M +:+ "_" +:+ Py.str m +:+ "_" +:+ Py.str p.



(** ** Exceptions, results and effects *)

(** The exception classes the source raises or catches.  [CliInputError]
    keeps the list that its message interpolates apart from the text. *)
Inductive exn : Type :=
| ArchiveDownloadError (msg : string)
| ArchiveConnectionError (msg : string) (suggested_action : list string)
| ArchiveListError (msg : string)
| CliInputError (msg : string) (items : list string) (suggested_action : list string)
| EmptyMetadata (msg : string)
| ValueError (msg : string)
| KeyError (key : string)
| IndexError
| AttributeError (name : string)
| AssertionError (msg : string)
| OtherError (name : string).

#[global] Instance exn_eq_dec : EqDecision exn.
Proof. solve_decision. Defined.

Definition is_ArchiveDownloadError (e : exn) : bool :=
  match e with ArchiveDownloadError _ => true | _ => false end.
Definition is_ArchiveConnectionError (e : exn) : bool :=
  match e with ArchiveConnectionError _ _ => true | _ => false end.
Definition is_ValueError (e : exn) : bool :=
  match e with ValueError _ => true | _ => false end.
Definition is_AttributeError (e : exn) : bool :=
  match e with AttributeError _ => true | _ => false end.

(** The outcome of a call: a value, or the exception it raised. *)
Inductive Res (A : Type) : Type :=
| Ok (a : A)
| Raise (e : exn).
Arguments Ok {A} a.
Arguments Raise {A} e.

#[global] Instance Res_ret : MRet Res := fun A a => Ok a.
#[global] Instance Res_bind : MBind Res := fun A B f m =>
  match m with
  | Ok a => f a
  | Raise e => Raise e
  end.

(** [None] of a lookup as the exception [e]. *)
Definition or_raise {A} (e : exn) (o : option A) : Res A :=
  match o with
  | Some a => Ok a
  | None => Raise e
  end.

(** What a call does besides returning: the requests it sends, the random
    draws it takes and the lines it logs, in order. *)
Inductive event : Type :=
| EvGetHash (rest_of_url : string)
| EvChoice (fallbacks : list string)
| EvGetUrl (url : string) (expected_hash : option string)
| EvDebug (msg : string)
| EvDebugExn (e : exn).

Record St (World : Type) : Type := mkSt {
  world : World;
  trace : list event
}.
Arguments mkSt {World} world trace.
Arguments world {World} s.
Arguments trace {World} s.

(** A computation over the outside world that may raise.  The state
    survives an exception, so a handler continues from where it was raised. *)
Definition M (World A : Type) : Type := St World -> Res A * St World.

#[global] Instance M_ret {World} : MRet (M World) := fun A a st => (Ok a, st).
#[global] Instance M_bind {World} : MBind (M World) := fun A B f m st =>
  match m st with
  | (Ok a, st') => f a st'
  | (Raise e, st') => (Raise e, st')
  end.

Definition raise {World A} (e : exn) : M World A := fun st => (Raise e, st).

Definition lift {World A} (r : Res A) : M World A := fun st => (r, st).

Definition emit {World} (ev : event) : M World unit :=
  fun st => (Ok tt, mkSt (world st) (trace st ++ [ev])).

(** [try: m  except <classes>: h e]; an exception outside the classes
    propagates. *)
Definition try_except {World A} (m : M World A) (classes : exn -> bool)
    (h : exn -> M World A) : M World A := fun st =>
  match m st with
  | (Ok a, st') => (Ok a, st')
  | (Raise e, st') => if classes e then h e st' else (Raise e, st')
  end.

(** The URLs requested through [getUrl], in order. *)
Definition requested (tr : list event) : list string :=
  omap (fun ev => match ev with EvGetUrl url _ => Some url | _ => None end) tr.

(** ** Collaborators outside the source *)

(** [aqt.helper] and the system random source: [getUrl], [get_hash], and
    the index [secrets.choice] draws. *)
Record Helper (World : Type) : Type := mkHelper {
  getUrl : string -> option string -> World -> Res string * World;
  get_hash : string -> World -> Res string * World;
  draw : World -> nat * World
}.
Arguments getUrl {World} h url expected_hash w.
Arguments get_hash {World} h rest_of_url w.
Arguments draw {World} h w.

(** [aqt.helper.Settings]: the configured values the source reads. *)
Record Settings : Type := mkSettings {
  baseurl : string;
  fallbacks : list string;
  ignore_hash : bool;
  min_module_size : Z
}.

(** A version range of [semantic_version]: its text and its membership
    test [version in spec]. *)
Record SimpleSpec : Type := mkSimpleSpec {
  expression : string;
  matches : Version -> bool
}.

(** Modelled from the spec: [SimpleSpec("5.9.0")], the literal range that
    version 5.9.0 alone matches. *)
Definition SimpleSpec_5_9_0 : SimpleSpec :=
  mkSimpleSpec "5.9.0"
    (fun v => bool_decide (v = Ver.release 5 9 0)).

(** [aqt.repository.QtRepoProperty]: the tables and predicates the source
    reads from it. *)
Record QtRepoProperty : Type := mkQtRepoProperty {
  CATEGORIES : list string;
  HOSTS : list string;
  TARGETS_FOR_HOST : string -> option (list string);
  EXTENSIONS_REQUIRED_ANDROID_QT6 : list string;
  is_in_wasm_range : string -> Version -> bool;
  is_in_wasm_threaded_range : Version -> bool;
  extension_for_arch : string -> bool -> string
}.

(** ** [Versions] *)

(** The attribute [versions] of the class [Versions]. *)
Record Versions : Type := mkVersions {
  versions : list (list Version)
}.

(** The three shapes of the constructor's argument. *)
Inductive Versions_arg : Type :=
| VNone
| VOne (v : Version)
| VGrouped (groups : list (Z * list Version)).

Definition Versions_init (arg : Versions_arg) : Versions :=
  match arg with
  | VNone => mkVersions []
  | VOne v => mkVersions [[v]]
  | VGrouped groups => mkVersions (map snd groups)
  end.

(** [__bool__]: the first group exists and is not empty. *)
Definition Versions_bool (self : Versions) : bool :=
  match versions self with
  | g :: _ => (0 <? length g)%nat
  | [] => false
  end.

(** [latest]: [versions[-1][-1]], or [None] for a false value. *)
Definition latest (self : Versions) : Res (option Version) :=
  if negb (Versions_bool self) then Ok None
  else
    g ← or_raise IndexError (Py.last_item (versions self));
    v ← or_raise IndexError (Py.last_item g);
    Ok (Some v).

Definition flattened (self : Versions) : list Version := concat (versions self).

(** ** [ArchiveId] *)

(** The instance attributes.  [to_url] reads an attribute [version]; it is
    [None] while nothing has assigned it. *)
Record ArchiveId : Type := mkArchiveId {
  category : string;
  host : string;
  target : string;
  version : option Version
}.

(** [in] for a tuple or list of strings. *)
Definition str_in (x : string) (l : list string) : bool :=
  bool_decide (x ∈ l).

Section ArchiveId.

Variable Q : QtRepoProperty.

(** [__init__]: the three membership checks, then the three attributes;
    [version] is not among them. *)
Definition ArchiveId_init (category host target : string) : Res ArchiveId :=
  if negb (str_in category (CATEGORIES Q)) then
    Raise (ValueError ("Category '" +:+ category +:+ "' is invalid"))
  else if negb (str_in host (HOSTS Q)) then
    Raise (ValueError ("Host '" +:+ host +:+ "' is invalid"))
  else
    targets ← or_raise (KeyError host) (TARGETS_FOR_HOST Q host);
    if negb (str_in target targets) then
      Raise (ValueError ("Target '" +:+ target +:+ "' is invalid"))
    else Ok (mkArchiveId category host target None).

Definition is_preview (self : ArchiveId) : bool := false.
Definition is_qt (self : ArchiveId) : bool := String.eqb (category self) "qt".
Definition is_tools (self : ArchiveId) : bool := String.eqb (category self) "tools".

(** The architecture suffix of the host folder. *)
Definition host_arch (host : string) : string :=
  if String.eqb host "windows" then "_x86"
  else if str_in host ["linux_arm64"; "all_os"; "windows_arm64"] then ""
  else "_x64".

(** [to_url].  The conjunction is evaluated left to right, so [version] is
    read only for a desktop target on a wasm host. *)
Definition to_url (self : ArchiveId) : Res string :=
  flat ←
    (if String.eqb (target self) "desktop" then
       if str_in (host self) ["wasm_singlethread"; "wasm_multithread"] then
         v ← or_raise (AttributeError "version") (version self);
         Ok (Ver.geb v (Ver.release 6 7 0))
       else Ok false
     else Ok false);
  if (flat : bool) then Ok "online/qtsdkrepository/all_os/wasm/"
  else Ok ("online/qtsdkrepository/" +:+ host self +:+ host_arch (host self)
           +:+ "/" +:+ target self +:+ "/").

(** [qt_version_no_dots[0]]. *)
Definition first_char (s : string) : Res string :=
  match s with
  | String c _ => Ok (String c "")
  | EmptyString => Raise IndexError
  end.

(** ["_" + extension if extension else ""]. *)
Definition ext_suffix (extension : option string) : string :=
  match extension with
  | Some e => if String.eqb e "" then "" else "_" +:+ e
  | None => ""
  end.

Definition to_folder (self : ArchiveId) (version : Version)
    (qt_version_no_dots : string) (extension : option string) : Res string :=
  if Ver.geb version (Ver.release 6 8 0) then
    major ← first_char qt_version_no_dots;
    Ok (category self +:+ major +:+ "_" +:+ qt_version_no_dots +:+ "/"
        +:+ category self +:+ major +:+ "_" +:+ qt_version_no_dots
        +:+ ext_suffix extension)
  else
    major ← first_char qt_version_no_dots;
    Ok (category self +:+ major +:+ "_" +:+ qt_version_no_dots
        +:+ ext_suffix extension).

Definition all_extensions (self : ArchiveId) (version : Version) : list string :=
  if String.eqb (target self) "desktop" && is_in_wasm_range Q (host self) version
  then [""; "wasm"]
  else if String.eqb (target self) "desktop" && is_in_wasm_threaded_range Q version
  then [""; "wasm_singlethread"; "wasm_multithread"]
  else if String.eqb (target self) "android" && Ver.geb version (Ver.release 6 0 0)
  then EXTENSIONS_REQUIRED_ANDROID_QT6 Q
  else [""].


End ArchiveId.

(** ** Manifest elements and parsed pages *)

(** A child of a [PackageUpdate] element: its tag, text and attributes. *)
Record Node : Type := mkNode {
  tag : string;
  text : option string;
  attrib : gmap string string
}.

(** A [PackageUpdate] element, by its children in document order. *)
Definition Element : Type := list Node.

(** [element.find(key)]: the first child with that tag. *)
Definition find (key : string) (element : Element) : option Node :=
  List.find (fun n => String.eqb (tag n) key) element.

(** The fields of [urllib.parse.ParseResult] the source reads. *)
Record ParseResult : Type := mkParseResult {
  scheme : string;
  netloc : string;
  path : string
}.

(** The parsers outside the source: the [PackageUpdate] elements of a
    manifest text, the [href] attribute of each anchor of a page as
    [bs4] finds them ([None] when an anchor has none), and [urlparse]. *)
Record Parsers : Type := mkParsers {
  package_updates : string -> Res (list Element);
  find_all_a : string -> Res (list (option string));
  urlparse : string -> Res ParseResult
}.

(** A package dictionary: its items in insertion order. *)
Definition dict (V : Type) : Type := list (string * V).

Definition keys {V} (d : dict V) : list string := map fst d.
Definition values {V} (d : dict V) : list V := map snd d.

(** [d[k] = v]: a present key keeps its place. *)
Fixpoint dict_set {V} (k : string) (v : V) (d : dict V) : dict V :=
  match d with
  | [] => [(k, v)]
  | (k', v') :: d' =>
      if String.eqb k' k then (k, v) :: d' else (k', v') :: dict_set k v d'
  end.

(** The attribute dictionary of one package. *)
Abbreviation attrs := (gmap string string).

(** ** [MetadataFactory] *)

(** The request handler chosen by the constructor, with what it captured. *)
Inductive Action : Type :=
| ActToolLongListing (tool_name : string)
| ActToolModules (tool_name : string)
| ActTools
| ActLatestVersion
| ActLongModules (version arch : string)
| ActModules (version arch : string)
| ActArches (ver_str : string)
| ActArchives (version arch : string) (modules : list string)
| ActModulesSde (cmd_type : string) (version : Version)
| ActArchivesSde (cmd_type : string) (version : Version)
| ActVersions.

Record MetadataFactory : Type := mkMetadataFactory {
  archive_id : ArchiveId;
  spec : option SimpleSpec;
  base_url : string;
  request_type : string;
  _action : Action
}.

(** The name of the tool folder: [tools_] is prefixed unless the name
    already starts with it or is [sdktool]. *)
Definition _tool_name (tool_name : string) : string :=
  if negb (Py.startswith tool_name "tools_") && negb (String.eqb tool_name "sdktool")
  then "tools_" +:+ tool_name
  else tool_name.

Section Init.

Variable S : Settings.

(** [__init__].  [modules_query] is (version_str, arch);
    [src_doc_examples_query] is (cmd_type, version, is_modules_query). *)
Definition MetadataFactory_init (archive_id : ArchiveId)
    (base_url : option string) (spec : option SimpleSpec)
    (is_latest_version : bool) (modules_query : option (string * string))
    (architectures_ver : option string) (archives_query : option (list string))
    (src_doc_examples_query : option (string * Version * bool))
    (tool_name : option string) (is_long_listing : bool)
  : Res MetadataFactory :=
  let base_url :=
    match base_url with
    | Some u => if String.eqb u "" then baseurl S else u
    | None => baseurl S
    end in
  let mk := mkMetadataFactory archive_id spec base_url in
  if is_tools archive_id then
    match tool_name with
    | Some tool_name =>
        if is_long_listing
        then Ok (mk "tool long listing" (ActToolLongListing (_tool_name tool_name)))
        else Ok (mk "tool variant names" (ActToolModules (_tool_name tool_name)))
    | None => Ok (mk "tools" ActTools)
    end
  else if is_latest_version then Ok (mk "latest version" ActLatestVersion)
  else
    match modules_query with
    | Some (version, arch) =>
        if is_long_listing
        then Ok (mk "long modules" (ActLongModules version arch))
        else Ok (mk "modules" (ActModules version arch))
    | None =>
    match architectures_ver with
    | Some ver_str => Ok (mk "architectures" (ActArches ver_str))
    | None =>
    match archives_query with
    | Some (version :: arch :: modules) =>
        Ok (mk (if (2 <? length (version :: arch :: modules))%nat
                then "archives for modules" else "archives for qt")
               (ActArchives version arch modules))
    | Some [_] =>
        Raise (CliInputError
          "The '--archives' flag requires a 'QT_VERSION' and an 'ARCHITECTURE' parameter."
          [] [])
    | _ =>
    match src_doc_examples_query with
    | Some (cmd_type, version, is_modules_query) =>
        if is_modules_query
        then Ok (mk ("modules for " +:+ cmd_type) (ActModulesSde cmd_type version))
        else Ok (mk ("archives for " +:+ cmd_type) (ActArchivesSde cmd_type version))
    | None => Ok (mk "versions" ActVersions)
    end
    end
    end
    end.

End Init.


(** [suggested_follow_up]. *)
Definition suggested_follow_up (meta : MetadataFactory) : list string :=
  let list_cmd := if is_tools (archive_id meta) then "list-tool" else "list-qt" in
  let base_cmd := "aqt " +:+ list_cmd +:+ " " +:+ host (archive_id meta)
                  +:+ " " +:+ target (archive_id meta) in
  let versions_msg :=
    "Please use '" +:+ base_cmd +:+ "' to show versions of Qt available." in
  let arches_msg :=
    "Please use '" +:+ base_cmd
    +:+ " --arch <QT_VERSION>' to show architectures available." in
  if is_tools (archive_id meta) && String.eqb (request_type meta) "tool variant names"
  then ["Please use '" +:+ base_cmd +:+ "' to check what tools are available."]
  else match spec meta with
  | Some sp =>
      ["Please use '" +:+ base_cmd +:+ "' to check that versions of "
       +:+ category (archive_id meta) +:+ " exist within the spec '"
       +:+ expression sp +:+ "'."]
  | None =>
      if str_in (request_type meta) ["architectures"; "modules"; "extensions"] then
        (["Please use '" +:+ base_cmd +:+ "' to show versions of Qt available."]
         ++ (if String.eqb (request_type meta) "modules"
             then ["Please use '" +:+ base_cmd
                   +:+ " --arch <QT_VERSION>' to list valid architectures."]
             else []))%list
      else if String.eqb (request_type meta) "archives for modules" then
        [versions_msg; arches_msg;
         "Please use '" +:+ base_cmd
         +:+ " --modules <QT_VERSION>' to show modules available."]
      else if String.eqb (request_type meta) "archives for qt" then
        [versions_msg; arches_msg]
      else []
  end.

(** ** The resolution engine *)

Section Engine.

Context {World : Type}.
Variable H : Helper World.
Variable S : Settings.
Variable Q : QtRepoProperty.
Variable P : Parsers.

(** The constructors of [Version] outside the source: [Version(text)] and
    [Version.permissive(text)]; [None] is [ValueError]. *)
Variable Version_new : string -> option Version.
Variable Version_permissive : string -> option Version.

(** *** Requests *)

Definition do_get_hash (rest_of_url : string) : M World string := fun st =>
  let '(r, w) := get_hash H rest_of_url (world st) in
  (r, mkSt w (trace st ++ [EvGetHash rest_of_url])).

Definition do_getUrl (url : string) (expected_hash : option string)
  : M World string := fun st =>
  let '(r, w) := getUrl H url expected_hash (world st) in
  (r, mkSt w (trace st ++ [EvGetUrl url expected_hash])).

(** [random.choice(seq)]: [IndexError] on an empty sequence, otherwise the
    item at the index drawn. *)
Definition choice (seq : list string) : M World string := fun st =>
  match seq with
  | [] => (Raise IndexError, mkSt (world st) (trace st ++ [EvChoice seq]))
  | _ =>
      let '(i, w) := draw H (world st) in
      (Ok (nth (i mod length seq) seq ""), mkSt w (trace st ++ [EvChoice seq]))
  end.

(** *** MirrorFetcher: [fetch_http] *)

(** The classes the handler of [fetch_http] catches. *)
Definition is_retried (e : exn) : bool :=
  is_ArchiveDownloadError e || is_ArchiveConnectionError e.

(** The optional retrieval of the published hash. *)
Definition hash_step (rest_of_url : string) (is_check_hash : bool)
  : M World (option string) :=
  if is_check_hash then h ← do_get_hash rest_of_url; mret (Some h)
  else mret None.

(** The loop over [enumerate(base_urls)]: [i] is the index of the head of
    [todo], [err] the last failure caught. *)
Fixpoint fetch_http_loop (rest_of_url : string) (expected_hash : option string)
    (base_urls : list string) (i : nat) (todo : list string) (err : exn)
  : M World string :=
  match todo with
  | [] => raise err
  | base_url :: todo' =>
      try_except
        (do_getUrl (Py.join base_url [rest_of_url]) expected_hash)
        is_retried
        (fun e =>
           _ ← (if (i <? length base_urls - 1)%nat
                then emit (EvDebug ("Connection to '" +:+ base_url
                        +:+ "' failed. Retrying with fallback '"
                        +:+ nth (i + 1) base_urls "" +:+ "'."))
                else mret tt);
           fetch_http_loop rest_of_url expected_hash base_urls (i + 1) todo' e)
  end.

Definition fetch_http (self : MetadataFactory) (rest_of_url : string)
    (is_check_hash : bool) : M World string :=
  expected_hash ← hash_step rest_of_url is_check_hash;
  fallback ← choice (fallbacks S);
  let base_urls := [base_url self; fallback] in
  fetch_http_loop rest_of_url expected_hash base_urls 0 base_urls
    (AssertionError "unraisable").

(** *** DirectoryIndexParser: [iterate_folders] *)

Definition link_to_folder (link : option string) : Res string :=
  let raw_url := default "" link in
  url ← urlparse P raw_url;
  if negb (String.eqb (scheme url) "") || negb (String.eqb (netloc url) "")
  then Ok ""
  else
    let url_path := Py.normpath (path url) in
    if Py.contains_char "/" url_path || String.eqb url_path "."
       || String.eqb url_path ".."
    then Ok ""
    else Ok url_path.

(** What the body of the loop yields for one folder. *)
Definition yields_of (filter_category folder : string) : list string :=
  ((if Py.startswith folder filter_category then [folder] else [])
   ++ (if String.eqb filter_category "tools" && String.eqb folder "sdktool"
       then [folder] else []))%list.

(** What one anchor contributes to the folders yielded. *)
Definition link_yields (filter_category : string) (link : option string)
  : list string :=
  match link_to_folder link with
  | Ok folder =>
      if String.eqb folder "" then [] else yields_of filter_category folder
  | Raise _ => []
  end.

(** The error every exception inside the generator is turned into. *)
Definition html_page_error (html_url : string) : exn :=
  ArchiveConnectionError
    ("Failed to retrieve the expected HTML page at " +:+ html_url)
    ["Check your network connection.";
     "Make sure that you can access " +:+ html_url +:+ " in your web browser."].

(** The generator's loop: the folders yielded, in order, and the exception
    that ends the iteration, if one does. *)
Fixpoint iterate_links (html_url filter_category : string)
    (links : list (option string)) : list string * option exn :=
  match links with
  | [] => ([], None)
  | link :: links' =>
      match link_to_folder link with
      | Raise _ => ([], Some (html_page_error html_url))
      | Ok folder =>
          if String.eqb folder "" then iterate_links html_url filter_category links'
          else
            let '(rest, err) := iterate_links html_url filter_category links' in
            ((yields_of filter_category folder ++ rest)%list, err)
      end
  end.

Definition iterate_folders (html_doc html_url filter_category : string)
  : list string * option exn :=
  match find_all_a P html_doc with
  | Raise _ => ([], Some (html_page_error html_url))
  | Ok links => iterate_links html_url filter_category links
  end.

Definition folder_to_version_extension (folder : string)
  : option Version * string :=
  let components := Py.split_max "_" 2 folder in
  let ext := if (length components <? 3)%nat then "" else nth 2 components "" in
  let ver := if (length components <? 2)%nat then "" else nth 1 components "" in
  (get_semantic_version Version_new ver (Py.contains "preview" ext), ext).

Definition get_versions_extensions (self : MetadataFactory)
    (html_doc category : string) : list (option Version * string) * option exn :=
  let '(folders, err) := iterate_folders html_doc (base_url self) category in
  (map folder_to_version_extension folders, err).

(** *** VersionSpecMatcher: [fetch_versions] *)

Definition filter_by (self : MetadataFactory) (extension : string)
    (ver : Version) (ext : string) : bool :=
  match spec self with
  | None => true
  | Some sp => matches sp ver
  end && String.eqb ext extension.

(** The spec's part of [filter_by], as a proposition. *)
Definition spec_matches (self : MetadataFactory) (v : Version) : Prop :=
  match spec self with
  | None => True
  | Some sp => matches sp v = true
  end.

(** The list comprehension of [fetch_versions]. *)
Definition kept_versions (self : MetadataFactory) (extension : string)
    (versions_extensions : list (option Version * string)) : list Version :=
  omap (fun '(ver, ext) =>
          match ver with
          | Some v => if filter_by self extension v ext then Some v else None
          | None => None
          end) versions_extensions.

(** [sorted] for versions. *)
Definition sorted_versions (l : list Version) : list Version :=
  merge_sort Ver.le l.

(** The last three lines of [fetch_versions]: sort, group by minor, wrap. *)
Definition group_versions (self : MetadataFactory) (extension : string)
    (versions_extensions : list (option Version * string)) : Versions :=
  let versions := sorted_versions (kept_versions self extension versions_extensions) in
  let grouped := Py.groupby minor versions in
  Versions_init (VGrouped grouped).

Definition fetch_versions (self : MetadataFactory) (extension : string)
  : M World Versions :=
  url ← lift (to_url (archive_id self));
  html_doc ← fetch_http self url false;
  let '(versions_extensions, err) :=
    get_versions_extensions self html_doc (category (archive_id self)) in
  match err with
  | Some e => raise e
  | None => mret (group_versions self extension versions_extensions)
  end.

Definition fetch_latest_version (self : MetadataFactory) (ext : string)
  : M World (option Version) :=
  vs ← fetch_versions self ext;
  lift (latest vs).

Definition fetch_tools (self : MetadataFactory) : M World (list string) :=
  url ← lift (to_url (archive_id self));
  html_doc ← fetch_http self url false;
  let '(folders, err) := iterate_folders html_doc (base_url self) "tools" in
  match err with
  | Some e => raise e
  | None => mret folders
  end.

(** *** ManifestResolver *)

(** [_has_nonempty_downloads]. *)
Definition _has_nonempty_downloads (element : Element) : Res bool :=
  match find "DownloadableArchives" element, find "UpdateFile" element with
  | Some downloads, Some update_file =>
      size_text ← or_raise (KeyError "UncompressedSize")
                    (attrib update_file !! "UncompressedSize");
      uncompressed_size ← or_raise (ValueError "invalid literal for int()")
                            (Py.int size_text);
      Ok (bool_decide (is_Some (text downloads))
          && (min_module_size S <=? uncompressed_size))
  | _, _ => Ok false
  end.

(** [require_text]. *)
Definition require_text (element : Element) (key : string) : Res string :=
  match find key element with
  | None =>
      Raise (ArchiveListError
        ("Downloaded metadata does not match the expected structure. Missing key: "
         +:+ key))
  | Some node => Ok (default "" (text node))
  end.

(** The attribute dictionary of one element: every child's text under its
    tag, and the two sizes of [UpdateFile]. *)
Definition element_attrs (element : Element) : attrs :=
  fold_left
    (fun (m : attrs) (n : Node) =>
       if String.eqb (tag n) "UpdateFile" then
         let m1 := match attrib n !! "CompressedSize" with
                   | Some v => <["CompressedSize" := v]> m
                   | None => m
                   end in
         match attrib n !! "UncompressedSize" with
         | Some v => <["UncompressedSize" := v]> m1
         | None => m1
         end
       else <[tag n := default "" (text n)]> m)
    element ∅.

Fixpoint xml_to_modules_loop (predicate : Element -> Res bool)
    (elements : list Element) (packages : dict attrs) : Res (dict attrs) :=
  match elements with
  | [] => Ok packages
  | element :: elements' =>
      keep ← predicate element;
      if (keep : bool) then
        name ← require_text element "Name";
        _ ← require_text element "DownloadableArchives";
        xml_to_modules_loop predicate elements'
          (dict_set name (element_attrs element) packages)
      else xml_to_modules_loop predicate elements' packages
  end.

(** Modelled from the spec: [xml_to_modules], which [aqt.metadata] imports
    from [aqt.helper].  It parses the text into a sequence of
    manifest elements, keeps the elements for which the predicate holds,
    indexes the result by the element's [Name] field, and fails with a
    metadata-structure error when [Name] or [DownloadableArchives] is
    absent. *)
Definition xml_to_modules (xml_text : string) (predicate : Element -> Res bool)
  : Res (dict attrs) :=
  elements ← package_updates P xml_text;
  xml_to_modules_loop predicate elements [].

(** [_get_qt_version_str]. *)
Definition _get_qt_version_str (self : MetadataFactory) (version : Version)
  : string :=
  let patch_text :=
    if bool_decide (is_Some (prerelease version))
       || is_preview (archive_id self)
       || matches SimpleSpec_5_9_0 version
    then ""
    else Py.str (patch version) in
  Py.str (major version) +:+ Py.str (minor version) +:+ patch_text.

(** [_fetch_module_metadata]; the predicate defaults to
    [_has_nonempty_downloads]. *)
Definition _fetch_module_metadata (self : MetadataFactory) (folder : string)
    (predicate : option (Element -> Res bool)) : M World (dict attrs) :=
  url ← lift (to_url (archive_id self));
  let rest_of_url := Py.join url [folder; "Updates.xml"] in
  xml ← (if negb (ignore_hash S) then fetch_http self rest_of_url true
         else fetch_http self rest_of_url false);
  lift (xml_to_modules xml (default _has_nonempty_downloads predicate)).

(** [a, b = l[-2:]]: [ValueError] unless two items are there. *)
Definition unpack_last2 (l : list string) : Res (string * string) :=
  match Py.last2 l with
  | [a; b] => Ok (a, b)
  | _ => Raise (ValueError "not enough values to unpack (expected 2, got 1)")
  end.

(** The inner loop of [fetch_arches]: the architectures of the names whose
    version segment is [qt_ver_str]. *)
Fixpoint arches_of (qt_ver_str : string) (names : list string)
  : Res (list string) :=
  match names with
  | [] => Ok []
  | name :: names' =>
      '(ver, arch) ← unpack_last2 (Py.split "." name);
      rest ← arches_of qt_ver_str names';
      Ok (if String.eqb ver qt_ver_str then arch :: rest else rest)
  end.

(** The two lines logged when the folder of an extension is skipped. *)
Definition skip_notes (extension : string) (e : exn) : list event :=
  [EvDebugExn e;
   EvDebug ("Failed to retrieve arches list with extension `" +:+ extension
            +:+ "`. Please check that this extension exists for this version of Qt: if not, code changes will be necessary.")].

(** The outer loop of [fetch_arches] over the extensions still to visit. *)
Fixpoint fetch_arches_loop (self : MetadataFactory) (version : Version)
    (qt_ver_str : string) (extensions : list string) (arches : list string)
  : M World (list string) :=
  match extensions with
  | [] => mret arches
  | extension :: extensions' =>
      folder ← lift (to_folder (archive_id self) version qt_ver_str (Some extension));
      modules ←
        try_except (_fetch_module_metadata self folder None)
          is_ArchiveDownloadError
          (fun e =>
             if String.eqb extension "" then raise e
             else
               _ ← emit (EvDebugExn e);
               _ ← emit (EvDebug
                     ("Failed to retrieve arches list with extension `"
                      +:+ extension
                      +:+ "`. Please check that this extension exists for this version of Qt: if not, code changes will be necessary."));
               mret []);
      found ← lift (arches_of qt_ver_str (keys modules));
      fetch_arches_loop self version qt_ver_str extensions' (arches ++ found)%list
  end.

Definition fetch_arches (self : MetadataFactory) (version : Version)
  : M World (list string) :=
  let qt_ver_str := _get_qt_version_str self version in
  fetch_arches_loop self version qt_ver_str
    (all_extensions Q (archive_id self) version) [].

Definition fetch_tool_modules (self : MetadataFactory) (tool_name : string)
  : M World (list string) :=
  tool_data ← _fetch_module_metadata self tool_name None;
  mret (keys tool_data).

(** *** Tool selection: [choose_highest_version_in_spec] *)

(** The first list comprehension and its handler: [Ok None] when a
    [Version] attribute does not parse ([ValueError] is caught),
    [KeyError] when an item has no such attribute. *)
Fixpoint tools_versions (items : dict attrs)
  : Res (option (list (string * attrs * Version))) :=
  match items with
  | [] => Ok (Some [])
  | (name, tool_data) :: items' =>
      version_text ← or_raise (KeyError "Version") (tool_data !! "Version");
      match Version_permissive version_text with
      | None => Ok None
      | Some v =>
          rest ← tools_versions items';
          Ok (match rest with
              | Some l => Some ((name, tool_data, v) :: l)
              | None => None
              end)
      end
  end.

(** A candidate of the dictionary with its declared version, parsed. *)
Definition declares (all_tools_data : dict attrs) (name : string)
    (tool_data : attrs) (v : Version) : Prop :=
  (name, tool_data) ∈ all_tools_data
  /\ exists version_text,
       tool_data !! "Version" = Some version_text
       /\ Version_permissive version_text = Some v.

(** [max(l, key=operator.itemgetter(2))]: the first item no later item
    exceeds; [None] is the [ValueError] of an empty list. *)
Definition max_by_version (l : list (string * attrs * Version))
  : option (string * attrs * Version) :=
  match l with
  | [] => None
  | x :: l' =>
      Some (fold_left
              (fun best item => if Ver.ltb (snd best) (snd item) then item else best)
              l' x)
  end.

Definition choose_highest_version_in_spec (all_tools_data : dict attrs)
    (simple_spec : SimpleSpec) : Res (option attrs) :=
  parsed ← tools_versions all_tools_data;
  match parsed with
  | None => Ok None
  | Some tools_versions =>
      let tools_versions :=
        List.filter (fun tool_item => matches simple_spec (snd tool_item))
          tools_versions in
      Ok (match max_by_version tools_versions with
          | Some tool_item => Some (snd (fst tool_item))
          | None => None
          end)
  end.

Definition fetch_tool_by_simple_spec (self : MetadataFactory)
    (tool_name : string) (simple_spec : SimpleSpec) : M World (option attrs) :=
  all_tools_data ← _fetch_module_metadata self tool_name None;
  lift (choose_highest_version_in_spec all_tools_data simple_spec).

(** *** Archive-list resolution: [fetch_archives] *)

(** [str(e)] of an exception the source formats into a message. *)
Definition exn_str (e : exn) : string :=
  match e with
  | ValueError msg => msg
  | AttributeError name => "'ArchiveId' object has no attribute '" +:+ name +:+ "'"
  | _ => ""
  end.

Section Predicates.

Variables (arch qt_version_str : string) (modules : list string).

Definition all_modules (element : Element) : Res bool :=
  name ← require_text element "Name";
  '(_module, _arch) ← unpack_last2 (Py.split "." name);
  if String.eqb _arch arch && negb (String.eqb _module qt_version_str)
  then _has_nonempty_downloads element
  else Ok false.

Definition specify_modules (element : Element) : Res bool :=
  name ← require_text element "Name";
  '(_module, _arch) ← unpack_last2 (Py.split "." name);
  if String.eqb _arch arch && str_in _module modules
  then _has_nonempty_downloads element
  else Ok false.

Definition no_modules (element : Element) : Res bool :=
  match find "Name" element with
  | Some (mkNode _ (Some name) _) =>
      if Py.endswith name ("." +:+ qt_version_str +:+ "." +:+ arch)
      then _has_nonempty_downloads element
      else Ok false
  | _ => Ok false
  end.

End Predicates.

(** [l[-2]]. *)
Definition second_last (l : list string) : Res string :=
  match Py.last2 l with
  | [a; _] => Ok a
  | _ => Raise IndexError
  end.

(** The modules among [modules] that no key of [mod_metadata] names. *)
Definition not_found_modules (modules : list string) (mod_metadata : dict attrs)
  : Res (list string) :=
  actual ← mapM (fun _name => second_last (Py.split "." _name)) (keys mod_metadata);
  Ok (Py.sorted_set (List.filter (fun m => negb (str_in m actual)) modules)).

(** The stems of the archives the matched records list. *)
Definition archive_stems (mod_metadata : dict attrs) : Res (list string) :=
  csv_lists ← mapM (fun module => or_raise (KeyError "DownloadableArchives")
                                    (module !! "DownloadableArchives"))
                   (values mod_metadata);
  Ok (Py.sorted_set
        (flat_map (fun csv => map (fun arc => nth 0 (Py.split "-" arc) "")
                                  (Py.split ", " csv))
                  csv_lists)).

Definition fetch_archives (self : MetadataFactory) (version : Version)
    (arch : string) (modules : list string) (is_sde : bool)
  : M World (list string) :=
  let extension :=
    if is_sde then "src_doc_examples"
    else extension_for_arch Q arch (Ver.geb version (Ver.release 6 0 0)) in
  let qt_version_str := _get_qt_version_str self version in
  let predicate :=
    if bool_decide (modules = []) then no_modules arch qt_version_str
    else if str_in "all" modules then all_modules arch qt_version_str
    else specify_modules arch modules in
  mod_metadata ←
    try_except
      (folder ← lift (to_folder (archive_id self) version qt_version_str
                        (Some extension));
       _fetch_module_metadata self folder (Some predicate))
      (fun e => is_AttributeError e || is_ValueError e)
      (fun e => raise (ArchiveListError
                         ("Downloaded metadata is corrupted. " +:+ exn_str e)));
  _ ← (if negb (bool_decide (modules = [])) && negb (str_in "all" modules) then
         not_found ← lift (not_found_modules modules mod_metadata);
         if negb (bool_decide (not_found = [])) then
           raise (CliInputError "The requested modules were not located: "
                    not_found (suggested_follow_up self))
         else mret tt
       else mret tt);
  lift (archive_stems mod_metadata).

Definition fetch_archives_sde (self : MetadataFactory) (cmd_type : string)
    (version : Version) : M World (list string) :=
  if str_in cmd_type ["src"; "doc"; "examples"]
     && str_in (target (archive_id self)) ["desktop"; "qt"]
  then fetch_archives self version cmd_type [] true
  else raise (AssertionError "Internal misuse of fetch_archives_sde").

End Engine.

(** ** The regular expressions of [fetch_modules] and [fetch_modules_sde] *)

Module Re.

(** What stands before the closing [(.+)$] in the two patterns: a literal
    text, or an optional group of a literal text, [(text)?].  The texts the
    source splices in unescaped are decimal numerals and the command type,
    which hold no character that is special in a pattern. *)
Inductive piece : Type :=
| Lit (text : string)
| Opt (text : string).

(** The longest prefix without a newline, which is the most [.+] can take,
    and what follows it. *)
Fixpoint dots (s : string) : string * string :=
  match s with
  | EmptyString => (EmptyString, EmptyString)
  | String c s' =>
      if Ascii.eqb c Py.LF then (EmptyString, s)
      else let '(g, r) := dots s' in (String c g, r)
  end.

(** [(.+)$]: at least one character and no newline, up to the end of the
    text or to a newline that ends it; the group is what [.+] took. *)
Definition rest_group (s : string) : option string :=
  let '(g, r) := dots s in
  if String.eqb g "" then None
  else if String.eqb r "" || String.eqb r Py.newline then Some g
  else None.

(** [pattern.match(s)] for the pieces followed by [(.+)$]: the text of the
    last group, or [None] without a match.  An optional group is tried
    first, and left out when the rest does not match after it. *)
Fixpoint match_ (pattern : list piece) (s : string) : option string :=
  match pattern with
  | [] => rest_group s
  | Lit text :: pattern' =>
      match Py.strip_prefix text s with
      | Some s' => match_ pattern' s'
      | None => None
      end
  | Opt text :: pattern' =>
      match Py.strip_prefix text s ≫= match_ pattern' with
      | Some g => Some g
      | None => match_ pattern' s
      end
  end.

End Re.

(** [^(preview\.)?qt\.(qt<major>\.)?<qt_ver_str>\.(.+)$]. *)
Definition modules_pattern (v : Version) (qt_ver_str : string) : list Re.piece :=
  [Re.Opt "preview."; Re.Lit "qt."; Re.Opt ("qt" +:+ Py.str (major v) +:+ ".");
   Re.Lit qt_ver_str; Re.Lit "."].


(** The local function [to_module_arch] of [fetch_modules]. *)
Definition to_module_arch (pattern : list Re.piece) (name : string)
  : option string * option string :=
  match Re.match_ pattern name with
  | None => (None, None)
  | Some module_with_arch =>
      match Py.rsplit1 "." module_with_arch with
      | None => (Some module_with_arch, None)
      | Some (module, arch) =>
          (Some (if Py.startswith module "addons."
                 then Py.slice_from (String.length "addons.") module
                 else module),
           Some arch)
      end
  end.

(** ** [TableMetadata], [ToolData] and [ModuleData] *)

(** The three abstract properties a subclass supplies. *)
Record Headings : Type := mkHeadings {
  short_heading_keys : list string;
  long_heading_keys : list string;
  name_heading : string
}.

Definition ToolData_headings : Headings :=
  mkHeadings ["Version"; "ReleaseDate"]
             ["Version"; "ReleaseDate"; "DisplayName"; "Description"]
             "Tool Variant Name".

Definition ModuleData_headings : Headings :=
  mkHeadings ["DisplayName"]
             ["DisplayName"; "ReleaseDate"; "CompressedSize"; "UncompressedSize"]
             "Module Name".

Record TableMetadata : Type := mkTableMetadata {
  headings : Headings;
  table_data : dict attrs
}.

(** [format_field_for_tty]: in every record where [field] is present and
    not empty, the markers [<br>] become newlines. *)
Definition format_field_for_tty (field : string) (table_data : dict attrs)
  : dict attrs :=
  map (fun '(key, content) =>
         (key,
          match content !! field with
          | Some value =>
              if String.eqb value "" then content
              else <[field := Py.replace "<br>" Py.newline value]> content
          | None => content
          end))
      table_data.

(** [__init__]. *)
Definition TableMetadata_init (h : Headings) (table_data : dict attrs)
  : TableMetadata :=
  mkTableMetadata h (format_field_for_tty "Description" table_data).

Definition ToolData (table_data : dict attrs) : TableMetadata :=
  TableMetadata_init ToolData_headings table_data.

Definition ModuleData (table_data : dict attrs) : TableMetadata :=
  TableMetadata_init ModuleData_headings table_data.

Definition std_keys_to_headings : list (string * string) :=
  [("ReleaseDate", "Release Date"); ("DisplayName", "Display Name");
   ("CompressedSize", "Download Size"); ("UncompressedSize", "Installed Size")].

(** [map_key_to_heading]. *)
Definition map_key_to_heading (key : string) : string :=
  match List.find (fun kv => String.eqb (fst kv) key) std_keys_to_headings with
  | Some kv => snd kv
  | None => key
  end.

(** [__bool__]. *)
Definition TableMetadata_bool (self : TableMetadata) : bool :=
  negb (bool_decide (table_data self = [])).

(** The order of [sorted] on the items of a dictionary: by name, the names
    of a dictionary being distinct. *)
Definition name_le (a b : string * attrs) : Prop := String.le a.1 b.1.

#[global] Instance name_le_dec : RelDecision name_le.
Proof. intros a b. unfold name_le. apply _. Defined.

(** [_rows]: one row for each record, in ascending order of the names;
    [content[key]] raises [KeyError] for a heading the record lacks. *)
Definition _rows (self : TableMetadata) (keys : list string)
  : Res (list (list string)) :=
  mapM (fun '(name, content) =>
          cells ← mapM (fun key => or_raise (KeyError key) (content !! key)) keys;
          Ok (name :: cells))
       (merge_sort name_le (table_data self)).

(** ** The remaining requests of [MetadataFactory] *)

(** Further members of [aqt.repository.QtRepoProperty]: the extension
    modules known to it, the conversion of an architecture into the folder
    and package names of the extensions, the test
    [MINGW_ARCH_PATTERN.match(arch)], and [select_default_mingw] for
    architecture names, whose [None] is a false result. *)
Record QtRepoExtensions : Type := mkQtRepoExtensions {
  known_extensions : list string;
  convert_arch_for_extension : string -> string -> string * string;
  MINGW_ARCH_PATTERN_match : string -> bool;
  select_default_mingw : list string -> option string
}.

Section Listing.

Context {World : Type}.
Variable H : Helper World.
Variable S : Settings.
Variable Q : QtRepoProperty.
Variable X : QtRepoExtensions.
Variable P : Parsers.
Variable Version_new : string -> option Version.

(** [str(e)] of the [ValueError] that [Version(text)] raises. *)
Variable Version_error : string -> string.

(** [fetch_tool_long_listing]. *)
Definition fetch_tool_long_listing (self : MetadataFactory) (tool_name : string)
  : M World TableMetadata :=
  tool_data ← _fetch_module_metadata H S P self tool_name None;
  mret (ToolData tool_data).


(** The modules of the names whose architecture is [arch]. *)
Definition modules_of (pattern : list Re.piece) (arch : string)
    (names : list string) : list string :=
  omap (fun name =>
          match to_module_arch pattern name with
          | (module, Some _arch) => if String.eqb _arch arch then module else None
          | (_, None) => None
          end) names.

(** The path of the manifest of one extension. *)
Definition extension_path (os_arch extension_module qt_ver_str folder_arch : string)
  : string :=
  Py.join "online/qtsdkrepository"
    [os_arch; "extensions"; extension_module; qt_ver_str; folder_arch;
     "Updates.xml"].

(** The loop of [fetch_modules] over the known extensions: an extension
    whose manifest can be fetched is added, one whose download fails is
    passed over. *)
Fixpoint probe_extensions (self : MetadataFactory)
    (os_arch qt_ver_str folder_arch : string) (extensions : list string)
    (modules : list string) : M World (list string) :=
  match extensions with
  | [] => mret modules
  | extension_module :: extensions' =>
      modules' ←
        try_except
          (_ ← fetch_http H S self
                 (extension_path os_arch extension_module qt_ver_str folder_arch)
                 true;
           mret (modules ++ [extension_module])%list)
          is_ArchiveDownloadError
          (fun _ => mret modules);
      probe_extensions self os_arch qt_ver_str folder_arch extensions' modules'
  end.

(** [fetch_modules]; the set of modules is kept as the list of what was
    added to it, and sorted at the end. *)
Definition fetch_modules (self : MetadataFactory) (v : Version) (arch : string)
  : M World (list string) :=
  let extension := extension_for_arch Q arch (Ver.geb v (Ver.release 6 0 0)) in
  let qt_ver_str := _get_qt_version_str self v in
  let pattern := modules_pattern v qt_ver_str in
  folder ← lift (to_folder (archive_id self) v qt_ver_str (Some extension));
  modules_meta ← _fetch_module_metadata H S P self folder None;
  let modules := modules_of pattern arch (keys modules_meta) in
  modules ←
    (if Ver.geb v (Ver.release 6 8 0) then
       let os_arch :=
         host (archive_id self) +:+ host_arch (host (archive_id self)) in
       let '(folder_arch, package_arch) :=
         convert_arch_for_extension X (host (archive_id self)) arch in
       probe_extensions self os_arch qt_ver_str folder_arch
         (known_extensions X) modules
     else mret modules);
  mret (Py.sorted_set modules).


(** [fetch_default_desktop_arch]. *)
Definition fetch_default_desktop_arch (self : MetadataFactory) (v : Version)
    (is_msvc : bool) : M World string :=
  if negb (String.eqb (target (archive_id self)) "desktop") then
    raise (AssertionError "This function is meant to fetch desktop architectures")
  else if String.eqb (host (archive_id self)) "linux" then
    if Ver.geb v (Ver.release 6 7 0) then mret "linux_gcc_64" else mret "gcc_64"
  else if String.eqb (host (archive_id self)) "linux_arm64" then
    mret "linux_gcc_arm64"
  else if String.eqb (host (archive_id self)) "mac" then mret "clang_64"
  else if String.eqb (host (archive_id self)) "windows" && is_msvc then
    if Ver.geb v (Ver.release 6 8 0) then mret "win64_msvc2022_64"
    else mret "win64_msvc2019_64"
  else
    all_arches ← fetch_arches H S Q P self v;
    let arches := List.filter (MINGW_ARCH_PATTERN_match X) all_arches in
    match select_default_mingw X arches with
    | None => raise (EmptyMetadata "No default desktop architecture available")
    | Some selected_arch =>
        if String.eqb selected_arch "" then
          raise (EmptyMetadata "No default desktop architecture available")
        else mret selected_arch
    end.

End Listing.

(** ** [aqt.commercial]: the package name and the command line *)

Module Commercial.

(** The attributes of [CommercialInstaller] that the two functions read. *)
Record CommercialInstaller : Type := mkCommercialInstaller {
  arch : string;
  version : Version;
  username : option string;
  password : option string
}.

(** [_get_installer_filename], by the name of the system. *)
Definition _get_installer_filename (os_name : string) : string :=
  let base := "qt-unified" in
  let version := "4.6.1" in
  if String.eqb os_name "windows"
  then base +:+ "-windows-x64-" +:+ version +:+ "-online.exe"
  else if String.eqb os_name "mac"
  then base +:+ "-macOS-x64-" +:+ version +:+ "-online.dmg"
  else base +:+ "-linux-x64-" +:+ version +:+ "-online.run".

(** [_get_package_name]. *)
Definition _get_package_name (self : CommercialInstaller) : string :=
  let qt_version :=
    Py.str (major (version self)) +:+ Py.str (minor (version self))
    +:+ Py.str (patch (version self)) in
  "qt.qt" +:+ Py.str (major (version self)) +:+ "." +:+ qt_version +:+ "."
  +:+ arch self.

(** The truth value of an optional text. *)
Definition truthy (o : option string) : bool :=
  match o with
  | Some s => negb (String.eqb s "")
  | None => false
  end.

(** [_get_install_command]. *)
Definition _get_install_command (self : CommercialInstaller)
    (installer_path : string) : list string :=
  let cmd := [installer_path] in
  let cmd :=
    if truthy (username self) && truthy (password self)
    then (cmd ++ ["--email"; default "" (username self);
                  "--pw"; default "" (password self)])%list
    else cmd in
  (cmd ++ ["--accept-licenses"; "--accept-obligations"; "--confirm-command";
           "--default-answer"; "install"; _get_package_name self])%list.

End Commercial.

(** ** Sample collaborators for the worked examples *)

Module Sample.

(** A network without state: every URL has a fixed outcome, every hash
    lookup answers, and every draw is the index [pick]. *)
Definition helper (net : string -> Res string) (pick : nat) : Helper unit :=
  mkHelper unit (fun url _ w => (net url, w))
    (fun _ w => (Ok "0123abcd", w))
    (fun w => (pick, w)).

Definition start : St unit := mkSt tt [].

Definition linux_desktop : ArchiveId := mkArchiveId "qt" "linux" "desktop" None.

Definition factory (request_type : string) (action : Action) : MetadataFactory :=
  mkMetadataFactory linux_desktop None "https://download.example" request_type
    action.

(** Two fallback mirrors are configured. *)
Definition settings : Settings :=
  mkSettings "https://download.example"
    ["https://mirror-a.example"; "https://mirror-b.example"] true 0.

(** The primary host and the first mirror are down; the second mirror
    serves the page. *)
Definition net_second_mirror_up (url : string) : Res string :=
  if String.eqb url "https://download.example/online/x/"
  then Raise (ArchiveConnectionError "download.example is unreachable" [])
  else if String.eqb url "https://mirror-a.example/online/x/"
  then Raise (ArchiveDownloadError "mirror-a answered 503")
  else if String.eqb url "https://mirror-b.example/online/x/"
  then Ok "<html></html>"
  else Raise (ArchiveDownloadError "404").

(** A permissive reading of a declared tool version for the examples: the
    text before the first hyphen, one to three dotted numbers, the missing
    ones zero. *)
Definition permissive (s : string) : option Version :=
  match Py.split "." (nth 0 (Py.split "-" s) "") with
  | [a] => M ← Ver.component a; Some (Ver.release M 0 0)
  | [a; b] => M ← Ver.component a; m ← Ver.component b; Some (Ver.release M m 0)
  | [a; b; c] =>
      M ← Ver.component a; m ← Ver.component b; p ← Ver.component c;
      Some (Ver.release M m p)
  | _ => None
  end.

Definition any_version : SimpleSpec := mkSimpleSpec "*" (fun _ => true).

Definition tool (version_text : string) : attrs :=
  <["Version" := version_text]> (<["ReleaseDate" := "2024-01-01"]> ∅).

Definition tools : dict attrs :=
  [("qt.tools.ifw.43", tool "4.3.0-202201"); ("qt.tools.ifw.47", tool "4.7.0");
   ("qt.tools.ifw.46", tool "4.6")].

(** A manifest with one Qt package for the architecture [gcc_64] and the
    add-on [qtcharts]. *)
Definition package (name archives size : string) : Element :=
  [mkNode "Name" (Some name) ∅;
   mkNode "Version" (Some "6.2.0-0-202303") ∅;
   mkNode "DownloadableArchives" (Some archives) ∅;
   mkNode "UpdateFile" None (<["UncompressedSize" := size]> ∅)].

Definition qtcharts_gcc_64 : Element :=
  package "qt.qt6.620.addons.qtcharts.gcc_64"
    "qtcharts-Linux-RHEL_8_4.7z, qtbase-Linux-RHEL_8_4.7z" "1000".

Definition manifest : list Element :=
  [package "qt.qt6.620.gcc_64" "qtbase-Linux-RHEL_8_4.7z, qtsvg-Linux-RHEL_8_4.7z"
     "1000";
   qtcharts_gcc_64;
   package "qt.qt6.620.addons.qtcharts.wasm_32" "qtcharts-wasm.7z" "1000"].

(** The records of the manifest matched for [gcc_64] and [qtcharts], and
    the state once the manifest has been fetched from the primary host. *)
Definition matched : dict attrs :=
  [("qt.qt6.620.addons.qtcharts.gcc_64", element_attrs qtcharts_gcc_64)].

Definition fetched : St unit :=
  mkSt tt
    [EvChoice ["https://mirror-a.example"; "https://mirror-b.example"];
     EvGetUrl
       "https://download.example/online/qtsdkrepository/linux_x64/desktop/qt6_620/Updates.xml"
       None].

Definition parsers : Parsers :=
  mkParsers
    (fun xml_text =>
       if String.eqb xml_text "manifest" then Ok manifest
       else Raise (ArchiveListError "Downloaded metadata is corrupted."))
    (fun _ => Ok [])
    (fun raw_url => Ok (mkParseResult "" "" raw_url)).

(** Desktop versions carry the extensions [""] and ["wasm"]. *)
Definition repo : QtRepoProperty :=
  mkQtRepoProperty ["tools"; "qt"] ["linux"; "windows"; "mac"]
    (fun _ => Some ["desktop"; "android"]) ["x86_64"; "armv7"]
    (fun _ _ => true) (fun _ => false) (fun _ _ => "").

(** The folder of the default extension is served by every host; the
    folder of the extension [wasm] is unreachable. *)
Definition net_wasm_unreachable (url : string) : Res string :=
  if Py.endswith url "/qt6_620/Updates.xml" then Ok "manifest"
  else Raise (ArchiveConnectionError "connection refused" []).

(** The same, the folder of [wasm] being absent from the hosts. *)
Definition net_wasm_missing (url : string) : Res string :=
  if Py.endswith url "/qt6_620/Updates.xml" then Ok "manifest"
  else Raise (ArchiveDownloadError "404 Not Found").

(** A directory page with an external link, a Qt folder, the parent
    link, the [sdktool] folder, a tool folder and an anchor without
    [href]; [urlparse] as it reads these references. *)
Definition page_parsers : Parsers :=
  mkParsers (fun _ => Ok [])
    (fun _ => Ok [Some "https://evil.example/x"; Some "qt6_7_0"; Some "../";
                  Some "sdktool"; Some "tools_ifw/"; None])
    (fun raw_url =>
       if String.eqb raw_url "https://evil.example/x"
       then Ok (mkParseResult "https" "evil.example" "/x")
       else Ok (mkParseResult "" "" raw_url)).

Definition tools_linux : ArchiveId := mkArchiveId "tools" "linux" "desktop" None.

(** Every host serves every manifest. *)
Definition net_up (url : string) : Res string := Ok "manifest".

(** Four decoded folders of the default extension, out of order. *)
Definition example_versions : list (option Version * string) :=
  [(Some (Ver.release 5 12 1), ""); (Some (Ver.release 5 12 0), "");
   (Some (Ver.release 6 0 0), ""); (Some (Ver.release 5 15 0), "")].

End Sample.

(** ** Further sample inputs *)

Module Cases.

Definition versions_factory : MetadataFactory :=
  Sample.factory "versions" ActVersions.

(** The primary host answers with a failure that is neither a download
    error nor a connection error. *)
Definition net_broken (url : string) : Res string :=
  Raise (OtherError "SSLError").

(** No host serves anything. *)
Definition net_down (url : string) : Res string :=
  Raise (ArchiveDownloadError "404 Not Found").

(** The hosts serve every file, and no hash is published. *)
Definition helper_no_hash : Helper unit :=
  mkHelper unit (fun url _ w => (Ok "manifest", w))
    (fun _ w => (Raise (ArchiveDownloadError "no hash published"), w))
    (fun w => (0%nat, w)).

(** A directory page of Qt folders, out of order, with one folder of the
    extension [wasm] and the tools folder. *)
Definition index_parsers : Parsers :=
  mkParsers (fun _ => Ok [])
    (fun _ => Ok [Some "qt6_620/"; Some "qt5_5152/"; Some "qt6_650/";
                  Some "qt6_651_wasm/"; Some "tools_ifw/"])
    (fun raw_url => Ok (mkParseResult "" "" raw_url)).

Definition index_versions : list (option Version * string) :=
  [(Some (Ver.release 6 2 0), ""); (Some (Ver.release 5 15 2), "");
   (Some (Ver.release 6 5 0), ""); (Some (Ver.release 6 5 1), "wasm")].

(** The same page with a reference that [urlparse] rejects. *)
Definition broken_index_parsers : Parsers :=
  mkParsers (fun _ => Ok [])
    (fun _ => Ok [Some "qt6_620/"; Some "http://[broken"])
    (fun raw_url =>
       if String.eqb raw_url "http://[broken"
       then Raise (ValueError "Invalid IPv6 URL")
       else Ok (mkParseResult "" "" raw_url)).

(** The state after one page or manifest was fetched from the primary
    host without a hash. *)
Definition after_fetch (url : string) : St unit :=
  mkSt tt [EvChoice (fallbacks Sample.settings); EvGetUrl url None].

Definition desktop_url : string :=
  "https://download.example/online/qtsdkrepository/linux_x64/desktop/".

Definition wasm_desktop : MetadataFactory :=
  mkMetadataFactory (mkArchiveId "qt" "wasm_singlethread" "desktop" None) None
    "https://download.example" "architectures" (ActArches "6.7.0").

Definition android : MetadataFactory :=
  mkMetadataFactory (mkArchiveId "qt" "linux" "android" None) None
    "https://download.example" "architectures" (ActArches "6.2.0").

(** Two extensions are known; the architecture is kept as it is. *)
Definition extensions : QtRepoExtensions :=
  mkQtRepoExtensions ["qtpdf"; "qtwebengine"] (fun _ arch => (arch, arch))
    (fun arch => Py.startswith arch "win64_mingw")
    (fun arches => head arches).

Definition modules_factory : MetadataFactory :=
  Sample.factory "modules" (ActModules "6.2.0" "gcc_64").


Definition base_package : Element :=
  Sample.package "qt.qt6.620.gcc_64" "qtbase-Linux-RHEL_8_4.7z" "1000".

Definition installer : Commercial.CommercialInstaller :=
  Commercial.mkCommercialInstaller "gcc_64" (Ver.release 6 2 0) None None.

End Cases.
(** ** Facts about the primitives *)

Section PyFacts.

Lemma digit_facts c :
  Py.is_ascii_digit c = true ->
  Ascii.eqb c "_" = false /\ Ascii.eqb c "+" = false /\ Ascii.eqb c "-" = false
  /\ Py.isspace c = false /\ Py.isdigit c = true /\ Ascii.eqb "_" c = false.
Proof.
  destruct c as [[] [] [] [] [] [] [] []]; vm_compute; intros H;
    try discriminate H; repeat split.
Qed.

Lemma forallb_app p s t :
  Py.forallb p (s +:+ t) = Py.forallb p s && Py.forallb p t.
Proof. induction s as [|c s IH]; simpl; [done|]. by rewrite IH, andb_assoc. Qed.

Lemma forallb_impl (p q : ascii -> bool) s :
  (forall c, p c = true -> q c = true) ->
  Py.forallb p s = true -> Py.forallb q s = true.
Proof.
  intros Hpq. induction s as [|c s IH]; simpl; [done|].
  intros [Hc Hs]%andb_prop. rewrite (Hpq _ Hc). simpl. auto.
Qed.

Lemma string_of_uint_digits d :
  Py.forallb Py.is_ascii_digit (NilEmpty.string_of_uint d) = true.
Proof. induction d; simpl; auto. Qed.

Lemma uint_of_string_digits s :
  Py.forallb Py.is_ascii_digit s = true ->
  exists d, NilEmpty.uint_of_string s = Some d.
Proof.
  induction s as [|c s IH]; simpl; [eauto|].
  intros [Hc Hs]%andb_prop. destruct (IH Hs) as [d ->].
  destruct c as [[] [] [] [] [] [] [] []]; try discriminate Hc; simpl; eauto.
Qed.

Lemma ungroup_digits s :
  Py.forallb Py.is_ascii_digit s = true -> Py.ungroup true s = Some s.
Proof.
  induction s as [|c s IH]; simpl; [done|].
  intros [Hc Hs]%andb_prop. destruct (digit_facts c Hc) as (-> & _).
  by rewrite (IH Hs).
Qed.

Lemma int_digits_digits s :
  s <> "" -> Py.forallb Py.is_ascii_digit s = true ->
  Py.int_digits s = Z.of_uint <$> NilEmpty.uint_of_string s.
Proof.
  intros Hne Hs. destruct s as [|c s]; [done|]. unfold Py.int_digits.
  pose proof Hs as [Hc _]%andb_prop. destruct (digit_facts c Hc) as (-> & _).
  by rewrite (ungroup_digits _ Hs).
Qed.

Lemma lstrip_id s :
  Py.forallb (fun c => negb (Py.isspace c)) s = true -> Py.lstrip s = s.
Proof.
  destruct s as [|c s]; simpl; [done|].
  intros [Hc _]%andb_prop. by destruct (Py.isspace c).
Qed.

Lemma rstrip_id s :
  Py.forallb (fun c => negb (Py.isspace c)) s = true -> Py.rstrip s = s.
Proof.
  induction s as [|c s IH]; simpl; [done|].
  intros [Hc Hs]%andb_prop. rewrite (IH Hs).
  destruct s; [|done]. by destruct (Py.isspace c).
Qed.

Lemma strip_id s :
  Py.forallb (fun c => negb (Py.isspace c)) s = true -> Py.strip s = s.
Proof. intros H. unfold Py.strip. by rewrite (lstrip_id _ H), rstrip_id. Qed.

Lemma digits_nospace s :
  Py.forallb Py.is_ascii_digit s = true ->
  Py.forallb (fun c => negb (Py.isspace c)) s = true.
Proof.
  apply forallb_impl. intros c Hc.
  destruct (digit_facts c Hc) as (_ & _ & _ & -> & _). done.
Qed.

(** [int] on a non-empty string of decimal digits. *)
Lemma int_digits_string s :
  s <> "" -> Py.forallb Py.is_ascii_digit s = true ->
  Py.int s = Z.of_uint <$> NilEmpty.uint_of_string s.
Proof.
  intros Hne Hs. unfold Py.int. rewrite (strip_id _ (digits_nospace _ Hs)).
  destruct s as [|c r]; [done|].
  pose proof Hs as [Hc _]%andb_prop.
  destruct (digit_facts c Hc) as (_ & -> & -> & _).
  by apply int_digits_digits.
Qed.

Lemma int_digits_is_Some s :
  s <> "" -> Py.forallb Py.is_ascii_digit s = true ->
  exists z, Py.int s = Some z.
Proof.
  intros Hne Hs. rewrite (int_digits_string _ Hne Hs).
  destruct (uint_of_string_digits _ Hs) as [d ->]. simpl. eauto.
Qed.

Lemma pos_to_uint_string p :
  NilZero.string_of_uint (Pos.to_uint p) = NilEmpty.string_of_uint (Pos.to_uint p)
  /\ NilEmpty.string_of_uint (Pos.to_uint p) <> "".
Proof.
  pose proof (DecimalPos.Unsigned.to_uint_nonnil p) as Hnil.
  destruct (Pos.to_uint p); try done.
Qed.

(** The decimal text of an integer reads back as that integer. *)
Lemma int_str n : Py.int (Py.str n) = Some n.
Proof.
  destruct n as [|p|p]; [reflexivity| |]; unfold Py.str; simpl;
    destruct (pos_to_uint_string p) as [-> Hne].
  - rewrite int_digits_string by auto using string_of_uint_digits.
    rewrite NilEmpty.usu. simpl. f_equal.
    exact (DecimalZ.of_to (Z.pos p)).
  - unfold Py.int. rewrite strip_id.
    + simpl. rewrite int_digits_digits by auto using string_of_uint_digits.
      rewrite NilEmpty.usu. simpl. f_equal.
      exact (DecimalZ.of_to (Z.neg p)).
    + simpl. apply digits_nospace, string_of_uint_digits.
Qed.

(** The decimal text of an integer holds no underscore. *)
Lemma str_no_underscore n : Py.contains_char "_" (Py.str n) = false.
Proof.
  assert (Hd : forall d, Py.contains_char "_" (NilEmpty.string_of_uint d) = false).
  { intros d. unfold Py.contains_char, Py.existsb.
    rewrite (forallb_impl Py.is_ascii_digit); [done| |apply string_of_uint_digits].
    intros c Hc. destruct (digit_facts c Hc) as (_ & _ & _ & _ & _ & ->). done. }
  destruct n as [|p|p]; [reflexivity| |]; unfold Py.str; simpl;
    destruct (pos_to_uint_string p) as [-> _]; [apply Hd|].
  unfold Py.contains_char, Py.existsb. simpl.
  exact (Hd (Pos.to_uint p)).
Qed.

Lemma contains_char_app c s t :
  Py.contains_char c (s +:+ t) = Py.contains_char c s || Py.contains_char c t.
Proof.
  unfold Py.contains_char, Py.existsb. rewrite forallb_app.
  by destruct (Py.forallb _ s), (Py.forallb _ t).
Qed.

Lemma split_no_sep c s :
  Py.contains_char c s = false -> Py.split (String c "") s = [s].
Proof.
  unfold Py.split, Py.contains_char, Py.existsb.
  induction s as [|a s IH]; simpl; [done|].
  intros H. apply negb_false_iff in H. apply andb_prop in H as [Ha Hs].
  apply negb_true_iff in Ha.
  destruct (ascii_dec c a) as [->|Hne]; [by rewrite Ascii.eqb_refl in Ha|].
  rewrite IH; [done|]. by rewrite Hs.
Qed.

Lemma split_app_sep c s t :
  Py.contains_char c s = false ->
  Py.split (String c "") (s +:+ String c t) = s :: Py.split (String c "") t.
Proof.
  unfold Py.split, Py.contains_char, Py.existsb.
  induction s as [|a s IH]; simpl.
  - intros _. destruct (ascii_dec c c); [|done]. by destruct t.
  - intros H. apply negb_false_iff in H. apply andb_prop in H as [Ha Hs].
    apply negb_true_iff in Ha.
    destruct (ascii_dec c a) as [->|Hne]; [by rewrite Ascii.eqb_refl in Ha|].
    rewrite IH; [done|]. by rewrite Hs.
Qed.

Lemma substring_all s : String.substring 0 (String.length s) s = s.
Proof. induction s as [|c s IH]; simpl; [done|]. by rewrite IH. Qed.

Lemma str_nonempty n : Py.str n <> "".
Proof.
  destruct n as [|p|p]; [done| |]; unfold Py.str; simpl; [|done].
  destruct (pos_to_uint_string p) as [-> Hne]. done.
Qed.

End PyFacts.

(** ** VersionCodec: the two encodings agree *)

Section VersionCodecFacts.

Variable Version_new : string -> option Version.

Lemma digits_packed_guard s :
  Py.forallb Py.is_ascii_digit s = true ->
  Py.contains_char "_" s = false
  /\ Py.existsb (fun ch => negb (Py.isdigit ch)) s = false.
Proof.
  intros Hs. unfold Py.contains_char, Py.existsb. split.
  - rewrite (forallb_impl Py.is_ascii_digit); [done| |done].
    intros c Hc. destruct (digit_facts c Hc) as (_ & _ & _ & _ & _ & ->). done.
  - rewrite (forallb_impl Py.is_ascii_digit); [done| |done].
    intros c Hc. destruct (digit_facts c Hc) as (_ & _ & _ & _ & -> & _). done.
Qed.

Lemma packed_parts_digits s :
  Py.forallb Py.is_ascii_digit s = true -> (2 <= String.length s)%nat ->
  exists M m p, packed_parts s = Some (M, m, p).
Proof.
  intros Hs Hlen.
  destruct s as [|a [|b [|c [|d r]]]]; simpl in Hlen; try lia.
  - apply andb_prop in Hs as [Ha [Hb _]%andb_prop].
    destruct (int_digits_is_Some (String a "")) as [M HM]; [done|by simpl; rewrite Ha|].
    destruct (int_digits_is_Some (String b "")) as [m Hm]; [done|by simpl; rewrite Hb|].
    exists M, m, 0. unfold packed_parts.
    change (Py.slice 0 1 (String a (String b ""))) with (String a "").
    change (Py.slice_from 1 (String a (String b ""))) with (String b "").
    simpl String.length. cbn [Nat.leb Nat.eqb]. by rewrite HM, Hm.
  - apply andb_prop in Hs as [Ha [Hb [Hc _]%andb_prop]%andb_prop].
    destruct (int_digits_is_Some (String a "")) as [M HM]; [done|by simpl; rewrite Ha|].
    destruct (int_digits_is_Some (String b "")) as [m Hm]; [done|by simpl; rewrite Hb|].
    destruct (int_digits_is_Some (String c "")) as [p Hp]; [done|by simpl; rewrite Hc|].
    exists M, m, p. unfold packed_parts.
    change (Py.slice 0 1 (String a (String b (String c "")))) with (String a "").
    change (Py.slice 1 2 (String a (String b (String c "")))) with (String b "").
    change (Py.slice_from 2 (String a (String b (String c "")))) with (String c "").
    simpl String.length. cbn [Nat.leb Nat.eqb]. by rewrite HM, Hm, Hp.
  - apply andb_prop in Hs as [Ha [Hb [Hc Hr]%andb_prop]%andb_prop].
    destruct (int_digits_is_Some (String a "")) as [M HM]; [done|by simpl; rewrite Ha|].
    destruct (int_digits_is_Some (String b (String c ""))) as [m Hm];
      [done|by simpl; rewrite Hb, Hc|].
    destruct (int_digits_is_Some (String d r)) as [p Hp]; [done|done|].
    exists M, m, p. unfold packed_parts.
    change (Py.slice 0 1 (String a (String b (String c (String d r)))))
      with (String a "").
    change (Py.slice 1 3 (String a (String b (String c (String d r)))))
      with (String b (String c "")).
    assert (Py.slice_from 3 (String a (String b (String c (String d r))))
            = String d r) as ->.
    { unfold Py.slice_from. simpl. by rewrite substring_all. }
    simpl String.length. cbn [Nat.leb Nat.eqb]. by rewrite HM, Hm, Hp.
Qed.

Lemma get_semantic_version_packed s pv M m p :
  Py.forallb Py.is_ascii_digit s = true ->
  packed_parts s = Some (M, m, p) ->
  get_semantic_version Version_new s pv = Version_new (version_str M m p pv).
Proof.
  intros Hs Hp. unfold get_semantic_version.
  destruct (digits_packed_guard s Hs) as [-> ->].
  destruct (String.eqb_spec s "") as [->|_]; [discriminate Hp|].
  by rewrite Hp.
Qed.

Lemma underscore_parts_form M m p :
  underscore_parts (underscore_form M m p) = Some (M, m, p).
Proof.
  unfold underscore_parts.
  change (underscore_form M m p)
    with (Py.str M +:+ String "_"%char (Py.str m +:+ String "_"%char (Py.str p))).
  rewrite !split_app_sep by apply str_no_underscore.
  rewrite split_no_sep by apply str_no_underscore.
  simpl. by rewrite !int_str.
Qed.

Lemma get_semantic_version_underscore_form M m p pv :
  get_semantic_version Version_new (underscore_form M m p) pv
  = Version_new (version_str M m p pv).
Proof.
  unfold get_semantic_version. rewrite underscore_parts_form.
  assert (Py.contains_char "_" (underscore_form M m p) = true) as ->.
  { unfold underscore_form. rewrite contains_char_app.
    rewrite str_no_underscore. reflexivity. }
  destruct (String.eqb_spec (underscore_form M m p) "") as [He|_]; [|done].
  exfalso. unfold underscore_form in He.
  pose proof (str_nonempty M). destruct (Py.str M); done.
Qed.

End VersionCodecFacts.

Lemma forallb_ext (p q : ascii -> bool) s :
  (forall c, p c = q c) -> Py.forallb p s = Py.forallb q s.
Proof. intros E. induction s as [|c s IH]; simpl; [done|]. by rewrite E, IH. Qed.

Lemma get_semantic_version_short Version_new s pv :
  (String.length s <= 1)%nat -> get_semantic_version Version_new s pv = None.
Proof.
  destruct s as [|c [|d r]]; simpl; [done| |lia]. intros _.
  unfold get_semantic_version. simpl String.eqb.
  destruct (Ascii.eqb_spec "_" c) as [<-|Hne].
  - reflexivity.
  - assert (Py.contains_char "_" (String c "") = false) as ->.
    { unfold Py.contains_char, Py.existsb. cbn [Py.forallb].
      apply Ascii.eqb_neq in Hne. by rewrite Hne. }
    by destruct (Py.existsb _ _).
Qed.

Lemma isdigit_facts c :
  Py.isdigit c = true ->
  Ascii.eqb c "_" = false /\ Ascii.eqb c "+" = false /\ Ascii.eqb c "-" = false
  /\ Py.isspace c = false.
Proof.
  destruct c as [[] [] [] [] [] [] [] []]; vm_compute; intros H;
    try discriminate H; repeat split.
Qed.

Lemma uint_of_string_ascii s d :
  NilEmpty.uint_of_string s = Some d -> Py.forallb Py.is_ascii_digit s = true.
Proof.
  revert d. induction s as [|c s IH]; intros d; simpl; [done|].
  destruct (NilEmpty.uint_of_string s) as [d'|] eqn:Hs; [|done].
  intros Hc. rewrite (IH d') by done.
  apply uint_of_char_spec in Hc.
  destruct Hc as [[-> _]|[[-> _]|[[-> _]|[[-> _]|[[-> _]|[[-> _]|[[-> _]|
                 [[-> _]|[[-> _]|[-> _]]]]]]]]]]; reflexivity.
Qed.

Lemma ungroup_isdigit s :
  Py.forallb Py.isdigit s = true -> Py.ungroup true s = Some s.
Proof.
  induction s as [|c s IH]; simpl; [done|].
  intros [Hc Hs]%andb_prop. destruct (isdigit_facts c Hc) as (-> & _).
  by rewrite (IH Hs).
Qed.

(** [int] accepts a string of [isdigit] characters only when they are all
    ASCII decimal digits. *)
Lemma int_isdigit_ascii s z :
  Py.forallb Py.isdigit s = true -> Py.int s = Some z ->
  Py.forallb Py.is_ascii_digit s = true.
Proof.
  intros Hs. unfold Py.int. rewrite strip_id.
  2: { apply (forallb_impl Py.isdigit); [|done]. intros c Hc.
       destruct (isdigit_facts c Hc) as (_ & _ & _ & ->). done. }
  destruct s as [|c r]; [done|].
  pose proof Hs as [Hc _]%andb_prop.
  destruct (isdigit_facts c Hc) as (Hu & -> & -> & _).
  unfold Py.int_digits. rewrite Hu, (ungroup_isdigit _ Hs).
  change (Z.of_uint <$> NilEmpty.uint_of_string (String c r) = Some z ->
          Py.forallb Py.is_ascii_digit (String c r) = true).
  destruct (NilEmpty.uint_of_string (String c r)) as [d|] eqn:Hd; [|done].
  intros _. by apply uint_of_string_ascii in Hd.
Qed.

Lemma packed_parts_ascii s t :
  Py.forallb Py.isdigit s = true -> packed_parts s = Some t ->
  Py.forallb Py.is_ascii_digit s = true.
Proof.
  intros Hs. unfold packed_parts.
  destruct s as [|a [|b [|c [|d r]]]]; try done.
  - apply andb_prop in Hs as [Ha [Hb _]%andb_prop].
    change (Py.slice 0 1 (String a (String b ""))) with (String a "").
    change (Py.slice_from 1 (String a (String b ""))) with (String b "").
    simpl String.length. cbn [Nat.leb Nat.eqb].
    destruct (Py.int (String a "")) as [M|] eqn:HM; [|done].
    destruct (Py.int (String b "")) as [m|] eqn:Hm; [|done].
    intros _.
    apply int_isdigit_ascii in HM; [|by simpl; rewrite Ha].
    apply int_isdigit_ascii in Hm; [|by simpl; rewrite Hb].
    simpl in *. apply andb_prop in HM as [-> _]. by apply andb_prop in Hm as [-> _].
  - apply andb_prop in Hs as [Ha [Hb [Hc _]%andb_prop]%andb_prop].
    change (Py.slice 0 1 (String a (String b (String c "")))) with (String a "").
    change (Py.slice 1 2 (String a (String b (String c "")))) with (String b "").
    change (Py.slice_from 2 (String a (String b (String c "")))) with (String c "").
    simpl String.length. cbn [Nat.leb Nat.eqb].
    destruct (Py.int (String a "")) as [M|] eqn:HM; [|done].
    destruct (Py.int (String b "")) as [m|] eqn:Hm; [|done].
    destruct (Py.int (String c "")) as [p|] eqn:Hp; [|done].
    intros _.
    apply int_isdigit_ascii in HM; [|by simpl; rewrite Ha].
    apply int_isdigit_ascii in Hm; [|by simpl; rewrite Hb].
    apply int_isdigit_ascii in Hp; [|by simpl; rewrite Hc].
    simpl in *. apply andb_prop in HM as [-> _]. apply andb_prop in Hm as [-> _].
    by apply andb_prop in Hp as [-> _].
  - apply andb_prop in Hs as [Ha [Hb [Hc Hr]%andb_prop]%andb_prop].
    change (Py.slice 0 1 (String a (String b (String c (String d r)))))
      with (String a "").
    change (Py.slice 1 3 (String a (String b (String c (String d r)))))
      with (String b (String c "")).
    assert (Py.slice_from 3 (String a (String b (String c (String d r))))
            = String d r) as ->.
    { unfold Py.slice_from. simpl. by rewrite substring_all. }
    simpl String.length. cbn [Nat.leb Nat.eqb].
    destruct (Py.int (String a "")) as [M|] eqn:HM; [|done].
    destruct (Py.int (String b (String c ""))) as [m|] eqn:Hm; [|done].
    destruct (Py.int (String d r)) as [p|] eqn:Hp; [|done].
    intros _.
    apply int_isdigit_ascii in HM; [|by simpl; rewrite Ha].
    apply int_isdigit_ascii in Hm; [|by simpl; rewrite Hb, Hc].
    apply int_isdigit_ascii in Hp; [|done].
    cbn [Py.forallb] in *.
    apply andb_prop in HM as [-> _]. apply andb_prop in Hm as [-> [-> _]%andb_prop].
    by rewrite Hp.
Qed.

(** C1.  Every compact all-digit fragment of length at least 2 decodes to
    the same Version as the underscore-delimited form of the triple it
    encodes, whatever the preview flag and whatever the Version constructor
    does with the dotted text; ["51212"], ["600"], ["6_7_3"] and ["12"]
    decode to 5.12.12, 6.0.0, 6.7.3 and 1.2.0; the empty string, a packed
    fragment with a character that is not a decimal digit, a fragment of
    length at most 1 and an
    underscore fragment with fewer than 2 or more than 3 parts decode to
    nothing. *)
Theorem get_semantic_version_dual_encoding :
  (forall Version_new s is_preview,
      Py.forallb Py.is_ascii_digit s = true -> (2 <= String.length s)%nat ->
      exists M m p,
        packed_parts s = Some (M, m, p)
        /\ get_semantic_version Version_new s is_preview
           = Version_new (version_str M m p is_preview)
        /\ get_semantic_version Version_new (underscore_form M m p) is_preview
           = get_semantic_version Version_new s is_preview)
  /\ get_semantic_version Ver.of_string "51212" false = Some (Ver.release 5 12 12)
  /\ get_semantic_version Ver.of_string "600" false = Some (Ver.release 6 0 0)
  /\ get_semantic_version Ver.of_string "6_0_0" false = Some (Ver.release 6 0 0)
  /\ get_semantic_version Ver.of_string "6_7_3" false = Some (Ver.release 6 7 3)
  /\ get_semantic_version Ver.of_string "12" false = Some (Ver.release 1 2 0)
  /\ (forall Version_new is_preview,
        get_semantic_version Version_new "" is_preview = None)
  /\ (forall Version_new s is_preview,
        Py.contains_char "_" s = false ->
        Py.forallb Py.is_ascii_digit s = false ->
        get_semantic_version Version_new s is_preview = None)
  /\ (forall Version_new s is_preview,
        (String.length s <= 1)%nat ->
        get_semantic_version Version_new s is_preview = None)
  /\ (forall Version_new s is_preview,
        Py.contains_char "_" s = true ->
        (length (Py.split "_" s) < 2 \/ 3 < length (Py.split "_" s))%nat ->
        get_semantic_version Version_new s is_preview = None).
Proof.
  repeat split; try reflexivity.
  - intros Version_new s pv Hs Hlen.
    destruct (packed_parts_digits s Hs Hlen) as (M & m & p & Hp).
    exists M, m, p. split; [done|].
    rewrite get_semantic_version_underscore_form.
    by rewrite (get_semantic_version_packed _ s pv M m p).
  - intros Version_new s pv Hu Hd. unfold get_semantic_version. rewrite Hu.
    destruct (String.eqb s ""); [done|].
    unfold Py.existsb.
    rewrite (forallb_ext _ Py.isdigit) by (intros c; apply negb_involutive).
    destruct (Py.forallb Py.isdigit s) eqn:Hi; [|done]. simpl.
    destruct (packed_parts s) as [t|] eqn:Hp; [|done].
    apply packed_parts_ascii in Hp; [congruence|done].
  - intros Version_new s pv. apply get_semantic_version_short.
  - intros Version_new s pv Hu Hn. unfold get_semantic_version. rewrite Hu.
    destruct (String.eqb s ""); [done|].
    unfold underscore_parts.
    assert ((length (Py.split "_" s) <? 2)%nat
            || (3 <? length (Py.split "_" s))%nat = true) as ->; [|done].
    apply orb_true_iff. rewrite !Nat.ltb_lt. lia.
Qed.

(** ** RepositoryPathBuilder *)

Lemma ArchiveId_init_version Q c h t a :
  ArchiveId_init Q c h t = Ok a ->
  version a = None /\ category a = c /\ host a = h /\ target a = t.
Proof.
  unfold ArchiveId_init. intros Hok.
  destruct (negb (str_in c (CATEGORIES Q))); [discriminate|].
  destruct (negb (str_in h (HOSTS Q))); [discriminate|].
  destruct (TARGETS_FOR_HOST Q h) as [targets|]; [|discriminate].
  simpl in Hok. destruct (negb (str_in t targets)); [discriminate|].
  by injection Hok as <-.
Qed.

(** With the attribute [version] assigned, [to_url] is the path the spec
    describes: the flattened wasm path for a desktop target on a wasm host
    from 6.7.0 on, the host folder with its suffix otherwise. *)
Lemma to_url_with_version c h t v :
  to_url (mkArchiveId c h t (Some v)) =
  Ok (if String.eqb t "desktop"
         && str_in h ["wasm_singlethread"; "wasm_multithread"]
         && Ver.geb v (Ver.release 6 7 0)
      then "online/qtsdkrepository/all_os/wasm/"
      else "online/qtsdkrepository/" +:+ h +:+ host_arch h
           +:+ "/" +:+ t +:+ "/").
Proof.
  unfold to_url. simpl.
  destruct (String.eqb t "desktop"); [|done].
  destruct (str_in h _); [|done]. simpl.
  by destruct (Ver.geb v _).
Qed.

(** Off the wasm desktop case [to_url] never reads [version]. *)
Lemma to_url_other a :
  String.eqb (target a) "desktop"
  && str_in (host a) ["wasm_singlethread"; "wasm_multithread"] = false ->
  to_url a = Ok ("online/qtsdkrepository/" +:+ host a +:+ host_arch (host a)
                 +:+ "/" +:+ target a +:+ "/").
Proof.
  unfold to_url. intros Hc.
  destruct (String.eqb (target a) "desktop"); [|done].
  simpl in Hc. by rewrite Hc.
Qed.

(** C3.  An [ArchiveId] as its constructor builds it has no attribute
    [version]; for a desktop target on a wasm host [to_url] reads it and
    raises [AttributeError] instead of returning a path. *)
Theorem to_url_wasm_desktop_raises :
  to_url (mkArchiveId "qt" "wasm_singlethread" "desktop" None)
  = Raise (AttributeError "version")
  /\ to_url (mkArchiveId "qt" "wasm_multithread" "desktop" None)
     = Raise (AttributeError "version")
  /\ (forall Q c h a,
        h = "wasm_singlethread" \/ h = "wasm_multithread" ->
        ArchiveId_init Q c h "desktop" = Ok a ->
        to_url a = Raise (AttributeError "version")).
Proof.
  split; [reflexivity|]. split; [reflexivity|].
  intros Q c h a Hhost Hinit.
  destruct (ArchiveId_init_version _ _ _ _ _ Hinit) as (Hv & _ & Hh & Ht).
  unfold to_url. rewrite Hv, Hh, Ht. by destruct Hhost as [-> | ->].
Qed.

Lemma append_cons c s t : String c s +:+ t = String c (s +:+ t).
Proof. reflexivity. Qed.

Lemma append_nil_r s : s +:+ "" = s.
Proof. induction s as [|c s IH]; [done|]. by rewrite append_cons, IH. Qed.

Lemma append_assoc s t u : (s +:+ t) +:+ u = s +:+ t +:+ u.
Proof. induction s as [|c s IH]; [done|]. by rewrite !append_cons, IH. Qed.

Lemma append_eq_self s t : s +:+ t = s -> t = "".
Proof.
  intros E. apply (inj (String.app s)). by rewrite append_nil_r.
Qed.

(** C7.  The compact version string is the major, minor and patch digits
    in a row; the patch digits are left out exactly when the version is a
    prerelease, the archive id is a preview, or the version is 5.9.0.
    Version 5.9.0 gives ["59"], version 5.9.1 gives ["591"]. *)
Theorem get_qt_version_str_compact :
  (forall self v,
      _get_qt_version_str self v =
      if bool_decide (prerelease v <> None \/ is_preview (archive_id self) = true
                      \/ v = Ver.release 5 9 0)
      then Py.str (major v) +:+ Py.str (minor v)
      else Py.str (major v) +:+ Py.str (minor v) +:+ Py.str (patch v))
  /\ (forall self v,
        _get_qt_version_str self v = Py.str (major v) +:+ Py.str (minor v)
        <-> (prerelease v <> None \/ is_preview (archive_id self) = true
             \/ v = Ver.release 5 9 0))
  /\ (forall self, _get_qt_version_str self (Ver.release 5 9 0) = "59")
  /\ (forall self, _get_qt_version_str self (Ver.release 5 9 1) = "591").
Proof.
  assert (Hform : forall self v,
      _get_qt_version_str self v =
      if bool_decide (prerelease v <> None \/ is_preview (archive_id self) = true
                      \/ v = Ver.release 5 9 0)
      then Py.str (major v) +:+ Py.str (minor v)
      else Py.str (major v) +:+ Py.str (minor v) +:+ Py.str (patch v)).
  { intros self v. unfold _get_qt_version_str, is_preview. simpl.
    destruct (prerelease v) as [tag|] eqn:Hpre; simpl.
    - by rewrite append_nil_r.
    - destruct (bool_decide (v = Ver.release 5 9 0)) eqn:Hv.
      + apply bool_decide_eq_true in Hv.
        rewrite bool_decide_true by (right; right; done). by rewrite append_nil_r.
      + apply bool_decide_eq_false in Hv.
        rewrite bool_decide_false; [done|]. intros [?|[?|?]]; done. }
  split; [exact Hform|]. split; [|split; intros; reflexivity].
  intros self v. rewrite Hform. case_bool_decide as Hc; [done|].
  split; [|done]. intros E. exfalso.
  rewrite <- append_assoc in E. apply append_eq_self in E.
  by apply (str_nonempty (patch v)).
Qed.

(** ** QueryDispatcher: the tool name *)

Lemma startswith_app p s : Py.startswith (p +:+ s) p = true.
Proof.
  unfold Py.startswith. induction p as [|c p IH]; [by destruct s|].
  rewrite append_cons. simpl. by destruct (ascii_dec c c).
Qed.

(** C10.  For the tools category with a tool name given, the constructor
    captures the name with [tools_] prefixed unless it already starts with
    [tools_] or is [sdktool]; it does so while building the dispatcher,
    before any request.  ["ifw"] and ["tools_ifw"] give the same dispatcher
    and so the same manifest folder; ["sdktool"] is kept as it is. *)
Theorem tool_name_normalised :
  (forall S aid base_url spec latest mq av aq sq tool_name long,
      is_tools aid = true ->
      exists self,
        MetadataFactory_init S aid base_url spec latest mq av aq sq
          (Some tool_name) long = Ok self
        /\ archive_id self = aid
        /\ _action self =
           (if long then ActToolLongListing (_tool_name tool_name)
            else ActToolModules (_tool_name tool_name)))
  /\ (forall t, Py.startswith t "tools_" = false -> t <> "sdktool" ->
        _tool_name t = "tools_" +:+ t)
  /\ (forall t, Py.startswith t "tools_" = true -> _tool_name t = t)
  /\ _tool_name "sdktool" = "sdktool"
  /\ (forall t, _tool_name (_tool_name t) = _tool_name t)
  /\ _tool_name "ifw" = "tools_ifw"
  /\ (forall S aid base_url spec latest mq av aq sq long,
        MetadataFactory_init S aid base_url spec latest mq av aq sq
          (Some "ifw") long
        = MetadataFactory_init S aid base_url spec latest mq av aq sq
            (Some "tools_ifw") long)
  /\ (forall World (H : Helper World) S P self,
        fetch_tool_modules H S P self (_tool_name "ifw")
        = fetch_tool_modules H S P self (_tool_name "tools_ifw")).
Proof.
  assert (Hpre : forall t, Py.startswith t "tools_" = true -> _tool_name t = t).
  { intros t Ht. unfold _tool_name. by rewrite Ht. }
  assert (Hadd : forall t, Py.startswith t "tools_" = false -> t <> "sdktool" ->
                           _tool_name t = "tools_" +:+ t).
  { intros t Ht Hne. unfold _tool_name. rewrite Ht.
    apply String.eqb_neq in Hne. by rewrite Hne. }
  repeat split; try reflexivity; try done.
  - intros S aid base_url spec latest mq av aq sq tool_name long Htools.
    unfold MetadataFactory_init. rewrite Htools.
    destruct long; eexists; repeat split.
  - intros t. destruct (Py.startswith t "tools_") eqn:Ht.
    + by rewrite !(Hpre t Ht).
    + destruct (String.eqb_spec t "sdktool") as [->|Hne]; [reflexivity|].
      rewrite (Hadd t Ht Hne). apply Hpre, (startswith_app "tools_").
Qed.

(** ** DirectoryIndexParser *)

Section IndexParserFacts.

Variable P : Parsers.

Lemma normpath_nonempty p : Py.normpath p <> "".
Proof.
  unfold Py.normpath. destruct (String.eqb p ""); [done|]. cbv zeta.
  case_match eqn:He; [done|]. by apply String.eqb_neq.
Qed.

Lemma elem_of_yields_of f folder x :
  x ∈ yields_of f folder <->
  x = folder /\ (Py.startswith folder f = true \/ (f = "tools" /\ folder = "sdktool")).
Proof.
  unfold yields_of. rewrite elem_of_app. split.
  - intros [Hx|Hx].
    + destruct (Py.startswith folder f); [|by apply elem_of_nil in Hx].
      apply list_elem_of_singleton in Hx. auto.
    + destruct (String.eqb_spec f "tools") as [->|]; simpl in Hx;
        [|by apply elem_of_nil in Hx].
      destruct (String.eqb_spec folder "sdktool") as [->|];
        [|by apply elem_of_nil in Hx].
      apply list_elem_of_singleton in Hx. auto.
  - intros [-> [Hs|[-> ->]]].
    + left. rewrite Hs. by apply list_elem_of_singleton.
    + right. simpl. by apply list_elem_of_singleton.
Qed.

(** A folder comes out of an anchor exactly when the [href] parses without
    scheme and network location, its normalised path is one segment other
    than [.] and [..], and the segment starts with the filter or is the
    [sdktool] exception of the [tools] filter. *)
Lemma elem_of_link_yields f link x :
  x ∈ link_yields P f link <->
  exists u,
    urlparse P (default "" link) = Ok u
    /\ scheme u = "" /\ netloc u = ""
    /\ x = Py.normpath (path u)
    /\ Py.contains_char "/" x = false /\ x <> "." /\ x <> ".."
    /\ (Py.startswith x f = true \/ (f = "tools" /\ x = "sdktool")).
Proof.
  unfold link_yields, link_to_folder.
  destruct (urlparse P (default "" link)) as [u|e]; simpl.
  2: { split; [by intros ?%elem_of_nil|]. by intros (u & [=] & _). }
  destruct (String.eqb_spec (scheme u) "") as [Hs|Hs]; simpl.
  2: { split; [by intros ?%elem_of_nil|].
       intros (u' & [= <-] & ? & _). done. }
  destruct (String.eqb_spec (netloc u) "") as [Hn|Hn]; simpl.
  2: { split; [by intros ?%elem_of_nil|].
       intros (u' & [= <-] & _ & ? & _). done. }
  destruct (Py.contains_char "/" (Py.normpath (path u))) eqn:Hc; simpl.
  { split; [by intros ?%elem_of_nil|].
    intros (u' & [= <-] & _ & _ & -> & Hc' & _). congruence. }
  destruct (String.eqb_spec (Py.normpath (path u)) ".") as [Hd|Hd]; simpl.
  { split; [by intros ?%elem_of_nil|].
    intros (u' & [= <-] & _ & _ & -> & _ & ? & _). done. }
  destruct (String.eqb_spec (Py.normpath (path u)) "..") as [Hdd|Hdd]; simpl.
  { split; [by intros ?%elem_of_nil|].
    intros (u' & [= <-] & _ & _ & -> & _ & _ & ? & _). done. }
  destruct (String.eqb_spec (Py.normpath (path u)) "") as [He|_].
  { by apply normpath_nonempty in He. }
  rewrite elem_of_yields_of. split.
  - intros [-> Hy]. exists u. repeat split; done.
  - intros (u' & [= <-] & _ & _ & -> & _ & _ & _ & Hy). done.
Qed.

(** Without a parse failure the generator yields what the anchors
    contribute, in order. *)
Lemma iterate_links_all html_url f links :
  (forall link, link ∈ links -> exists u, urlparse P (default "" link) = Ok u) ->
  iterate_links P html_url f links = (flat_map (link_yields P f) links, None).
Proof.
  induction links as [|link links IH]; intros Hall; simpl; [done|].
  destruct (Hall link) as [u Hu]; [by left|].
  rewrite IH by (intros l Hl; apply Hall; by right).
  unfold link_yields.
  destruct (link_to_folder P link) as [folder|e] eqn:Hf.
  - by destruct (String.eqb folder "").
  - unfold link_to_folder in Hf. rewrite Hu in Hf. simpl in Hf.
    repeat match type of Hf with
           | (if ?b then _ else _) = _ => destruct b
           end; discriminate.
Qed.

(** Whatever is yielded was contributed by one of the anchors, also when a
    parse failure cuts the iteration short. *)
Lemma iterate_links_sound html_url f links x :
  x ∈ (iterate_links P html_url f links).1 ->
  exists link, link ∈ links /\ x ∈ link_yields P f link.
Proof.
  induction links as [|link links IH]; simpl; [by intros ?%elem_of_nil|].
  unfold link_yields at 1.
  destruct (link_to_folder P link) as [folder|e] eqn:Hf;
    [|by intros ?%elem_of_nil].
  destruct (String.eqb folder "") eqn:He.
  - intros Hx. destruct (IH Hx) as (l & Hl & Hxl).
    exists l. split; [by right|done].
  - destruct (iterate_links P html_url f links) as [rest err]. simpl in *.
    intros [Hx|Hx]%elem_of_app.
    + exists link. split; [by left|]. unfold link_yields. by rewrite Hf, He.
    + destruct (IH Hx) as (l & Hl & Hxl). exists l. split; [by right|done].
Qed.

End IndexParserFacts.

(** C6.  Over any anchor collection and any prefix filter: an anchor whose
    [href] has a scheme or a network location yields nothing; so does one
    whose normalised path is [.] or [..] or holds a separator, and the
    normalised path is never empty; a single segment is yielded when it
    starts with the filter, which the empty filter always grants; and under
    the filter [tools] the segment [sdktool] is yielded although it lacks
    the prefix.  Nothing else is ever yielded. *)
Theorem iterate_folders_filter :
  forall (P : Parsers) (html_doc html_url filter_category : string)
         (links : list (option string)),
    (find_all_a P html_doc = Ok links ->
     iterate_folders P html_doc html_url filter_category
     = iterate_links P html_url filter_category links)
    /\ ((forall link, link ∈ links ->
           exists u, urlparse P (default "" link) = Ok u) ->
        iterate_links P html_url filter_category links
        = (flat_map (link_yields P filter_category) links, None))
    /\ (forall x, x ∈ (iterate_links P html_url filter_category links).1 ->
          exists link, link ∈ links /\ x ∈ link_yields P filter_category link)
    /\ (forall link u, urlparse P (default "" link) = Ok u ->
          scheme u <> "" \/ netloc u <> "" ->
          link_yields P filter_category link = [])
    /\ (forall link u, urlparse P (default "" link) = Ok u ->
          Py.normpath (path u) <> ""
          /\ (Py.normpath (path u) = "." \/ Py.normpath (path u) = ".."
              \/ Py.contains_char "/" (Py.normpath (path u)) = true ->
              link_yields P filter_category link = []))
    /\ (forall link u, urlparse P (default "" link) = Ok u ->
          scheme u = "" -> netloc u = "" ->
          Py.contains_char "/" (Py.normpath (path u)) = false ->
          Py.normpath (path u) <> "." -> Py.normpath (path u) <> ".." ->
          (Py.startswith (Py.normpath (path u)) filter_category = true ->
           link_yields P filter_category link = [Py.normpath (path u)])
          /\ (filter_category = "" ->
              link_yields P filter_category link = [Py.normpath (path u)])
          /\ (filter_category = "tools" -> Py.normpath (path u) = "sdktool" ->
              link_yields P filter_category link = ["sdktool"])).
Proof.
  intros P html_doc html_url f links. repeat split.
  - intros Hfind. unfold iterate_folders. by rewrite Hfind.
  - apply iterate_links_all.
  - apply iterate_links_sound.
  - intros link u Hu Hext. apply elem_of_nil_inv. intros x Hx.
    apply elem_of_link_yields in Hx as (u' & Hu' & Hs & Hn & _).
    rewrite Hu in Hu'. injection Hu' as <-. destruct Hext; done.
  - apply normpath_nonempty.
  - intros Hbad. apply elem_of_nil_inv. intros x Hx.
    apply elem_of_link_yields in Hx as (u' & Hu' & _ & _ & -> & Hc & Hd & Hdd & _).
    rewrite H in Hu'. injection Hu' as <-.
    destruct Hbad as [?|[?|?]]; congruence.
  - intros Hstart. unfold link_yields, link_to_folder. rewrite H. simpl.
    rewrite H0, H1, H2. simpl.
    apply String.eqb_neq in H3, H4. rewrite H3, H4. simpl.
    pose proof (normpath_nonempty (path u)) as Hne.
    apply String.eqb_neq in Hne. rewrite Hne.
    unfold yields_of. rewrite Hstart.
    destruct (String.eqb_spec f "tools") as [->|]; [|done]. simpl.
    destruct (String.eqb_spec (Py.normpath (path u)) "sdktool") as [E|]; [|done].
    rewrite E in Hstart. discriminate Hstart.
  - intros ->. unfold link_yields, link_to_folder. rewrite H. simpl.
    rewrite H0, H1, H2. simpl.
    apply String.eqb_neq in H3, H4. rewrite H3, H4. simpl.
    pose proof (normpath_nonempty (path u)) as Hne.
    apply String.eqb_neq in Hne. rewrite Hne.
    unfold yields_of. simpl. unfold Py.startswith. simpl.
    by destruct (Py.normpath (path u)).
  - intros -> Hsdk. unfold link_yields, link_to_folder. rewrite H. simpl.
    rewrite H0, H1. simpl. rewrite Hsdk. reflexivity.
Qed.

(** ** The order on versions *)

Module VerFacts.

Lemma string_compare_refl s : String.compare s s = Eq.
Proof.
  induction s as [|a s IH]; simpl; [done|].
  unfold Ascii.compare. by rewrite N.compare_refl.
Qed.

Lemma ascii_compare_lt_trans a b c :
  Ascii.compare a b = Lt -> Ascii.compare b c = Lt -> Ascii.compare a c = Lt.
Proof.
  unfold Ascii.compare. rewrite !N.compare_lt_iff. apply N.lt_trans.
Qed.

Lemma ascii_compare_eq a b : Ascii.compare a b = Eq -> a = b.
Proof. apply Ascii.compare_eq_iff. Qed.

Lemma string_compare_lt_trans s t u :
  String.compare s t = Lt -> String.compare t u = Lt -> String.compare s u = Lt.
Proof.
  revert t u. induction s as [|a s IH]; intros [|b t] [|c u]; simpl; try done.
  destruct (Ascii.compare a b) eqn:Hab; try done;
    destruct (Ascii.compare b c) eqn:Hbc; try done.
  - apply ascii_compare_eq in Hab as ->. apply ascii_compare_eq in Hbc as ->.
    assert (Ascii.compare c c = Eq) as ->
      by (unfold Ascii.compare; apply N.compare_refl).
    apply IH.
  - apply ascii_compare_eq in Hab as ->. by rewrite Hbc.
  - apply ascii_compare_eq in Hbc as <-. by rewrite Hab.
  - by rewrite (ascii_compare_lt_trans a b c).
Qed.

Lemma prerelease_compare_refl p : Ver.prerelease_compare p p = Eq.
Proof. destruct p; simpl; [apply string_compare_refl|done]. Qed.

Lemma prerelease_compare_eq p q : Ver.prerelease_compare p q = Eq -> p = q.
Proof.
  destruct p, q; simpl; try done. by intros ->%String.compare_eq_iff.
Qed.

Lemma prerelease_compare_antisym p q :
  Ver.prerelease_compare q p = CompOpp (Ver.prerelease_compare p q).
Proof. destruct p, q; simpl; try done. apply String.compare_antisym. Qed.

Lemma prerelease_compare_lt_trans p q r :
  Ver.prerelease_compare p q = Lt -> Ver.prerelease_compare q r = Lt ->
  Ver.prerelease_compare p r = Lt.
Proof. destruct p, q, r; simpl; try done. apply string_compare_lt_trans. Qed.

Ltac zcompare :=
  repeat match goal with
         | H : context [(?x ?= ?y)%Z] |- _ =>
             destruct (Z.compare_spec x y); try discriminate H; try lia; subst
         | |- context [(?x ?= ?y)%Z] =>
             destruct (Z.compare_spec x y); try lia; subst
         end.

Lemma compare_refl v : Ver.compare v v = Eq.
Proof.
  unfold Ver.compare. rewrite !Z.compare_refl. apply prerelease_compare_refl.
Qed.

Lemma compare_eq v w : Ver.compare v w = Eq -> v = w.
Proof.
  destruct v as [a b c p], w as [a' b' c' p']. unfold Ver.compare. simpl.
  intros Hc. zcompare. by apply prerelease_compare_eq in Hc as ->.
Qed.

Lemma compare_antisym v w : Ver.compare w v = CompOpp (Ver.compare v w).
Proof.
  destruct v as [a b c p], w as [a' b' c' p']. unfold Ver.compare. simpl.
  rewrite (Z.compare_antisym a a'), (Z.compare_antisym b b'),
    (Z.compare_antisym c c').
  destruct (a ?= a'); simpl; try done.
  destruct (b ?= b'); simpl; try done.
  destruct (c ?= c'); simpl; try done.
  apply prerelease_compare_antisym.
Qed.

Lemma compare_lt_trans u v w :
  Ver.compare u v = Lt -> Ver.compare v w = Lt -> Ver.compare u w = Lt.
Proof.
  destruct u as [a b c p], v as [a' b' c' p'], w as [a'' b'' c'' p''].
  unfold Ver.compare. simpl. intros H1 H2.
  destruct (Z.compare_spec a a'), (Z.compare_spec a' a''); try discriminate;
    subst; rewrite ?Z.compare_refl;
    try (assert ((a ?= a'') = Lt) as -> by (apply Z.compare_lt_iff; lia); done);
    try (by match goal with H : (_ < _)%Z |- _ =>
              apply Z.compare_lt_iff in H; rewrite H end).
  destruct (Z.compare_spec b b'), (Z.compare_spec b' b''); try discriminate;
    subst; rewrite ?Z.compare_refl;
    try (assert ((b ?= b'') = Lt) as -> by (apply Z.compare_lt_iff; lia); done);
    try (by match goal with H : (_ < _)%Z |- _ =>
              apply Z.compare_lt_iff in H; rewrite H end).
  destruct (Z.compare_spec c c'), (Z.compare_spec c' c''); try discriminate;
    subst; rewrite ?Z.compare_refl;
    try (assert ((c ?= c'') = Lt) as -> by (apply Z.compare_lt_iff; lia); done);
    try (by match goal with H : (_ < _)%Z |- _ =>
              apply Z.compare_lt_iff in H; rewrite H end).
  by apply (prerelease_compare_lt_trans p p' p'').
Qed.

#[global] Instance le_refl : Reflexive Ver.le.
Proof. intros v. unfold Ver.le, Ver.leb. by rewrite compare_refl. Qed.

#[global] Instance le_total : Total Ver.le.
Proof.
  intros v w. unfold Ver.le, Ver.leb. rewrite (compare_antisym v w).
  destruct (Ver.compare v w); simpl; auto.
Qed.

#[global] Instance le_trans : Transitive Ver.le.
Proof.
  intros u v w. unfold Ver.le, Ver.leb.
  destruct (Ver.compare u v) eqn:Huv; try done;
    destruct (Ver.compare v w) eqn:Hvw; try done; intros _ _.
  - apply compare_eq in Huv as ->. by rewrite Hvw.
  - apply compare_eq in Huv as ->. by rewrite Hvw.
  - apply compare_eq in Hvw as <-. by rewrite Huv.
  - by rewrite (compare_lt_trans u v w).
Qed.

#[global] Instance le_antisym : AntiSymm (=) Ver.le.
Proof.
  intros v w. unfold Ver.le, Ver.leb. rewrite (compare_antisym v w).
  destruct (Ver.compare v w) eqn:Hc; simpl; try done.
  intros _ _. by apply compare_eq.
Qed.

Lemma ltb_false_le v w : Ver.ltb v w = false -> Ver.le w v.
Proof.
  unfold Ver.ltb, Ver.le, Ver.leb. rewrite (compare_antisym v w).
  by destruct (Ver.compare v w).
Qed.

Lemma ltb_true_le v w : Ver.ltb v w = true -> Ver.le v w.
Proof. unfold Ver.ltb, Ver.le, Ver.leb. by destruct (Ver.compare v w). Qed.

End VerFacts.

(** ** Tool selection *)

Section ToolSelectionFacts.

Variable permissive : string -> option Version.

Lemma tools_versions_unparsable all_tools_data :
  (forall name tool_data, (name, tool_data) ∈ all_tools_data ->
     is_Some (tool_data !! "Version")) ->
  (exists name tool_data version_text,
     (name, tool_data) ∈ all_tools_data
     /\ tool_data !! "Version" = Some version_text
     /\ permissive version_text = None) ->
  tools_versions permissive all_tools_data = Ok None.
Proof.
  induction all_tools_data as [|[n td] items IH]; intros Hkey Hbad.
  { destruct Hbad as (? & ? & ? & Hin & _). by apply elem_of_nil in Hin. }
  simpl. destruct (Hkey n td) as [text Htext]; [by left|].
  rewrite Htext. simpl.
  destruct (permissive text) as [v|] eqn:Hv; [|done].
  rewrite IH; [done| |].
  - intros n' td' Hin. apply (Hkey n'). by right.
  - destruct Hbad as (n' & td' & text' & Hin & Ht' & Hp').
    apply elem_of_cons in Hin as [[= -> ->]|Hin].
    + rewrite Htext in Ht'. injection Ht' as <-. congruence.
    + eauto 6.
Qed.

Lemma tools_versions_parsed all_tools_data :
  (forall name tool_data, (name, tool_data) ∈ all_tools_data ->
     is_Some (tool_data !! "Version")) ->
  (forall name tool_data version_text,
     (name, tool_data) ∈ all_tools_data ->
     tool_data !! "Version" = Some version_text ->
     is_Some (permissive version_text)) ->
  exists l,
    tools_versions permissive all_tools_data = Ok (Some l)
    /\ forall name tool_data v,
         (name, tool_data, v) ∈ l <-> declares permissive all_tools_data name tool_data v.
Proof.
  induction all_tools_data as [|[n td] items IH]; intros Hkey Hparse.
  { exists []. split; [done|]. intros n td v. split.
    - by intros ?%elem_of_nil.
    - by intros [?%elem_of_nil _]. }
  simpl. destruct (Hkey n td) as [text Htext]; [by left|].
  rewrite Htext. simpl.
  destruct (Hparse n td text) as [v Hv]; [by left|done|]. rewrite Hv.
  destruct IH as (l & -> & Hl).
  { intros n' td' Hin. apply (Hkey n'). by right. }
  { intros n' td' t' Hin. apply (Hparse n'). by right. }
  simpl. exists ((n, td, v) :: l). split; [done|].
  intros n' td' v'. rewrite elem_of_cons, Hl. unfold declares. split.
  - intros [[= -> -> ->]|[Hin Hd]].
    + split; [by left|eauto].
    + split; [by right|done].
  - intros [Hin (t' & Ht' & Hp')].
    apply elem_of_cons in Hin as [[= -> ->]|Hin].
    + left. rewrite Htext in Ht'. injection Ht' as <-. congruence.
    + right. split; eauto.
Qed.

Lemma fold_max_spec (l : list (string * attrs * Version)) x :
  let best :=
    fold_left (fun best item =>
                 if Ver.ltb (snd best) (snd item) then item else best) l x in
  Ver.le (snd x) (snd best)
  /\ (forall y, y ∈ l -> Ver.le (snd y) (snd best))
  /\ (best = x \/ best ∈ l).
Proof.
  revert x. induction l as [|item l IH]; intros x; simpl.
  { split; [reflexivity|]. split; [by intros y ?%elem_of_nil|by left]. }
  destruct (Ver.ltb (snd x) (snd item)) eqn:Hlt.
  - destruct (IH item) as (Hge & Hall & Hmem).
    split; [|split].
    + etrans; [|exact Hge]. by apply VerFacts.ltb_true_le.
    + intros y [->|Hy]%elem_of_cons; auto.
    + right. destruct Hmem as [->|Hin]; [by left|by right].
  - destruct (IH x) as (Hge & Hall & Hmem).
    split; [done|]. split.
    + intros y [->|Hy]%elem_of_cons; auto.
      etrans; [|exact Hge]. by apply VerFacts.ltb_false_le.
    + destruct Hmem as [->|Hin]; [by left|right; by right].
Qed.

Lemma max_by_version_spec l :
  match max_by_version l with
  | None => l = []
  | Some best => best ∈ l /\ forall y, y ∈ l -> Ver.le (snd y) (snd best)
  end.
Proof.
  destruct l as [|x l]; simpl; [done|].
  destruct (fold_max_spec l x) as (Hge & Hall & Hmem). split.
  - destruct Hmem as [->|Hin]; [by left|by right].
  - intros y [->|Hy]%elem_of_cons; auto.
Qed.

End ToolSelectionFacts.

(** C9.  When every candidate declares a [Version] attribute: if one of
    them does not parse, the selection is absent as a whole; otherwise the
    candidates are filtered to those whose parsed version is in the spec
    and the attributes of one with the greatest parsed version are
    returned, or nothing when no candidate is in the spec. *)
Theorem choose_highest_version_in_spec_max :
  forall (permissive : string -> option Version) (all_tools_data : dict attrs)
         (simple_spec : SimpleSpec),
    (forall name tool_data, (name, tool_data) ∈ all_tools_data ->
       is_Some (tool_data !! "Version")) ->
    ((exists name tool_data version_text,
        (name, tool_data) ∈ all_tools_data
        /\ tool_data !! "Version" = Some version_text
        /\ permissive version_text = None) ->
     choose_highest_version_in_spec permissive all_tools_data simple_spec
     = Ok None)
    /\ ((forall name tool_data version_text,
           (name, tool_data) ∈ all_tools_data ->
           tool_data !! "Version" = Some version_text ->
           is_Some (permissive version_text)) ->
        ((forall name tool_data v,
            declares permissive all_tools_data name tool_data v ->
            matches simple_spec v = false) ->
         choose_highest_version_in_spec permissive all_tools_data simple_spec
         = Ok None)
        /\ ((exists name tool_data v,
               declares permissive all_tools_data name tool_data v
               /\ matches simple_spec v = true) ->
            exists name tool_data v,
              choose_highest_version_in_spec permissive all_tools_data simple_spec
              = Ok (Some tool_data)
              /\ declares permissive all_tools_data name tool_data v
              /\ matches simple_spec v = true
              /\ forall name' tool_data' v',
                   declares permissive all_tools_data name' tool_data' v' ->
                   matches simple_spec v' = true ->
                   Ver.le v' v)).
Proof.
  intros permissive all_tools_data simple_spec Hkey. split.
  { intros Hbad. unfold choose_highest_version_in_spec.
    by rewrite (tools_versions_unparsable permissive _ Hkey Hbad). }
  intros Hparse.
  destruct (tools_versions_parsed permissive _ Hkey Hparse) as (l & Hl & Hmem).
  unfold choose_highest_version_in_spec. rewrite Hl. simpl.
  set (kept := List.filter _ l).
  assert (Hkept : forall n td v,
            (n, td, v) ∈ kept <->
            declares permissive all_tools_data n td v
            /\ matches simple_spec v = true).
  { intros n td v. unfold kept.
    rewrite list_elem_of_In, filter_In, <- list_elem_of_In, Hmem. done. }
  pose proof (max_by_version_spec kept) as Hmax.
  split.
  - intros Hnone. destruct (max_by_version kept) as [[[n td] v]|]; [|done].
    destruct Hmax as [Hin _]. apply Hkept in Hin as [Hd Hm].
    rewrite (Hnone _ _ _ Hd) in Hm. discriminate.
  - intros (n0 & td0 & v0 & Hd0 & Hm0).
    destruct (max_by_version kept) as [[[n td] v]|].
    + destruct Hmax as [Hin Hge]. apply Hkept in Hin as [Hd Hm].
      exists n, td, v. split; [done|]. split; [done|]. split; [done|].
      intros n' td' v' Hd' Hm'.
      apply (Hge (n', td', v')). apply Hkept. done.
    + assert ((n0, td0, v0) ∈ kept) as Hin by (apply Hkept; done).
      rewrite Hmax in Hin. by apply elem_of_nil in Hin.
Qed.

(** ** Version-list resolution *)

Section GroupbyFacts.

Context {A : Type} (key : A -> Z).

Lemma groupby_concat l : concat (map snd (Py.groupby key l)) = l.
Proof.
  induction l as [|x l IH]; simpl; [done|].
  destruct (Py.groupby key l) as [|[k g] gs]; simpl in *.
  - by rewrite <- IH.
  - destruct (key x =? k); simpl; by rewrite <- IH.
Qed.

Lemma groupby_groups l k g :
  (k, g) ∈ Py.groupby key l -> g <> [] /\ forall x, x ∈ g -> key x = k.
Proof.
  revert k g. induction l as [|x l IH]; intros k g; simpl.
  { by intros ?%elem_of_nil. }
  destruct (Py.groupby key l) as [|[k' g'] gs].
  - intros [= -> ->]%list_elem_of_singleton. split; [done|].
    by intros y ->%list_elem_of_singleton.
  - destruct (Z.eqb_spec (key x) k') as [Hk|Hk].
    + intros [[= -> ->]|Hin]%elem_of_cons.
      * split; [done|]. intros y [->|Hy]%elem_of_cons; [done|].
        apply (IH k' g'); [by left|done].
      * apply IH. by right.
    + intros [[= -> ->]|Hin]%elem_of_cons.
      * split; [done|]. by intros y ->%list_elem_of_singleton.
      * by apply IH.
Qed.

(** Two neighbouring groups have different keys: the runs are maximal. *)
Lemma groupby_maximal l i k1 g1 k2 g2 :
  Py.groupby key l !! i = Some (k1, g1) ->
  Py.groupby key l !! (i + 1)%nat = Some (k2, g2) ->
  k1 <> k2.
Proof.
  revert i k1 g1 k2 g2. induction l as [|x l IH]; intros i k1 g1 k2 g2; simpl.
  { done. }
  destruct (Py.groupby key l) as [|[k' g'] gs] eqn:Hg.
  - destruct i; simpl; done.
  - destruct (Z.eqb_spec (key x) k') as [Hk|Hk].
    + destruct i as [|i]; simpl.
      * intros [= <- <-] H2. by apply (IH 0%nat k' g' k2 g2).
      * intros H1 H2. by apply (IH (S i) k1 g1 k2 g2).
    + destruct i as [|i]; simpl.
      * intros [= <- <-] [= <- <-]. done.
      * intros H1 H2. by apply (IH i k1 g1 k2 g2).
Qed.

End GroupbyFacts.

Lemma StronglySorted_concat {A} (R : relation A) (gs : list (list A)) g :
  StronglySorted R (concat gs) -> g ∈ gs -> StronglySorted R g.
Proof.
  induction gs as [|g' gs IH]; simpl; [by intros _ ?%elem_of_nil|].
  intros Hs [->|Hin]%elem_of_cons.
  - by apply StronglySorted_app_1_l in Hs.
  - apply IH; [|done]. by apply StronglySorted_app_1_r in Hs.
Qed.

Lemma last_concat_nonempty {A} (gs : list (list A)) :
  (forall g, g ∈ gs -> g <> []) ->
  last (concat gs) = last gs ≫= last.
Proof.
  induction gs as [|g gs IH]; intros Hne; simpl; [done|].
  destruct gs as [|g' gs].
  - simpl. by rewrite app_nil_r.
  - rewrite last_app. rewrite IH by (intros h Hh; apply Hne; by right).
    assert (is_Some (last (g' :: gs) ≫= last)) as [v Hv].
    { rewrite <- IH by (intros h Hh; apply Hne; by right).
      apply last_is_Some. simpl.
      assert (g' <> []) by (apply Hne; right; by left).
      destruct g'; done. }
    change (last (g :: g' :: gs)) with (last (g' :: gs)). by rewrite Hv.
Qed.

Section VersionsFacts.

Variables (self : MetadataFactory) (extension : string).

Lemma elem_of_kept_versions ves v :
  v ∈ kept_versions self extension ves <->
  (Some v, extension) ∈ ves /\ spec_matches self v.
Proof.
  unfold kept_versions. rewrite list_elem_of_omap. split.
  - intros ([[w|] ext] & Hin & Hk); [|done].
    unfold filter_by in Hk.
    destruct (_ && _) eqn:Hf; [|done]. injection Hk as ->.
    apply andb_prop in Hf as [Hs He].
    apply String.eqb_eq in He as ->. split; [done|].
    unfold spec_matches. by destruct (spec self).
  - intros [Hin Hs]. exists (Some v, extension). split; [done|].
    unfold filter_by. rewrite String.eqb_refl.
    unfold spec_matches in Hs. destruct (spec self); [by rewrite Hs|done].
Qed.

Lemma sorted_versions_perm l : sorted_versions l ≡ₚ l.
Proof. apply merge_sort_Permutation. Qed.

Lemma sorted_versions_sorted l : StronglySorted Ver.le (sorted_versions l).
Proof. apply StronglySorted_merge_sort; apply _. Qed.

Lemma flattened_group_versions ves :
  flattened (group_versions self extension ves)
  = sorted_versions (kept_versions self extension ves).
Proof. unfold flattened, group_versions. simpl. apply groupby_concat. Qed.

Lemma group_versions_groups ves g :
  g ∈ versions (group_versions self extension ves) ->
  g <> [] /\ exists k, forall v, v ∈ g -> minor v = k.
Proof.
  unfold group_versions. simpl. intros Hin.
  apply list_elem_of_fmap in Hin as ([k g'] & -> & Hin).
  apply groupby_groups in Hin as [Hne Hk]. split; [done|]. by exists k.
Qed.

Lemma latest_group_versions ves :
  latest (group_versions self extension ves)
  = Ok (last (flattened (group_versions self extension ves))).
Proof.
  unfold latest, flattened.
  rewrite last_concat_nonempty
    by (intros g Hg; by apply (group_versions_groups ves) in Hg as [? _]).
  unfold Versions_bool, Py.last_item.
  destruct (versions (group_versions self extension ves)) as [|g gs] eqn:Hv;
    [done|].
  assert (g <> []) as Hg.
  { apply (group_versions_groups ves). rewrite Hv. by left. }
  assert (exists g', last (g :: gs) = Some g' /\ g' <> []) as (g' & Hlast & Hg').
  { destruct (last (g :: gs)) as [g'|] eqn:Hl.
    - exists g'. split; [done|]. apply (group_versions_groups ves).
      rewrite Hv. by apply last_Some_elem_of.
    - by apply last_None in Hl. }
  destruct g as [|v g]; [done|]. simpl negb.
  rewrite Hlast. simpl.
  destruct (last g') as [w|] eqn:Hw; [done|].
  by apply last_None in Hw.
Qed.

End VersionsFacts.

Lemma fetch_versions_ok {World} (H : Helper World) S P Version_new self extension
    st st' url html_doc ves :
  to_url (archive_id self) = Ok url ->
  fetch_http H S self url false st = (Ok html_doc, st') ->
  get_versions_extensions P Version_new self html_doc (category (archive_id self))
  = (ves, None) ->
  fetch_versions H S P Version_new self extension st
  = (Ok (group_versions self extension ves), st').
Proof.
  intros Hurl Hfetch Hves. unfold fetch_versions.
  rewrite Hurl. unfold mbind, M_bind, lift. simpl. rewrite Hfetch.
  by rewrite Hves.
Qed.

(** C5, as the code has it.  The Versions value built from the decoded
    folders holds exactly the versions that match the spec and were decoded
    from a folder whose extension is the requested one; its groups are not
    empty, the versions of a group share their minor number, the value is
    sorted ascending overall and within each group, and [latest] is the last
    version of the last group, or nothing for an empty value; it is what
    [fetch_versions] returns once the page is fetched and parsed.  The folders
    5.12.1, 5.12.0, 6.0.0, 5.15.0 without a spec give the groups
    [[5.12.0, 5.12.1], [5.15.0], [6.0.0]] and the latest version 6.0.0. *)
Theorem group_versions_invariant :
  forall (self : MetadataFactory) (extension : string)
         (versions_extensions : list (option Version * string)),
    let V := group_versions self extension versions_extensions in
    (forall v, v ∈ flattened V <->
               (Some v, extension) ∈ versions_extensions /\ spec_matches self v)
    /\ flattened V ≡ₚ kept_versions self extension versions_extensions
    /\ (forall g, g ∈ versions V ->
          g <> [] /\ exists k, forall v, v ∈ g -> minor v = k)
    /\ StronglySorted Ver.le (flattened V)
    /\ (forall g, g ∈ versions V -> StronglySorted Ver.le g)
    /\ latest V = Ok (last (versions V) ≫= last)
    /\ (versions V = [] -> latest V = Ok None)
    /\ (forall World (H : Helper World) S P Version_new st st' url html_doc,
          to_url (archive_id self) = Ok url ->
          fetch_http H S self url false st = (Ok html_doc, st') ->
          get_versions_extensions P Version_new self html_doc
            (category (archive_id self)) = (versions_extensions, None) ->
          fetch_versions H S P Version_new self extension st = (Ok V, st'))
    /\ (spec self = None -> extension = "" ->
        versions (group_versions self extension Sample.example_versions)
        = [[Ver.release 5 12 0; Ver.release 5 12 1]; [Ver.release 5 15 0];
           [Ver.release 6 0 0]]
        /\ latest (group_versions self extension Sample.example_versions)
           = Ok (Some (Ver.release 6 0 0))).
Proof.
  intros self extension ves V.
  assert (Hflat : flattened V = sorted_versions (kept_versions self extension ves))
    by apply flattened_group_versions.
  split; [|split; [|split; [|split; [|split; [|split; [|split; [|split]]]]]]].
  - intros v. rewrite Hflat, sorted_versions_perm. apply elem_of_kept_versions.
  - rewrite Hflat. apply sorted_versions_perm.
  - apply group_versions_groups.
  - rewrite Hflat. apply sorted_versions_sorted.
  - intros g Hg. apply (StronglySorted_concat _ (versions V)); [|done].
    fold (flattened V). rewrite Hflat. apply sorted_versions_sorted.
  - unfold V. rewrite latest_group_versions. f_equal. unfold flattened.
    apply last_concat_nonempty. intros g Hg.
    by apply (group_versions_groups self extension ves) in Hg as [? _].
  - intros Hnil. unfold latest, Versions_bool. by rewrite Hnil.
  - intros World H S P Version_new st st' url html_doc.
    apply fetch_versions_ok.
  - intros Hspec ->. unfold group_versions, kept_versions, filter_by.
    rewrite Hspec. split; vm_compute; reflexivity.
Qed.

(** C5 as stated fails: a version decoded from a folder with another
    extension matches the absent spec and is left out. *)
Lemma group_versions_extension_counterexample :
  let self :=
    mkMetadataFactory (mkArchiveId "qt" "linux" "desktop" None) None
      "https://download.qt.io" "versions" ActVersions in
  let ves := map (folder_to_version_extension Ver.of_string)
                 ["qt6_620"; "qt6_630_wasm"] in
  ves = [(Some (Ver.release 6 2 0), ""); (Some (Ver.release 6 3 0), "wasm")]
  /\ versions (group_versions self "" ves) = [[Ver.release 6 2 0]]
  /\ spec_matches self (Ver.release 6 3 0)
  /\ ~ (forall v, v ∈ flattened (group_versions self "" ves) <->
                  (exists ext, (Some v, ext) ∈ ves) /\ spec_matches self v).
Proof.
  cbv zeta. split; [vm_compute; reflexivity|].
  split; [vm_compute; reflexivity|]. split; [exact I|].
  intros Hall.
  assert (Ver.release 6 3 0 ∈ [Ver.release 6 2 0]) as Hin.
  { change [Ver.release 6 2 0] with
      (flattened (mkVersions [[Ver.release 6 2 0]])).
    assert (versions (group_versions
              (mkMetadataFactory (mkArchiveId "qt" "linux" "desktop" None) None
                 "https://download.qt.io" "versions" ActVersions) ""
              (map (folder_to_version_extension Ver.of_string)
                 ["qt6_620"; "qt6_630_wasm"])) = [[Ver.release 6 2 0]]) as Hv
      by (vm_compute; reflexivity).
    unfold flattened in *. rewrite <- Hv at 1. apply Hall. split; [|exact I].
    exists "wasm". vm_compute. right. left. }
  apply list_elem_of_singleton in Hin. discriminate Hin.
Qed.

(** ** MirrorFetcher *)

Section FetchFacts.

Context {World : Type}.
Variable H : Helper World.
Variable S : Settings.

Lemma choice_elem_of seq st fallback st' :
  choice H seq st = (Ok fallback, st') -> fallback ∈ seq.
Proof.
  unfold choice. destruct seq as [|x seq]; [done|].
  destruct (draw H (world st)) as [i w]. intros Heq.
  assert (fallback = nth (i mod length (x :: seq)) (x :: seq) "") as ->
    by congruence.
  apply list_elem_of_In, nth_In, Nat.mod_upper_bound. done.
Qed.


Lemma requested_app tr1 tr2 : requested (tr1 ++ tr2) = requested tr1 ++ requested tr2.
Proof. apply omap_app. Qed.

(** The two attempts of [fetch_http], from the state in which the hash
    step and the draw of the fallback have been made. *)
Lemma fetch_http_attempts self rest_of_url is_check_hash st expected_hash st0
    fallback st1 :
  hash_step H rest_of_url is_check_hash st = (Ok expected_hash, st0) ->
  choice H (fallbacks S) st0 = (Ok fallback, st1) ->
  let primary_url := Py.join (base_url self) [rest_of_url] in
  let fallback_url := Py.join fallback [rest_of_url] in
  let retry_note :=
    EvDebug ("Connection to '" +:+ base_url self
             +:+ "' failed. Retrying with fallback '" +:+ fallback +:+ "'.") in
  fetch_http H S self rest_of_url is_check_hash st =
  match getUrl H primary_url expected_hash (world st1) with
  | (Ok text, w2) =>
      (Ok text, mkSt w2 (trace st1 ++ [EvGetUrl primary_url expected_hash]))
  | (Raise e1, w2) =>
      if is_retried e1 then
        let '(r, w3) := getUrl H fallback_url expected_hash w2 in
        (r, mkSt w3 (trace st1 ++ [EvGetUrl primary_url expected_hash]
                     ++ [retry_note] ++ [EvGetUrl fallback_url expected_hash]))
      else
        (Raise e1, mkSt w2 (trace st1 ++ [EvGetUrl primary_url expected_hash]))
  end.
Proof.
  intros Hhash Hchoice. cbv zeta. unfold fetch_http.
  unfold mbind at 1, M_bind. rewrite Hhash.
  unfold mbind at 1, M_bind. rewrite Hchoice.
  cbn [fetch_http_loop]. unfold try_except at 1, do_getUrl at 1.
  destruct (getUrl H _ expected_hash (world st1)) as [[text|e1] w2]; [done|].
  destruct (is_retried e1); [|done].
  unfold mbind at 1, M_bind. cbn [length Nat.sub Nat.ltb Nat.leb emit world trace].
  unfold try_except at 1, do_getUrl at 1. cbn [world trace].
  destruct (getUrl H _ expected_hash w2) as [[text|e2] w3].
  - by rewrite <- !app_assoc.
  - rewrite <- !app_assoc.
    destruct (is_retried e2); [|done].
    unfold mbind, M_bind, mret, M_ret, raise. by cbn.
Qed.

End FetchFacts.

(** C2, as the code has it.  Once the optional hash lookup has succeeded
    and a fallback has been drawn, the fetch first requests the primary
    base URL; text from it is returned at once and nothing else is
    requested; on a download or connection failure it retries exactly
    once, against the one fallback drawn from the fallback set; text from
    the fallback is returned; when both attempts fail the failure of the
    second one is raised as it is, kind included. *)
Theorem fetch_http_single_fallback :
  forall (World : Type) (H : Helper World) (S : Settings)
         (self : MetadataFactory) (rest_of_url : string) (is_check_hash : bool)
         (st st0 st1 : St World) (expected_hash : option string)
         (fallback : string),
    hash_step H rest_of_url is_check_hash st = (Ok expected_hash, st0) ->
    choice H (fallbacks S) st0 = (Ok fallback, st1) ->
    let primary_url := Py.join (base_url self) [rest_of_url] in
    let fallback_url := Py.join fallback [rest_of_url] in
    let run := fetch_http H S self rest_of_url is_check_hash st in
    fallback ∈ fallbacks S
    /\ (forall text w2,
          getUrl H primary_url expected_hash (world st1) = (Ok text, w2) ->
          run.1 = Ok text
          /\ world run.2 = w2
          /\ requested (trace run.2) = requested (trace st1) ++ [primary_url])
    /\ (forall e1 w2 text w3,
          getUrl H primary_url expected_hash (world st1) = (Raise e1, w2) ->
          is_retried e1 = true ->
          getUrl H fallback_url expected_hash w2 = (Ok text, w3) ->
          run.1 = Ok text
          /\ world run.2 = w3
          /\ requested (trace run.2)
             = requested (trace st1) ++ [primary_url; fallback_url])
    /\ (forall e1 w2 e2 w3,
          getUrl H primary_url expected_hash (world st1) = (Raise e1, w2) ->
          is_retried e1 = true ->
          getUrl H fallback_url expected_hash w2 = (Raise e2, w3) ->
          run.1 = Raise e2
          /\ world run.2 = w3
          /\ requested (trace run.2)
             = requested (trace st1) ++ [primary_url; fallback_url]).
Proof.
  intros World H S self rest_of_url is_check_hash st st0 st1 expected_hash
    fallback Hhash Hchoice primary_url fallback_url run.
  split; [by apply (choice_elem_of H _ _ _ _ Hchoice)|].
  unfold run.
  rewrite (fetch_http_attempts H S self _ _ _ _ _ _ _ Hhash Hchoice).
  fold primary_url fallback_url.
  split; [|split].
  - intros text w2 ->. simpl. by rewrite requested_app.
  - intros e1 w2 text w3 -> -> ->. simpl.
    by rewrite !requested_app.
  - intros e1 w2 e2 w3 -> -> ->. simpl.
    by rewrite !requested_app.
Qed.

(** C2 as stated fails: with two fallback mirrors configured the fetch
    retries once, not once per mirror.  The primary host and the mirror
    drawn fail; the other mirror, which would have served the page, is
    never requested, and the failure of the mirror drawn is raised. *)
Lemma fetch_http_one_retry_counterexample :
  let run :=
    fetch_http (Sample.helper Sample.net_second_mirror_up 0) Sample.settings
      (Sample.factory "versions" ActVersions) "online/x/" false Sample.start in
  length (fallbacks Sample.settings) = 2%nat
  /\ run.1 = Raise (ArchiveDownloadError "mirror-a answered 503")
  /\ requested (trace run.2)
     = ["https://download.example/online/x/"; "https://mirror-a.example/online/x/"]
  /\ Sample.net_second_mirror_up "https://mirror-b.example/online/x/"
     = Ok "<html></html>"
  /\ length (requested (trace run.2)) <> (1 + length (fallbacks Sample.settings))%nat.
Proof. cbv zeta. repeat split; vm_compute; (reflexivity || discriminate). Qed.

(** When the draw picks the second mirror, the page comes from it after
    the failure of the primary host. *)
Lemma fetch_http_single_fallback_witness :
  let run :=
    fetch_http (Sample.helper Sample.net_second_mirror_up 1) Sample.settings
      (Sample.factory "versions" ActVersions) "online/x/" false Sample.start in
  "https://mirror-b.example" ∈ fallbacks Sample.settings
  /\ run.1 = Ok "<html></html>"
  /\ requested (trace run.2)
     = ["https://download.example/online/x/"; "https://mirror-b.example/online/x/"].
Proof.
  cbv zeta.
  destruct (fetch_http_single_fallback unit
              (Sample.helper Sample.net_second_mirror_up 1) Sample.settings
              (Sample.factory "versions" ActVersions) "online/x/" false
              Sample.start Sample.start
              (mkSt tt [EvChoice (fallbacks Sample.settings)]) None
              "https://mirror-b.example" eq_refl eq_refl)
    as (Hin & _ & Hretry & _).
  split; [exact Hin|].
  destruct (Hretry (ArchiveConnectionError "download.example is unreachable" [])
              tt "<html></html>" tt eq_refl eq_refl eq_refl)
    as (Hres & _ & Hreq).
  split; [exact Hres|exact Hreq].
Defined.

(** ** Architecture discovery *)

Section ArchesFacts.

Context {World : Type}.
Variable H : Helper World.
Variable S : Settings.
Variable P : Parsers.
Variables (self : MetadataFactory) (version : Version) (qt_ver_str : string).

Lemma fetch_arches_loop_step extension extensions arches folder st :
  to_folder (archive_id self) version qt_ver_str (Some extension) = Ok folder ->
  fetch_arches_loop H S P self version qt_ver_str (extension :: extensions)
    arches st =
  match _fetch_module_metadata H S P self folder None st with
  | (Ok modules, st1) =>
      match arches_of qt_ver_str (keys modules) with
      | Ok found =>
          fetch_arches_loop H S P self version qt_ver_str extensions
            (arches ++ found) st1
      | Raise e => (Raise e, st1)
      end
  | (Raise e, st1) =>
      if is_ArchiveDownloadError e then
        if String.eqb extension "" then (Raise e, st1)
        else
          fetch_arches_loop H S P self version qt_ver_str extensions arches
            (mkSt (world st1) (trace st1 ++ skip_notes extension e))
      else (Raise e, st1)
  end.
Proof.
  intros Hfolder. cbn [fetch_arches_loop]. rewrite Hfolder.
  unfold mbind at 1, M_bind, lift at 1.
  unfold mbind at 1, M_bind, try_except.
  destruct (_fetch_module_metadata H S P self folder None st) as [[modules|e] st1].
  - unfold lift. by destruct (arches_of qt_ver_str (keys modules)).
  - destruct (is_ArchiveDownloadError e); [|done].
    destruct (String.eqb extension ""); [done|].
    unfold mbind, M_bind, emit, mret, M_ret, lift. cbn.
    rewrite app_nil_r, <- app_assoc. done.
Qed.

End ArchesFacts.

(** C8, as the code has it.  In the loop over the extensions of a version:
    a download failure ([ArchiveDownloadError]) for an extension other than
    the default one is logged and the loop goes on with the architectures
    collected so far; the same failure for the default extension (empty
    suffix) is raised to the caller; an extension that is fetched adds the
    architectures of its packages of the requested version; any other
    failure is raised whatever the extension.  [fetch_arches] runs this loop
    over the extensions of the version, from no architecture. *)
Theorem fetch_arches_loop_download_failures :
  forall (World : Type) (H : Helper World) (S : Settings) (P : Parsers)
         (self : MetadataFactory) (v : Version) (qt_ver_str : string)
         (extension : string) (extensions arches : list string) (folder : string)
         (st : St World),
    (to_folder (archive_id self) v qt_ver_str (Some extension) = Ok folder ->
     forall e st1,
       _fetch_module_metadata H S P self folder None st = (Raise e, st1) ->
       is_ArchiveDownloadError e = true ->
       (extension <> "" ->
        fetch_arches_loop H S P self v qt_ver_str (extension :: extensions)
          arches st
        = fetch_arches_loop H S P self v qt_ver_str extensions arches
            (mkSt (world st1) (trace st1 ++ skip_notes extension e)))
       /\ (extension = "" ->
           fetch_arches_loop H S P self v qt_ver_str
             (extension :: extensions) arches st
           = (Raise e, st1)))
    /\ (to_folder (archive_id self) v qt_ver_str (Some extension) = Ok folder ->
        forall modules found st1,
          _fetch_module_metadata H S P self folder None st = (Ok modules, st1) ->
          arches_of qt_ver_str (keys modules) = Ok found ->
          fetch_arches_loop H S P self v qt_ver_str (extension :: extensions)
            arches st
          = fetch_arches_loop H S P self v qt_ver_str extensions
              (arches ++ found) st1)
    /\ (to_folder (archive_id self) v qt_ver_str (Some extension) = Ok folder ->
        forall e st1,
          _fetch_module_metadata H S P self folder None st = (Raise e, st1) ->
          is_ArchiveDownloadError e = false ->
          fetch_arches_loop H S P self v qt_ver_str (extension :: extensions)
            arches st
          = (Raise e, st1))
    /\ fetch_arches_loop H S P self v qt_ver_str [] arches st
       = (Ok arches, st)
    /\ (forall Q,
          fetch_arches H S Q P self v st
          = fetch_arches_loop H S P self v (_get_qt_version_str self v)
              (all_extensions Q (archive_id self) v) [] st).
Proof.
  intros World H S P self v qt_ver_str extension extensions arches folder st.
  split; [|split; [|split; [|split]]]; try reflexivity.
  - intros Hfolder e st1 Hfetch He.
    rewrite (fetch_arches_loop_step H S P self v qt_ver_str _ _ _ _ _ Hfolder).
    rewrite Hfetch, He. split.
    + intros Hne. apply String.eqb_neq in Hne. by rewrite Hne.
    + intros ->. done.
  - intros Hfolder modules found st1 Hfetch Hfound.
    rewrite (fetch_arches_loop_step H S P self v qt_ver_str _ _ _ _ _ Hfolder).
    by rewrite Hfetch, Hfound.
  - intros Hfolder e st1 Hfetch He.
    rewrite (fetch_arches_loop_step H S P self v qt_ver_str _ _ _ _ _ Hfolder).
    by rewrite Hfetch, He.
Qed.

(** C8 as stated fails: the folder of the non-default extension [wasm]
    cannot be reached (a connection error, not a download error); the
    failure is not skipped but raised, and the architecture found under the
    default extension is not returned.  When the same folder is merely
    missing (a download error) it is skipped and the architecture is
    returned. *)
Lemma fetch_arches_connection_error_counterexample :
  let self := Sample.factory "architectures" (ActArches "6.2.0") in
  let unreachable :=
    fetch_arches (Sample.helper Sample.net_wasm_unreachable 0) Sample.settings
      Sample.repo Sample.parsers self (Ver.release 6 2 0) Sample.start in
  let missing :=
    fetch_arches (Sample.helper Sample.net_wasm_missing 0) Sample.settings
      Sample.repo Sample.parsers self (Ver.release 6 2 0) Sample.start in
  all_extensions Sample.repo (archive_id self) (Ver.release 6 2 0) = [""; "wasm"]
  /\ unreachable.1 = Raise (ArchiveConnectionError "connection refused" [])
  /\ ~ (exists arches, unreachable.1 = Ok arches)
  /\ missing.1 = Ok ["gcc_64"].
Proof.
  cbv zeta. split; [vm_compute; reflexivity|].
  split; [vm_compute; reflexivity|]. split; [|vm_compute; reflexivity].
  intros [arches Harches]. vm_compute in Harches. discriminate Harches.
Qed.

(** ** Archive-list resolution *)

Section SortedSetFacts.

Lemma elem_of_sorted_set l x : x ∈ Py.sorted_set l <-> x ∈ l.
Proof.
  unfold Py.sorted_set, Py.sorted.
  by rewrite merge_sort_Permutation, elem_of_remove_dups.
Qed.

Lemma sorted_set_sorted l : StronglySorted String.le (Py.sorted_set l).
Proof. apply StronglySorted_merge_sort; apply _. Qed.

Lemma sorted_set_NoDup l : NoDup (Py.sorted_set l).
Proof.
  unfold Py.sorted_set, Py.sorted.
  rewrite merge_sort_Permutation. apply NoDup_remove_dups.
Qed.

End SortedSetFacts.

Lemma mapM_Res_all {A B} (f : A -> Res B) (l : list A) :
  (forall x, x ∈ l -> exists y, f x = Ok y) ->
  exists ys, mapM f l = Ok ys
             /\ forall y, y ∈ ys <-> exists x, x ∈ l /\ f x = Ok y.
Proof.
  induction l as [|x l IH]; intros Hall.
  { exists []. split; [done|]. intros y. split.
    - by intros ?%elem_of_nil.
    - by intros (x & ?%elem_of_nil & _). }
  destruct (Hall x) as [y Hy]; [by left|].
  destruct IH as (ys & Hys & Hmem); [intros z Hz; apply Hall; by right|].
  exists (y :: ys). split.
  - simpl. rewrite Hy. simpl. by rewrite Hys.
  - intros z. rewrite elem_of_cons, Hmem. split.
    + intros [->|(x' & Hx' & Hf)]; [exists x; split; [by left|done]|].
      exists x'. split; [by right|done].
    + intros (x' & [->|Hx']%elem_of_cons & Hf).
      * left. congruence.
      * right. eauto.
Qed.

Section DictFacts.

Context {V : Type}.

Lemma elem_of_dict_set k (v : V) d kv :
  kv ∈ dict_set k v d -> kv = (k, v) \/ kv ∈ d.
Proof.
  induction d as [|[k' v'] d IH]; simpl.
  - intros ->%list_elem_of_singleton. by left.
  - destruct (String.eqb k' k).
    + intros [->|Hin]%elem_of_cons; [by left|right; by right].
    + intros [->|Hin]%elem_of_cons; [right; by left|].
      destruct (IH Hin) as [->|Hd]; [by left|right; by right].
Qed.

End DictFacts.

Section ManifestFacts.

Variable S : Settings.
Variable P : Parsers.

Lemma require_text_find element key s :
  require_text element key = Ok s ->
  exists node, find key element = Some node /\ s = default "" (text node).
Proof.
  unfold require_text. destruct (find key element) as [node|]; [|done].
  intros [= <-]. eauto.
Qed.

Lemma element_attrs_key element key :
  key <> "UpdateFile" ->
  is_Some (find key element) -> is_Some (element_attrs element !! key).
Proof.
  intros Hkey. unfold element_attrs, find.
  assert (Hfold : forall (m : attrs),
    is_Some (m !! key) \/ is_Some (List.find (fun n => String.eqb (tag n) key) element) ->
    is_Some (fold_left
      (fun (m : attrs) (n : Node) =>
         if String.eqb (tag n) "UpdateFile" then
           let m1 := match attrib n !! "CompressedSize" with
                     | Some v => <["CompressedSize" := v]> m
                     | None => m
                     end in
           match attrib n !! "UncompressedSize" with
           | Some v => <["UncompressedSize" := v]> m1
           | None => m1
           end
         else <[tag n := default "" (text n)]> m) element m !! key)).
  { induction element as [|n element IH]; intros m; simpl.
    - intros [Hm|[? [=]]]. done.
    - intros Hor. apply IH.
      destruct (String.eqb_spec (tag n) "UpdateFile") as [Hu|Hu].
      + destruct (String.eqb_spec (tag n) key) as [Hk|Hk]; [congruence|].
        destruct Hor as [Hm|Hf]; [left|by right].
        destruct (attrib n !! "CompressedSize"), (attrib n !! "UncompressedSize");
          rewrite ?lookup_insert_is_Some'; tauto.
      + destruct (String.eqb_spec (tag n) key) as [Hk|Hk].
        * left. rewrite Hk, lookup_insert_is_Some'. by left.
        * destruct Hor as [Hm|Hf]; [left|by right].
          rewrite lookup_insert_is_Some'. by right. }
  intros Hf. apply Hfold. by right.
Qed.

(** A record of the package dictionary comes from an element the
    predicate accepted, under that element's name. *)
Lemma xml_to_modules_loop_sound predicate elements packages result :
  xml_to_modules_loop predicate elements packages = Ok result ->
  forall name module_attrs,
    (name, module_attrs) ∈ result ->
    (name, module_attrs) ∈ packages
    \/ exists element,
         element ∈ elements
         /\ predicate element = Ok true
         /\ require_text element "Name" = Ok name
         /\ is_Some (module_attrs !! "DownloadableArchives").
Proof.
  revert packages. induction elements as [|element elements IH];
    intros packages; simpl.
  { intros [= <-] name a Hin. by left. }
  destruct (predicate element) as [[]|e] eqn:Hp; simpl; [| |done].
  - destruct (require_text element "Name") as [name0|e] eqn:Hn; simpl; [|done].
    destruct (require_text element "DownloadableArchives") as [d|e] eqn:Hd;
      simpl; [|done].
    intros Hloop name a Hin.
    destruct (IH _ Hloop name a Hin) as [Hset|(el & Hel & Hrest)].
    + apply elem_of_dict_set in Hset as [[= -> ->]|Hold]; [|by left].
      right. exists element. split; [by left|]. split; [done|]. split; [done|].
      apply element_attrs_key; [done|].
      apply require_text_find in Hd as (node & -> & _). done.
    + right. exists el. split; [by right|done].
  - intros Hloop name a Hin.
    destruct (IH _ Hloop name a Hin) as [Hold|(el & Hel & Hrest)]; [by left|].
    right. exists el. split; [by right|done].
Qed.

Lemma specify_modules_true arch modules element :
  specify_modules S arch modules element = Ok true ->
  exists name _module,
    require_text element "Name" = Ok name
    /\ unpack_last2 (Py.split "." name) = Ok (_module, arch)
    /\ _module ∈ modules.
Proof.
  unfold specify_modules.
  destruct (require_text element "Name") as [name|e]; simpl; [|done].
  destruct (unpack_last2 (Py.split "." name)) as [[m a]|e] eqn:Hu; simpl; [|done].
  destruct (String.eqb_spec a arch) as [->|]; simpl; [|done].
  unfold str_in. case_bool_decide as Hin; simpl; [|done].
  intros _. exists name, m. done.
Qed.

Lemma unpack_second_last l a b :
  unpack_last2 l = Ok (a, b) -> second_last l = Ok a.
Proof.
  unfold unpack_last2, second_last.
  destruct (Py.last2 l) as [|x [|y [|z t]]]; try done. by intros [= -> ->].
Qed.

End ManifestFacts.

Lemma fetch_module_metadata_sound {World} (H : Helper World) S P self folder
    predicate st mod_metadata st1 :
  _fetch_module_metadata H S P self folder (Some predicate) st
  = (Ok mod_metadata, st1) ->
  exists elements, xml_to_modules_loop predicate elements [] = Ok mod_metadata.
Proof.
  unfold _fetch_module_metadata.
  destruct (to_url (archive_id self)) as [url|e]; [|done].
  unfold mbind at 1, M_bind, lift at 1.
  unfold mbind at 1, M_bind.
  match goal with |- context [(if ?b then ?m1 else ?m2) st] =>
    destruct ((if b then m1 else m2) st) as [[xml|e] st'] end; [|done].
  unfold lift, xml_to_modules. simpl.
  destruct (package_updates P xml) as [elements|e]; simpl; [|done].
  intros [= Hloop _]. eauto.
Qed.

(** The stem of an archive entry is the text before its first hyphen, or
    the whole entry when it has none. *)
Lemma stem_first_hyphen arc :
  let stem := nth 0 (Py.split "-" arc) "" in
  Py.contains_char "-" stem = false
  /\ (stem = arc \/ exists rest, arc = stem +:+ "-" +:+ rest).
Proof.
  cbv zeta. unfold Py.split. induction arc as [|c arc IH]; [by split; [|left]|].
  cbn [Py.split_go]. unfold String.prefix; fold String.prefix.
  destruct (ascii_dec "-" c) as [<-|Hne].
  - assert (String.prefix "" arc = true) as -> by by destruct arc.
    cbn [nth]. split; [done|]. right. by exists arc.
  - assert (Hcons : forall s, Py.contains_char "-" s = false ->
                              Py.contains_char "-" (String c s) = false).
    { intros s Hs. unfold Py.contains_char, Py.existsb in *. cbn [Py.forallb].
      apply Ascii.eqb_neq in Hne. rewrite Hne. cbn [negb andb].
      apply negb_false_iff in Hs. by rewrite Hs. }
    destruct IH as [Hc Hor].
    destruct (Py.split_go "-" 0 arc) as [|p ps] eqn:Hs; cbn [nth] in *.
    + split; [by apply Hcons|].
      destruct Hor as [<-|[rest ->]]; [by left|]. right. by exists rest.
    + split; [by apply Hcons|].
      destruct Hor as [->|[rest ->]]; [by left|]. right. by exists rest.
Qed.

(** C4.  With an explicit module list that does not contain ["all"], once
    the manifest has been fetched and filtered: every matched record is for
    the requested architecture and names a requested module; when a
    requested module is named by no matched record the operation raises the
    input error that carries exactly the missing modules, sorted and
    without repetition, and returns nothing; when every requested module is
    found it returns the stems before the first hyphen of every entry of
    the comma-separated [DownloadableArchives] of every matched record,
    sorted and without repetition. *)
Theorem fetch_archives_explicit_modules :
  forall (World : Type) (H : Helper World) (S : Settings) (Q : QtRepoProperty)
         (P : Parsers) (self : MetadataFactory) (v : Version) (arch : string)
         (modules : list string) (folder : string) (st st1 : St World)
         (mod_metadata : dict attrs),
    modules <> [] ->
    "all" ∉ modules ->
    to_folder (archive_id self) v (_get_qt_version_str self v)
      (Some (extension_for_arch Q arch (Ver.geb v (Ver.release 6 0 0))))
    = Ok folder ->
    _fetch_module_metadata H S P self folder
      (Some (specify_modules S arch modules)) st
    = (Ok mod_metadata, st1) ->
    exists found missing stems : list string,
      (forall name, name ∈ keys mod_metadata ->
         exists m, unpack_last2 (Py.split "." name) = Ok (m, arch)
                   /\ m ∈ modules /\ m ∈ found)
      /\ (forall m, m ∈ found <->
            exists name, name ∈ keys mod_metadata
                         /\ second_last (Py.split "." name) = Ok m)
      /\ (forall m, m ∈ missing <-> m ∈ modules /\ m ∉ found)
      /\ StronglySorted String.le missing /\ NoDup missing
      /\ (forall x, x ∈ stems <->
            exists name module_attrs csv arc,
              (name, module_attrs) ∈ mod_metadata
              /\ module_attrs !! "DownloadableArchives" = Some csv
              /\ arc ∈ Py.split ", " csv
              /\ x = nth 0 (Py.split "-" arc) "")
      /\ StronglySorted String.le stems /\ NoDup stems
      /\ (missing <> [] ->
          fetch_archives H S Q P self v arch modules false st
          = (Raise (CliInputError "The requested modules were not located: "
                      missing (suggested_follow_up self)), st1))
      /\ (missing = [] ->
          fetch_archives H S Q P self v arch modules false st = (Ok stems, st1)).
Proof.
  intros World H S Q P self v arch modules folder st st1 mod_metadata
    Hmods Hall Hfolder Hfetch.
  destruct (fetch_module_metadata_sound _ _ _ _ _ _ _ _ _ Hfetch)
    as (elements & Hloop).
  pose proof (xml_to_modules_loop_sound _ _ _ _ Hloop) as Hsound.
  assert (Hrec : forall name module_attrs,
            (name, module_attrs) ∈ mod_metadata ->
            (exists m, unpack_last2 (Py.split "." name) = Ok (m, arch)
                       /\ m ∈ modules)
            /\ is_Some (module_attrs !! "DownloadableArchives")).
  { intros name a Hin.
    destruct (Hsound name a Hin) as [Hnil|(el & _ & Hp & Hn & Hd)];
      [by apply elem_of_nil in Hnil|].
    split; [|done].
    apply specify_modules_true in Hp as (name' & m & Hn' & Hu & Hm).
    rewrite Hn in Hn'. injection Hn' as <-. eauto. }
  destruct (mapM_Res_all (fun _name => second_last (Py.split "." _name))
              (keys mod_metadata)) as (found & Hfound & Hfound_mem).
  { intros name Hname. apply list_elem_of_fmap in Hname as ([n a] & -> & Hin).
    destruct (Hrec n a Hin) as [(m & Hu & _) _].
    exists m. by apply unpack_second_last with arch. }
  destruct (mapM_Res_all
              (fun module : attrs => or_raise (KeyError "DownloadableArchives")
                                       (module !! "DownloadableArchives"))
              (values mod_metadata)) as (csv_lists & Hcsv & Hcsv_mem).
  { intros a Ha. apply list_elem_of_fmap in Ha as ([n a'] & -> & Hin).
    destruct (Hrec n a' Hin) as [_ [csv Hc]]. exists csv. simpl. by rewrite Hc. }
  set (missing := Py.sorted_set
                    (List.filter (fun m => negb (str_in m found)) modules)).
  set (stems := Py.sorted_set
                  (flat_map (fun csv => map (fun arc => nth 0 (Py.split "-" arc) "")
                                            (Py.split ", " csv)) csv_lists)).
  assert (Hrun : fetch_archives H S Q P self v arch modules false st =
                 if bool_decide (missing = []) then (Ok stems, st1)
                 else (Raise (CliInputError
                                "The requested modules were not located: "
                                missing (suggested_follow_up self)), st1)).
  { unfold fetch_archives.
    rewrite bool_decide_false by done.
    assert (str_in "all" modules = false) as ->
      by (unfold str_in; by rewrite bool_decide_false).
    unfold mbind at 1, M_bind, try_except.
    rewrite Hfolder. unfold mbind at 1, M_bind, lift at 1.
    rewrite Hfetch. cbn [negb andb].
    unfold mbind at 1, M_bind. unfold mbind at 1, M_bind, lift at 1.
    unfold not_found_modules. rewrite Hfound. simpl.
    fold missing. destruct (bool_decide (missing = [])); simpl.
    - unfold lift, archive_stems. rewrite Hcsv. done.
    - done. }
  exists found, missing, stems.
  split; [|split; [|split; [|split; [|split; [|split; [|split; [|split; [|split]]]]]]]].
  - intros name Hname. apply list_elem_of_fmap in Hname as ([n a] & -> & Hin).
    destruct (Hrec n a Hin) as [(m & Hu & Hm) _].
    exists m. split; [done|]. split; [done|].
    apply Hfound_mem. exists n. split.
    + apply list_elem_of_fmap. by exists (n, a).
    + by apply unpack_second_last with arch.
  - exact Hfound_mem.
  - intros m. unfold missing.
    rewrite elem_of_sorted_set, list_elem_of_In, filter_In, <- list_elem_of_In.
    unfold str_in. rewrite negb_true_iff, bool_decide_eq_false. done.
  - apply sorted_set_sorted.
  - apply sorted_set_NoDup.
  - intros x. unfold stems.
    rewrite elem_of_sorted_set, list_elem_of_In, in_flat_map. split.
    + intros (csv & Hcsv_in & Hx).
      apply list_elem_of_In, Hcsv_mem in Hcsv_in as (a & Ha & Hlook).
      apply list_elem_of_fmap in Ha as ([n a'] & -> & Hin).
      apply in_map_iff in Hx as (arc & <- & Harc).
      exists n, a', csv, arc. split; [done|]. split.
      * simpl in Hlook. destruct (a' !! "DownloadableArchives"); [|done].
        by injection Hlook as ->.
      * split; [by apply list_elem_of_In|done].
    + intros (n & a & csv & arc & Hin & Hlook & Harc & ->).
      exists csv. split.
      * apply list_elem_of_In, Hcsv_mem. exists a. split.
        -- apply list_elem_of_fmap. by exists (n, a).
        -- by rewrite Hlook.
      * apply in_map_iff. exists arc. split; [done|by apply list_elem_of_In].
  - apply sorted_set_sorted.
  - apply sorted_set_NoDup.
  - intros Hne. rewrite Hrun. by rewrite bool_decide_false.
  - intros He. rewrite Hrun. by rewrite bool_decide_true.
Qed.

(** ** Worked examples *)

(** Requesting [qtcharts] and [doesnotexist] against a manifest that holds
    only [qtcharts] raises the input error naming [doesnotexist]; requesting
    [qtcharts] alone returns the stems of its archives. *)
Lemma fetch_archives_example :
  let run modules :=
    fetch_archives (Sample.helper Sample.net_wasm_missing 0) Sample.settings
      Sample.repo Sample.parsers
      (Sample.factory "archives for modules"
         (ActArchives "6.2.0" "gcc_64" modules))
      (Ver.release 6 2 0) "gcc_64" modules false Sample.start in
  (run ["qtcharts"; "doesnotexist"]).1
  = Raise (CliInputError "The requested modules were not located: "
             ["doesnotexist"]
             ["Please use 'aqt list-qt linux desktop' to show versions of Qt available.";
              "Please use 'aqt list-qt linux desktop --arch <QT_VERSION>' to show architectures available.";
              "Please use 'aqt list-qt linux desktop --modules <QT_VERSION>' to show modules available."])
  /\ (run ["qtcharts"]).1 = Ok ["qtbase"; "qtcharts"].
Proof. cbv zeta. split; vm_compute; reflexivity. Qed.

Lemma sample_manifest_fetch :
  _fetch_module_metadata (Sample.helper Sample.net_wasm_missing 0)
    Sample.settings Sample.parsers
    (Sample.factory "archives for modules"
       (ActArchives "6.2.0" "gcc_64" ["qtcharts"; "doesnotexist"]))
    "qt6_620"
    (Some (specify_modules Sample.settings "gcc_64" ["qtcharts"; "doesnotexist"]))
    Sample.start
  = (Ok Sample.matched, Sample.fetched).
Proof. vm_compute. reflexivity. Qed.

Lemma sample_modules_explicit : "all" ∉ ["qtcharts"; "doesnotexist"].
Proof.
  intros Hin.
  repeat (apply elem_of_cons in Hin as [Hd|Hin]; [discriminate Hd|]).
  by apply elem_of_nil in Hin.
Qed.

Lemma sample_modules_nonempty : ["qtcharts"; "doesnotexist"] <> @nil string.
Proof. discriminate. Qed.

(** On the sample manifest the resolution for [qtcharts] and
    [doesnotexist] either raises the error with the missing modules or
    returns the stems, from the state left by the one request. *)
Lemma fetch_archives_explicit_modules_witness :
  let self := Sample.factory "archives for modules"
                (ActArchives "6.2.0" "gcc_64" ["qtcharts"; "doesnotexist"]) in
  let run :=
    fetch_archives (Sample.helper Sample.net_wasm_missing 0) Sample.settings
      Sample.repo Sample.parsers self (Ver.release 6 2 0) "gcc_64"
      ["qtcharts"; "doesnotexist"] false Sample.start in
  exists missing stems : list string,
    (forall m, m ∈ missing -> m ∈ ["qtcharts"; "doesnotexist"])
    /\ (missing <> [] ->
        run = (Raise (CliInputError "The requested modules were not located: "
                        missing (suggested_follow_up self)), Sample.fetched))
    /\ (missing = [] -> run = (Ok stems, Sample.fetched)).
Proof.
  cbv zeta.
  destruct (fetch_archives_explicit_modules unit
              (Sample.helper Sample.net_wasm_missing 0) Sample.settings
              Sample.repo Sample.parsers
              (Sample.factory "archives for modules"
                 (ActArchives "6.2.0" "gcc_64" ["qtcharts"; "doesnotexist"]))
              (Ver.release 6 2 0) "gcc_64" ["qtcharts"; "doesnotexist"]
              "qt6_620" Sample.start Sample.fetched Sample.matched
              sample_modules_nonempty sample_modules_explicit
              eq_refl sample_manifest_fetch)
    as (found & missing & stems & _ & _ & Hmissing & _ & _ & _ & _ & _ & Hfail & Hok).
  exists missing, stems. split.
  - intros m Hm. apply Hmissing in Hm. exact (proj1 Hm).
  - split; [exact Hfail|exact Hok].
Defined.

(** The sample tools all declare a version that parses: a greatest one is
    selected. *)
Lemma choose_highest_version_in_spec_max_witness :
  exists name tool_data v,
    choose_highest_version_in_spec Sample.permissive Sample.tools
      Sample.any_version = Ok (Some tool_data)
    /\ declares Sample.permissive Sample.tools name tool_data v
    /\ forall name' tool_data' v',
         declares Sample.permissive Sample.tools name' tool_data' v' ->
         Ver.le v' v.
Proof.
  assert (Hkey : forall name tool_data,
            (name, tool_data) ∈ Sample.tools -> is_Some (tool_data !! "Version")).
  { intros name tool_data Hin. unfold Sample.tools in Hin.
    repeat (apply elem_of_cons in Hin as [[= -> ->]|Hin];
            [eexists; vm_compute; reflexivity|]).
    by apply elem_of_nil in Hin. }
  destruct (choose_highest_version_in_spec_max Sample.permissive Sample.tools
              Sample.any_version Hkey) as [_ Hsel].
  destruct Hsel as [_ Hmax].
  { intros name tool_data version_text Hin Htext. unfold Sample.tools in Hin.
    repeat (apply elem_of_cons in Hin as [[= -> ->]|Hin];
            [vm_compute in Htext; injection Htext as <-;
             eexists; vm_compute; reflexivity|]).
    by apply elem_of_nil in Hin. }
  destruct Hmax as (name & tool_data & v & Hres & Hdecl & _ & Hge).
  { exists "qt.tools.ifw.47", (Sample.tool "4.7.0"), (Ver.release 4 7 0).
    split; [|done]. split.
    - unfold Sample.tools. right. left.
    - exists "4.7.0". split; vm_compute; reflexivity. }
  exists name, tool_data, v. split; [done|]. split; [done|].
  intros name' tool_data' v' Hd. by apply (Hge name' tool_data' v').
Defined.

(** The selection on the sample tools: the candidate declaring 4.7.0 wins
    over 4.3.0 and 4.6; a candidate whose version does not parse makes the
    selection absent. *)
Lemma choose_highest_version_in_spec_example :
  choose_highest_version_in_spec Sample.permissive Sample.tools
    Sample.any_version = Ok (Some (Sample.tool "4.7.0"))
  /\ choose_highest_version_in_spec Sample.permissive
       (Sample.tools ++ [("qt.tools.broken", Sample.tool "v1")])
       Sample.any_version = Ok None
  /\ choose_highest_version_in_spec Sample.permissive
       (("qt.tools.undeclared", ∅) :: Sample.tools)
       Sample.any_version = Raise (KeyError "Version").
Proof. repeat split; vm_compute; reflexivity. Qed.

(** The external link and the parent link are left out; [qt6_7_0] passes
    the filter [qt6]; under the filter [tools] the folder [sdktool] comes
    out beside [tools_ifw]; the empty filter lets every folder through. *)
Lemma iterate_folders_example :
  iterate_folders Sample.page_parsers "page" "https://download.example" "qt6"
  = (["qt6_7_0"], None)
  /\ iterate_folders Sample.page_parsers "page" "https://download.example" "tools"
     = (["sdktool"; "tools_ifw"], None)
  /\ iterate_folders Sample.page_parsers "page" "https://download.example" ""
     = (["qt6_7_0"; "sdktool"; "tools_ifw"], None).
Proof. repeat split; vm_compute; reflexivity. Qed.

(** A query for the tool [ifw] requests the manifest of the folder
    [tools_ifw]. *)
Lemma fetch_tool_modules_example :
  exists self,
    MetadataFactory_init Sample.settings Sample.tools_linux None None false
      None None None None (Some "ifw") false = Ok self
    /\ _action self = ActToolModules "tools_ifw"
    /\ requested (trace (fetch_tool_modules (Sample.helper Sample.net_up 0)
                           Sample.settings Sample.parsers self "tools_ifw"
                           Sample.start).2)
       = ["https://download.example/online/qtsdkrepository/linux_x64/desktop/tools_ifw/Updates.xml"].
Proof. eexists. repeat split; vm_compute; reflexivity. Qed.

(** ** Further properties of the code *)


(** ** Further properties of the mirror fetch *)

Section FetchBound.

Context {World : Type}.
Variable H : Helper World.
Variable S : Settings.

Lemma hash_step_trace rest_of_url is_check_hash (st : St World) :
  exists evs,
    trace (hash_step H rest_of_url is_check_hash st).2 = trace st ++ evs
    /\ requested evs = []
    /\ (is_check_hash = false -> evs = []).
Proof.
  unfold hash_step. destruct is_check_hash.
  - exists [EvGetHash rest_of_url]. unfold mbind, M_bind, do_get_hash.
    destruct (get_hash H rest_of_url (world st)) as [[h|e] w]; simpl; done.
  - exists []. simpl. by rewrite app_nil_r.
Qed.

Lemma choice_trace seq (st : St World) :
  trace (choice H seq st).2 = trace st ++ [EvChoice seq].
Proof.
  unfold choice. destruct seq as [|x seq]; [done|].
  by destruct (draw H (world st)).
Qed.

End FetchBound.

(** X4.  Whatever the hosts answer, one call of [fetch_http] sends at most
    two requests: none, the primary URL alone, or the primary URL followed
    by the URL of one configured fallback, both for the same path; text is
    only returned after a request; and without the hash check no hash is
    looked up. *)
Theorem fetch_http_request_bound :
  forall (World : Type) (H : Helper World) (S : Settings)
         (self : MetadataFactory) (rest_of_url : string) (is_check_hash : bool)
         (st : St World),
    let run := fetch_http H S self rest_of_url is_check_hash st in
    let primary_url := Py.join (base_url self) [rest_of_url] in
    exists evs : list event,
      trace run.2 = trace st ++ evs
      /\ (requested evs = []
          \/ requested evs = [primary_url]
          \/ exists fallback,
               fallback ∈ fallbacks S
               /\ requested evs = [primary_url; Py.join fallback [rest_of_url]])
      /\ (forall text, run.1 = Ok text -> requested evs <> [])
      /\ (is_check_hash = false -> forall r, EvGetHash r ∉ evs).
Proof.
  intros World H S self rest_of_url is_check_hash st run primary_url.
  destruct (hash_step_trace H rest_of_url is_check_hash st)
    as (evs0 & Htr0 & Hreq0 & Hnohash).
  destruct (hash_step H rest_of_url is_check_hash st) as [[expected_hash|e0] st0]
    eqn:Hhash; simpl in Htr0.
  2: { exists evs0.
       assert (Hrun : run = (Raise e0, st0)).
       { subst run. unfold fetch_http, mbind, M_bind. by rewrite Hhash. }
       rewrite Hrun. simpl. split; [done|]. split; [by left|].
       split; [done|]. intros Hc r. rewrite (Hnohash Hc). apply not_elem_of_nil. }
  pose proof (choice_trace H (fallbacks S) st0) as Htr1.
  destruct (choice H (fallbacks S) st0) as [[fallback|e1] st1] eqn:Hchoice;
    simpl in Htr1.
  2: { exists (evs0 ++ [EvChoice (fallbacks S)]).
       assert (Hrun : run = (Raise e1, st1)).
       { subst run. unfold fetch_http. unfold mbind at 1, M_bind. rewrite Hhash.
         unfold mbind at 1, M_bind. by rewrite Hchoice. }
       rewrite Hrun. simpl.
       split; [by rewrite Htr1, Htr0, app_assoc|].
       rewrite requested_app, Hreq0. simpl.
       split; [by left|]. split; [done|].
       intros Hc r. rewrite (Hnohash Hc). simpl.
       intros [=]%list_elem_of_singleton. }
  assert (Hin : fallback ∈ fallbacks S) by apply (choice_elem_of H _ _ _ _ Hchoice).
  assert (Hpre : forall tail,
            trace st1 ++ tail = trace st ++ (evs0 ++ [EvChoice (fallbacks S)] ++ tail)).
  { intros tail. by rewrite Htr1, Htr0, <- !app_assoc. }
  assert (Hnh : forall tail,
            is_check_hash = false -> (forall r, EvGetHash r ∉ tail) ->
            forall r, EvGetHash r ∉ evs0 ++ [EvChoice (fallbacks S)] ++ tail).
  { intros tail Hc Ht r. rewrite (Hnohash Hc). simpl.
    intros [[=]|Hr]%elem_of_cons. by apply (Ht r). }
  subst run.
  rewrite (fetch_http_attempts H S self _ _ _ _ _ _ _ Hhash Hchoice).
  fold primary_url.
  destruct (getUrl H primary_url expected_hash (world st1)) as [[text|e1] w2].
  - eexists. split; [apply Hpre|]. simpl.
    rewrite !requested_app, Hreq0. simpl.
    split; [right; by left|]. split; [done|].
    intros Hc. apply Hnh; [done|]. intros r [[=]|[]%elem_of_nil]%elem_of_cons.
  - destruct (is_retried e1).
    + destruct (getUrl H _ expected_hash w2) as [r w3].
      eexists. split; [apply Hpre|]. simpl.
      rewrite !requested_app, Hreq0. simpl.
      split; [right; right; by exists fallback|]. split; [done|].
      intros Hc. apply Hnh; [done|].
      intros r' Hr'. repeat (apply elem_of_cons in Hr' as [[=]|Hr']).
      by apply elem_of_nil in Hr'.
    + eexists. split; [apply Hpre|]. simpl.
      rewrite !requested_app, Hreq0. simpl.
      split; [right; by left|]. split; [done|].
      intros Hc. apply Hnh; [done|]. intros r [[=]|[]%elem_of_nil]%elem_of_cons.
Qed.

(** X5.  A failure of the primary host that is neither a download error
    nor a connection error is not retried: it is raised as it is after the
    one request, and the fallback is never contacted. *)
Theorem fetch_http_not_retried :
  forall (World : Type) (H : Helper World) (S : Settings)
         (self : MetadataFactory) (rest_of_url : string) (is_check_hash : bool)
         (st st0 st1 : St World) (expected_hash : option string)
         (fallback : string) (e : exn) (w2 : World),
    hash_step H rest_of_url is_check_hash st = (Ok expected_hash, st0) ->
    choice H (fallbacks S) st0 = (Ok fallback, st1) ->
    getUrl H (Py.join (base_url self) [rest_of_url]) expected_hash (world st1)
    = (Raise e, w2) ->
    is_retried e = false ->
    let run := fetch_http H S self rest_of_url is_check_hash st in
    run.1 = Raise e
    /\ world run.2 = w2
    /\ requested (trace run.2)
       = requested (trace st1) ++ [Py.join (base_url self) [rest_of_url]].
Proof.
  intros World H S self rest_of_url is_check_hash st st0 st1 expected_hash
    fallback e w2 Hhash Hchoice Hget Hnot run. subst run.
  rewrite (fetch_http_attempts H S self _ _ _ _ _ _ _ Hhash Hchoice).
  rewrite Hget, Hnot. simpl. by rewrite requested_app.
Qed.

(** X6.  When the hash check is on and the lookup of the published hash
    fails, [fetch_http] raises that failure: no fallback is drawn and no
    URL is requested. *)
Theorem fetch_http_hash_failure :
  forall (World : Type) (H : Helper World) (S : Settings)
         (self : MetadataFactory) (rest_of_url : string) (st : St World)
         (e : exn) (w : World),
    get_hash H rest_of_url (world st) = (Raise e, w) ->
    fetch_http H S self rest_of_url true st
    = (Raise e, mkSt w (trace st ++ [EvGetHash rest_of_url])).
Proof.
  intros World H S self rest_of_url st e w Hget.
  unfold fetch_http, hash_step. unfold mbind at 1, M_bind.
  unfold mbind at 1, M_bind, do_get_hash. by rewrite Hget.
Qed.

(** ** Compact version strings and folder names *)

Lemma str_digits_nonneg n :
  0 <= n -> Py.forallb Py.is_ascii_digit (Py.str n) = true.
Proof.
  intros Hn. destruct n as [|p|p]; [done| |lia]. unfold Py.str. simpl.
  destruct (pos_to_uint_string p) as [-> _]. apply string_of_uint_digits.
Qed.

(** A property of the integers of a range, checked on each of them. *)
Lemma range_forallb (f : Z -> bool) (lo : Z) (n : nat) :
  List.forallb (fun i => f (lo + Z.of_nat i)) (seq 0 n) = true ->
  forall z, lo <= z < lo + Z.of_nat n -> f z = true.
Proof.
  intros Hall z Hz. rewrite List.forallb_forall in Hall.
  replace z with (lo + Z.of_nat (Z.to_nat (z - lo))) by lia.
  apply Hall. apply in_seq. lia.
Qed.

Lemma str_one_digit n :
  0 <= n < 10 -> String.length (Py.str n) = 1%nat.
Proof.
  intros Hn.
  apply (range_forallb (fun z => bool_decide (String.length (Py.str z) = 1%nat))
           0 10) in Hn; [by apply bool_decide_eq_true in Hn|].
  vm_compute. reflexivity.
Qed.

Lemma str_two_digits n :
  10 <= n < 100 -> String.length (Py.str n) = 2%nat.
Proof.
  intros Hn.
  apply (range_forallb (fun z => bool_decide (String.length (Py.str z) = 2%nat))
           10 90) in Hn; [by apply bool_decide_eq_true in Hn|].
  vm_compute. reflexivity.
Qed.

Lemma substring_none s : String.substring 0 0 s = "".
Proof. by destruct s. Qed.

Lemma length_one s : String.length s = 1%nat -> exists a, s = String a "".
Proof. destruct s as [|a [|b s]]; try done. eauto. Qed.

Lemma length_two s :
  String.length s = 2%nat -> exists a b, s = String a (String b "").
Proof. destruct s as [|a [|b [|c s]]]; try done. eauto. Qed.

Lemma string_length_app s t :
  String.length (s +:+ t) = (String.length s + String.length t)%nat.
Proof. induction s as [|c s IH]; simpl; [done|]. by rewrite IH. Qed.

Lemma str_length_pos n : (0 < String.length (Py.str n))%nat.
Proof. pose proof (str_nonempty n). destruct (Py.str n); simpl; [done|lia]. Qed.

(** The slices of the traditional format on the digits of a version with
    a one-digit major number and a one-digit minor and patch number, or a
    two-digit minor number. *)
Lemma packed_parts_compact M m p :
  0 <= M < 10 ->
  (0 <= m < 10 /\ 0 <= p < 10) \/ (10 <= m < 100 /\ 0 <= p) ->
  packed_parts (Py.str M +:+ Py.str m +:+ Py.str p) = Some (M, m, p).
Proof.
  intros HM Hmp.
  destruct (length_one _ (str_one_digit M HM)) as [a Ha].
  pose proof (int_str M) as HiM. pose proof (int_str m) as Him.
  pose proof (int_str p) as Hip.
  destruct Hmp as [[Hm Hp]|[Hm Hp]].
  - destruct (length_one _ (str_one_digit m Hm)) as [b Hb].
    destruct (length_one _ (str_one_digit p Hp)) as [c Hc].
    rewrite Ha, Hb, Hc in *. unfold packed_parts.
    change (String a "" +:+ String b "" +:+ String c "")
      with (String a (String b (String c ""))).
    cbn [String.length Nat.leb Nat.eqb Py.slice Py.slice_from
         String.substring Nat.sub].
    rewrite HiM, Him, Hip. reflexivity.
  - destruct (length_two _ (str_two_digits m Hm)) as (b1 & b2 & Hb).
    rewrite Ha, Hb in *. unfold packed_parts.
    pose proof (str_length_pos p) as Hlen.
    change (String a "" +:+ String b1 (String b2 "") +:+ Py.str p)
      with (String a (String b1 (String b2 (Py.str p)))).
    cbn [String.length].
    destruct (String.length (Py.str p)) as [|k] eqn:Hk; [lia|].
    cbn [Nat.leb Py.slice Py.slice_from String.substring Nat.sub String.length].
    rewrite substring_none, HiM, Him.
    rewrite ?Nat.sub_0_r, <- ?Hk, substring_all, Hip. reflexivity.
Qed.

(** The same slices take a one-digit minor number and a two-digit patch
    number apart in the wrong place. *)
Lemma packed_parts_long_patch M m p :
  0 <= M < 10 -> 0 <= m < 10 -> 10 <= p < 100 ->
  packed_parts (Py.str M +:+ Py.str m +:+ Py.str p)
  = Some (M, 10 * m + p / 10, p mod 10).
Proof.
  intros HM Hm Hp.
  pose (check M m p :=
          bool_decide (packed_parts (Py.str M +:+ Py.str m +:+ Py.str p)
                       = Some (M, 10 * m + p / 10, p mod 10))).
  assert (Hall : check M m p = true); [|by apply bool_decide_eq_true in Hall].
  revert p Hp. apply (range_forallb (fun p => check M m p) 10 90).
  revert m Hm.
  apply (range_forallb
           (fun m => List.forallb (fun i => check M m (10 + Z.of_nat i)) (seq 0 90))
           0 10).
  revert M HM.
  apply (range_forallb
           (fun M => List.forallb
                       (fun j => List.forallb
                                   (fun i => check M (0 + Z.of_nat j)
                                               (10 + Z.of_nat i)) (seq 0 90))
                       (seq 0 10))
           0 10).
  vm_compute. reflexivity.
Qed.

Lemma get_qt_version_str_release self v :
  prerelease v = None ->
  _get_qt_version_str self v
  = if bool_decide (v = Ver.release 5 9 0) then "59"
    else Py.str (major v) +:+ Py.str (minor v) +:+ Py.str (patch v).
Proof.
  intros Hpre. unfold _get_qt_version_str. rewrite Hpre. simpl.
  destruct (bool_decide_reflect (v = Ver.release 5 9 0)) as [->|]; [done|].
  reflexivity.
Qed.

Lemma compact_digits self v :
  0 <= major v -> 0 <= minor v -> 0 <= patch v ->
  Py.forallb Py.is_ascii_digit (_get_qt_version_str self v) = true.
Proof.
  intros HM Hm Hp. unfold _get_qt_version_str.
  rewrite !forallb_app, !str_digits_nonneg by done. simpl.
  destruct (_ || _); [done|]. by apply str_digits_nonneg.
Qed.

Lemma packed_parts_version_str self v :
  prerelease v = None -> 0 <= major v < 10 ->
  (0 <= minor v < 10 /\ 0 <= patch v < 10) \/ (10 <= minor v < 100 /\ 0 <= patch v) ->
  packed_parts (_get_qt_version_str self v) = Some (major v, minor v, patch v).
Proof.
  intros Hpre HM Hmp. rewrite get_qt_version_str_release by done.
  destruct (bool_decide_reflect (v = Ver.release 5 9 0)) as [->|]; [done|].
  by apply packed_parts_compact.
Qed.

(** Decoding the compact string of a version gives back its numbers. *)
Lemma compact_decode Version_new self v :
  prerelease v = None -> 0 <= major v < 10 ->
  (0 <= minor v < 10 /\ 0 <= patch v < 10) \/ (10 <= minor v < 100 /\ 0 <= patch v) ->
  get_semantic_version Version_new (_get_qt_version_str self v) false
  = Version_new (version_str (major v) (minor v) (patch v) false).
Proof.
  intros Hpre HM Hmp. apply get_semantic_version_packed.
  - apply compact_digits; lia.
  - by apply packed_parts_version_str.
Qed.

(** X8.  The compact version string and the decoder of folder names agree
    on the versions the traditional format can hold: for a release with a
    one-digit major number and either one-digit minor and patch numbers or
    a two-digit minor number, decoding the compact string constructs the
    version from the same three numbers.  They disagree on a one-digit
    minor number with a two-digit patch number: the string of 6.2.10 is
    [6210], which is decoded as 6.21.0. *)
Theorem compact_version_decode :
  forall (Version_new : string -> option Version) (self : MetadataFactory)
         (v : Version),
    prerelease v = None ->
    0 <= major v < 10 ->
    ((0 <= minor v < 10 /\ 0 <= patch v < 10) \/ (10 <= minor v < 100 /\ 0 <= patch v) ->
     get_semantic_version Version_new (_get_qt_version_str self v) false
     = Version_new (version_str (major v) (minor v) (patch v) false))
    /\ (0 <= minor v < 10 /\ 10 <= patch v < 100 ->
        get_semantic_version Version_new (_get_qt_version_str self v) false
        = Version_new (version_str (major v) (10 * minor v + patch v / 10)
                         (patch v mod 10) false)).
Proof.
  intros Version_new self v Hpre HM. split.
  - intros Hmp. by apply compact_decode.
  - intros [Hm Hp]. apply get_semantic_version_packed.
    + apply compact_digits; lia.
    + rewrite get_qt_version_str_release by done.
      destruct (bool_decide_reflect (v = Ver.release 5 9 0)) as [->|];
        [simpl in Hp; lia|].
      by apply packed_parts_long_patch.
Qed.

Lemma split_max_zero sep s : Py.split_max sep 0 s = [s].
Proof. by destruct s. Qed.

Lemma split_max_no_sep c n s :
  Py.contains_char c s = false -> Py.split_max (String c "") n s = [s].
Proof.
  unfold Py.split_max, Py.contains_char, Py.existsb.
  induction s as [|a s IH]; simpl; [done|].
  intros Hs. apply negb_false_iff in Hs. apply andb_prop in Hs as [Ha Hs].
  apply negb_true_iff in Ha. destruct n as [|n]; [done|].
  destruct (ascii_dec c a) as [->|Hne]; [by rewrite Ascii.eqb_refl in Ha|].
  rewrite IH; [done|]. by rewrite Hs.
Qed.

Lemma split_max_app_sep c n s t :
  Py.contains_char c s = false ->
  Py.split_max (String c "") (S n) (s +:+ String c t)
  = s :: Py.split_max (String c "") n t.
Proof.
  unfold Py.split_max, Py.contains_char, Py.existsb.
  induction s as [|a s IH]; simpl.
  - intros _. destruct (ascii_dec c c); [|done]. by destruct t.
  - intros Hs. apply negb_false_iff in Hs. apply andb_prop in Hs as [Ha Hs].
    apply negb_true_iff in Ha.
    destruct (ascii_dec c a) as [->|Hne]; [by rewrite Ascii.eqb_refl in Ha|].
    rewrite IH; [done|]. by rewrite Hs.
Qed.

Lemma digits_no_underscore s :
  Py.forallb Py.is_ascii_digit s = true -> Py.contains_char "_" s = false.
Proof. intros Hs. by apply digits_packed_guard. Qed.

Lemma get_qt_version_str_cons self v :
  exists c rest, _get_qt_version_str self v = String c rest.
Proof.
  unfold _get_qt_version_str. pose proof (str_nonempty (major v)) as Hne.
  destruct (Py.str (major v)) as [|c r]; [done|]. rewrite append_cons. eauto.
Qed.

Lemma first_char_compact self v :
  0 <= major v < 10 ->
  first_char (_get_qt_version_str self v) = Ok (Py.str (major v)).
Proof.
  intros HM. unfold _get_qt_version_str.
  destruct (length_one _ (str_one_digit _ HM)) as [a ->]. by rewrite append_cons.
Qed.

Lemma to_folder_compact_ok a self v extension :
  exists folder,
    to_folder a v (_get_qt_version_str self v) extension = Ok folder.
Proof.
  destruct (get_qt_version_str_cons self v) as (c & rest & Hs).
  unfold to_folder. rewrite Hs. cbn [first_char].
  destruct (Ver.geb v (Ver.release 6 8 0)); simpl; eauto.
Qed.

(** X7.  On the compact string of the version itself [to_folder] never
    fails: it returns a base name that starts with the category, followed
    by the extension suffix, and from 6.8.0 on the base name, a slash, and
    the same again; for a one-digit major number the base name is the
    category, the major number, an underscore and the compact string. *)
Theorem to_folder_of_compact :
  forall (self : MetadataFactory) (v : Version) (extension : option string),
    let qt_ver_str := _get_qt_version_str self v in
    exists base : string,
      to_folder (archive_id self) v qt_ver_str extension
      = Ok (if Ver.geb v (Ver.release 6 8 0)
            then base +:+ "/" +:+ base +:+ ext_suffix extension
            else base +:+ ext_suffix extension)
      /\ Py.startswith base (category (archive_id self)) = true
      /\ (0 <= major v < 10 ->
          base = category (archive_id self) +:+ Py.str (major v) +:+ "_"
                 +:+ qt_ver_str).
Proof.
  intros self v extension qt_ver_str.
  destruct (get_qt_version_str_cons self v) as (c & rest & Hs).
  exists (category (archive_id self) +:+ String c "" +:+ "_" +:+ qt_ver_str).
  split; [|split].
  - unfold to_folder. fold qt_ver_str. subst qt_ver_str. rewrite Hs.
    cbn [first_char]. destruct (Ver.geb v (Ver.release 6 8 0)); simpl.
    + by rewrite !append_assoc.
    + by rewrite !append_assoc.
  - apply startswith_app.
  - intros HM. pose proof (first_char_compact self v HM) as Hf.
    fold qt_ver_str in Hf. subst qt_ver_str. rewrite Hs in Hf.
    cbn [first_char] in Hf. by injection Hf as ->.
Qed.

Lemma folder_to_version_extension_flat Version_new a b ext :
  Py.contains_char "_" a = false -> Py.contains_char "_" b = false ->
  folder_to_version_extension Version_new (a +:+ "_" +:+ b +:+ ext_suffix (Some ext))
  = (get_semantic_version Version_new b (Py.contains "preview" ext), ext).
Proof.
  intros Ha Hb. unfold folder_to_version_extension, ext_suffix.
  change (a +:+ "_" +:+ ?t) with (a +:+ String "_"%char t).
  rewrite split_max_app_sep by done.
  destruct (String.eqb_spec ext "") as [->|Hne].
  - rewrite append_nil_r, split_max_no_sep by done. reflexivity.
  - change (b +:+ "_" +:+ ext) with (b +:+ String "_"%char ext).
    rewrite split_max_app_sep, split_max_zero by done. reflexivity.
Qed.

(** X9.  A folder name built by [to_folder] is read back by the decoder
    of the directory index: below 6.8.0 the folder of a version and an
    extension decodes to that version and that extension; from 6.8.0 on the
    first segment of the folder decodes to the version with the empty
    extension, whatever extension the folder was built for. *)
Theorem folder_name_round_trip :
  forall (Version_new : string -> option Version) (self : MetadataFactory)
         (v : Version) (ext : string),
    prerelease v = None ->
    0 <= major v < 10 ->
    (0 <= minor v < 10 /\ 0 <= patch v < 10) \/ (10 <= minor v < 100 /\ 0 <= patch v) ->
    Py.contains_char "_" (category (archive_id self)) = false ->
    Py.contains "preview" ext = false ->
    let decoded := Version_new (version_str (major v) (minor v) (patch v) false) in
    (Ver.geb v (Ver.release 6 8 0) = false ->
     exists folder,
       to_folder (archive_id self) v (_get_qt_version_str self v) (Some ext)
       = Ok folder
       /\ folder_to_version_extension Version_new folder = (decoded, ext))
    /\ (Ver.geb v (Ver.release 6 8 0) = true ->
        exists top,
          to_folder (archive_id self) v (_get_qt_version_str self v) (Some ext)
          = Ok (top +:+ "/" +:+ top +:+ ext_suffix (Some ext))
          /\ folder_to_version_extension Version_new top = (decoded, "")).
Proof.
  intros Version_new self v ext Hpre HM Hmp Hcat Hprev decoded.
  set (s := _get_qt_version_str self v).
  assert (Hs : Py.contains_char "_" s = false).
  { apply digits_no_underscore, compact_digits; lia. }
  assert (Ha : Py.contains_char "_" (category (archive_id self) +:+ Py.str (major v))
               = false).
  { by rewrite contains_char_app, Hcat, str_no_underscore. }
  assert (Hdec : get_semantic_version Version_new s false = decoded)
    by by apply compact_decode.
  assert (Hf : first_char s = Ok (Py.str (major v)))
    by by apply first_char_compact.
  unfold to_folder. rewrite Hf.
  split; intros Hge; rewrite Hge; cbn [mbind Res_bind].
  - eexists. split; [reflexivity|].
    rewrite <- (append_assoc (category (archive_id self))).
    rewrite folder_to_version_extension_flat by done. by rewrite Hprev, Hdec.
  - exists (category (archive_id self) +:+ Py.str (major v) +:+ "_" +:+ s).
    split; [by rewrite !append_assoc|].
    rewrite <- (append_assoc (category (archive_id self))).
    pose proof (folder_to_version_extension_flat Version_new
                  (category (archive_id self) +:+ Py.str (major v)) s "" Ha Hs)
      as Hflat.
    unfold ext_suffix in Hflat. simpl String.eqb in Hflat.
    change (Py.contains "preview" "") with false in Hflat.
    rewrite append_nil_r in Hflat. rewrite Hflat. by rewrite Hdec.
Qed.

(** X10.  The decoder of the directory index cuts a folder name at its
    first two underscores, so the version fragment it passes on never holds
    one: a folder named in the underscore style, such as [qt6_6_8_0], is
    read as the fragment [6] with the extension [8_0] and yields no
    version. *)
Theorem underscore_folder_not_decoded :
  forall (Version_new : string -> option Version) (prefix : string) (M m p : Z),
    Py.contains_char "_" prefix = false ->
    0 <= M < 10 ->
    folder_to_version_extension Version_new
      (prefix +:+ "_" +:+ underscore_form M m p)
    = (None, Py.str m +:+ "_" +:+ Py.str p).
Proof.
  intros Version_new prefix M m p Hprefix HM.
  unfold folder_to_version_extension, underscore_form.
  change (prefix +:+ "_" +:+ ?t) with (prefix +:+ String "_"%char t).
  rewrite split_max_app_sep by done.
  change (Py.str M +:+ "_" +:+ ?t) with (Py.str M +:+ String "_"%char t).
  rewrite split_max_app_sep by apply str_no_underscore.
  rewrite split_max_zero. cbn [length Nat.ltb Nat.leb nth].
  rewrite get_semantic_version_short; [done|].
  rewrite str_one_digit by done. lia.
Qed.

(** ** Further properties of the version listing *)

Lemma le_major_minor v w :
  Ver.le v w ->
  major v <= major w /\ (major v = major w -> minor v <= minor w).
Proof.
  unfold Ver.le, Ver.leb, Ver.compare.
  destruct (Z.compare_spec (major v) (major w)) as [EM|LM|GM]; [|lia|done].
  destruct (Z.compare_spec (minor v) (minor w)) as [Em|Lm|Gm]; [lia|lia|done].
Qed.

Lemma le_between u v w :
  Ver.le v u -> Ver.le u w -> major v = major w -> minor v = minor w ->
  minor u = minor v.
Proof.
  intros [HM1 Hm1]%le_major_minor [HM2 Hm2]%le_major_minor EM Em.
  assert (major v = major u) by lia. assert (major u = major w) by lia.
  specialize (Hm1 ltac:(done)). specialize (Hm2 ltac:(done)). lia.
Qed.

Lemma concat_sorted_across {A} (R : relation A) (gs : list (list A)) i j g1 g2 x y :
  StronglySorted R (concat gs) ->
  gs !! i = Some g1 -> gs !! j = Some g2 -> (i < j)%nat ->
  x ∈ g1 -> y ∈ g2 -> R x y.
Proof.
  revert i j. induction gs as [|g gs IH]; intros i j Hs Hi Hj Hlt Hx Hy; [done|].
  simpl in Hs. apply StronglySorted_app in Hs as (Hcross & _ & Hrest).
  destruct j as [|j]; [lia|]. simpl in Hj. destruct i as [|i].
  - injection Hi as <-. apply Hcross; [done|].
    apply list_elem_of_In, in_concat. exists g2.
    split; apply list_elem_of_In; [|done].
    by apply list_elem_of_lookup_2 in Hj.
  - simpl in Hi. apply (IH i j); [done..|lia|done|done].
Qed.

Lemma last_sorted_greatest {A} (R : relation A) `{!Reflexive R} l m x :
  StronglySorted R l -> last l = Some m -> x ∈ l -> R x m.
Proof.
  intros Hs Hlast Hx. apply last_Some in Hlast as [l' ->].
  apply StronglySorted_app in Hs as (Hcross & _ & _).
  apply elem_of_app in Hx as [Hx|Hx%list_elem_of_singleton].
  - apply Hcross; [done|]. by apply list_elem_of_singleton.
  - by subst.
Qed.

Section GroupFacts.

Variables (self : MetadataFactory) (extension : string)
          (ves : list (option Version * string)).

Lemma group_versions_lookup i g :
  versions (group_versions self extension ves) !! i = Some g ->
  Py.groupby minor (sorted_versions (kept_versions self extension ves)) !! i
  = Some (match g with v :: _ => minor v | [] => 0 end, g)
  /\ g <> [] /\ forall v, v ∈ g -> minor v = match g with v :: _ => minor v | [] => 0 end.
Proof.
  unfold group_versions. simpl. rewrite list_lookup_fmap.
  destruct (Py.groupby minor _ !! i) as [[k g']|] eqn:Hi; [|done].
  simpl. intros [= ->].
  pose proof (list_elem_of_lookup_2 _ _ _ Hi) as Hin.
  apply groupby_groups in Hin as [Hne Hk].
  destruct g as [|v g]; [done|].
  rewrite (Hk v) by by left. split; [done|]. split; [done|].
  intros w Hw. by apply Hk.
Qed.

Lemma group_versions_adjacent i g1 g2 v w :
  versions (group_versions self extension ves) !! i = Some g1 ->
  versions (group_versions self extension ves) !! (i + 1)%nat = Some g2 ->
  v ∈ g1 -> w ∈ g2 -> minor v <> minor w.
Proof.
  intros (H1 & _ & Hk1)%group_versions_lookup (H2 & _ & Hk2)%group_versions_lookup
    Hv Hw.
  rewrite (Hk1 v Hv), (Hk2 w Hw). by apply (groupby_maximal _ _ _ _ _ _ _ H1 H2).
Qed.

Lemma group_versions_apart i j g1 g2 v w :
  versions (group_versions self extension ves) !! i = Some g1 ->
  versions (group_versions self extension ves) !! j = Some g2 ->
  (i < j)%nat -> v ∈ g1 -> w ∈ g2 ->
  major v = major w -> minor v = minor w -> False.
Proof.
  intros Hi Hj Hlt Hv Hw EM Em.
  set (V := group_versions self extension ves) in *.
  assert (Hs : StronglySorted Ver.le (concat (versions V))).
  { fold (flattened V). unfold V. rewrite flattened_group_versions.
    apply sorted_versions_sorted. }
  destruct (decide (j = (i + 1)%nat)) as [->|Hne].
  { by apply (group_versions_adjacent i g1 g2 v w). }
  destruct (lookup_lt_is_Some_2 (versions V) (i + 1)) as [g Hg].
  { apply lookup_lt_Some in Hj. lia. }
  pose proof (group_versions_lookup _ _ Hg) as (_ & Hne' & _).
  destruct g as [|u g]; [done|].
  assert (Hu : u ∈ u :: g) by by left.
  apply (group_versions_adjacent i g1 (u :: g) v u); [done..|].
  symmetry. apply (le_between u v w); [| |done|done].
  - apply (concat_sorted_across Ver.le (versions V) i (i + 1) g1 (u :: g));
      [done..|lia|done|done].
  - apply (concat_sorted_across Ver.le (versions V) (i + 1) j (u :: g) g2);
      [done..|lia|done|done].
Qed.

End GroupFacts.

(** X2.  In the Versions value of [fetch_versions] two versions with the
    same major and minor number are always in the same group, and two
    neighbouring groups never have the same minor number; the groups are
    the runs of the sorted list, not the classes of the minor number: of
    5.12.0, 5.15.0 and 6.12.0 the first and the last share the minor number
    12 and are in different groups. *)
Theorem group_versions_by_major_minor :
  forall (self : MetadataFactory) (extension : string)
         (versions_extensions : list (option Version * string))
         (i j : nat) (g1 g2 : list Version) (v w : Version),
    let V := group_versions self extension versions_extensions in
    versions V !! i = Some g1 -> versions V !! j = Some g2 ->
    v ∈ g1 -> w ∈ g2 ->
    (major v = major w -> minor v = minor w -> i = j)
    /\ (j = (i + 1)%nat -> minor v <> minor w)
    /\ (spec self = None ->
        versions (group_versions self ""
                    [(Some (Ver.release 6 12 0), "");
                     (Some (Ver.release 5 15 0), "");
                     (Some (Ver.release 5 12 0), "")])
        = [[Ver.release 5 12 0]; [Ver.release 5 15 0]; [Ver.release 6 12 0]]).
Proof.
  intros self extension ves i j g1 g2 v w V Hi Hj Hv Hw. split; [|split].
  - intros EM Em. destruct (Nat.lt_total i j) as [Hlt|[->|Hgt]]; [|done|].
    + by destruct (group_versions_apart self extension ves i j g1 g2 v w).
    + by destruct (group_versions_apart self extension ves j i g2 g1 w v).
  - intros ->. by apply (group_versions_adjacent self extension ves i g1 g2).
  - intros Hspec. unfold group_versions, kept_versions, filter_by.
    rewrite Hspec. vm_compute. reflexivity.
Qed.

Section LatestFacts.

Variables (self : MetadataFactory) (ext : string)
          (ves : list (option Version * string)).

Let kept := sorted_versions (kept_versions self ext ves).

Lemma elem_of_sorted_kept v :
  v ∈ kept <-> (Some v, ext) ∈ ves /\ spec_matches self v.
Proof. unfold kept. rewrite sorted_versions_perm. apply elem_of_kept_versions. Qed.

Lemma last_kept_none :
  last kept = None <-> forall v, (Some v, ext) ∈ ves -> ~ spec_matches self v.
Proof.
  rewrite last_None. split.
  - intros Hnil v Hv Hm. assert (Hin : v ∈ kept) by by apply elem_of_sorted_kept.
    rewrite Hnil in Hin. by apply elem_of_nil in Hin.
  - intros Hnone. destruct kept as [|v l] eqn:Hk; [done|].
    destruct (proj1 (elem_of_sorted_kept v)) as [Hv Hm]; [rewrite Hk; by left|].
    by destruct (Hnone v).
Qed.

Lemma last_kept_greatest m :
  last kept = Some m <->
  (Some m, ext) ∈ ves /\ spec_matches self m
  /\ forall v, (Some v, ext) ∈ ves -> spec_matches self v -> Ver.le v m.
Proof.
  split.
  - intros Hlast.
    assert (Hin : m ∈ kept).
    { apply last_Some in Hlast as [l' ->]. apply elem_of_app. right. by left. }
    destruct (proj1 (elem_of_sorted_kept m) Hin) as [Hm1 Hm2].
    split; [done|]. split; [done|]. intros v Hv Hsp.
    apply (last_sorted_greatest Ver.le kept m v);
      [apply sorted_versions_sorted|done|by apply elem_of_sorted_kept].
  - intros (Hm1 & Hm2 & Hmax).
    assert (Hin : m ∈ kept) by by apply elem_of_sorted_kept.
    destruct (last kept) as [m'|] eqn:Hlast.
    2: { apply last_None in Hlast. rewrite Hlast in Hin. by apply elem_of_nil in Hin. }
    f_equal. apply (anti_symm Ver.le).
    + assert (Hin' : m' ∈ kept).
      { apply last_Some in Hlast as [l' ->]. apply elem_of_app. right. by left. }
      apply elem_of_sorted_kept in Hin' as [Hv Hsp]. by apply Hmax.
    + apply (last_sorted_greatest Ver.le kept m' m);
        [apply sorted_versions_sorted|done|done].
Qed.

Lemma fetch_latest_version_run {World} (H : Helper World) S P Version_new
    (st st' : St World) url html_doc :
  to_url (archive_id self) = Ok url ->
  fetch_http H S self url false st = (Ok html_doc, st') ->
  get_versions_extensions P Version_new self html_doc
    (category (archive_id self)) = (ves, None) ->
  fetch_latest_version H S P Version_new self ext st = (Ok (last kept), st').
Proof.
  intros Hurl Hfetch Hves. unfold fetch_latest_version. unfold mbind, M_bind.
  rewrite (fetch_versions_ok H S P Version_new self ext st st' url html_doc ves)
    by done.
  unfold lift. by rewrite latest_group_versions, flattened_group_versions.
Qed.

End LatestFacts.

(** X13.  Once the page is fetched and parsed, [fetch_latest_version]
    returns the greatest version among the folders that carry the requested
    extension and match the spec: it is one of them and none of them is
    above it; it returns nothing exactly when there is no such folder. *)
Theorem fetch_latest_version_greatest :
  forall (World : Type) (H : Helper World) (S : Settings) (P : Parsers)
         (Version_new : string -> option Version) (self : MetadataFactory)
         (ext : string) (st st' : St World) (url html_doc : string)
         (versions_extensions : list (option Version * string)),
    to_url (archive_id self) = Ok url ->
    fetch_http H S self url false st = (Ok html_doc, st') ->
    get_versions_extensions P Version_new self html_doc
      (category (archive_id self)) = (versions_extensions, None) ->
    exists r : option Version,
      fetch_latest_version H S P Version_new self ext st = (Ok r, st')
      /\ (r = None <->
          forall v, (Some v, ext) ∈ versions_extensions -> ~ spec_matches self v)
      /\ (forall m, r = Some m <->
            (Some m, ext) ∈ versions_extensions /\ spec_matches self m
            /\ forall v, (Some v, ext) ∈ versions_extensions ->
                         spec_matches self v -> Ver.le v m).
Proof.
  intros World H S P Version_new self ext st st' url html_doc ves Hurl Hfetch Hves.
  exists (last (sorted_versions (kept_versions self ext ves))).
  split; [by apply (fetch_latest_version_run self ext ves H S P Version_new
                      st st' url html_doc)|].
  split; [apply last_kept_none|]. intros m. apply last_kept_greatest.
Qed.


(** ** Further properties of the directory index *)

Section IndexFailure.

Variable P : Parsers.

Lemma iterate_links_error html_url f links folders e :
  iterate_links P html_url f links = (folders, Some e) ->
  e = html_page_error html_url.
Proof.
  revert folders. induction links as [|link links IH]; intros folders; simpl.
  { done. }
  destruct (link_to_folder P link) as [folder|e0]; [|by intros [= _ <-]].
  destruct (String.eqb folder ""); [apply IH|].
  destruct (iterate_links P html_url f links) as [rest err].
  intros [= _ ->]. by apply (IH rest).
Qed.

Lemma iterate_folders_error html_doc html_url f folders e :
  iterate_folders P html_doc html_url f = (folders, Some e) ->
  e = html_page_error html_url.
Proof.
  unfold iterate_folders. destruct (find_all_a P html_doc) as [links|e0].
  - apply iterate_links_error.
  - by intros [= _ <-].
Qed.

Lemma link_to_folder_raises link e :
  urlparse P (default "" link) = Raise e -> link_to_folder P link = Raise e.
Proof. unfold link_to_folder. by intros ->. Qed.

Lemma link_to_folder_parsed link folder :
  link_to_folder P link = Ok folder ->
  exists u, urlparse P (default "" link) = Ok u.
Proof.
  unfold link_to_folder. destruct (urlparse P (default "" link)); [eauto|done].
Qed.

Lemma iterate_links_unparsed html_url f links link e :
  link ∈ links -> urlparse P (default "" link) = Raise e ->
  (iterate_links P html_url f links).2 = Some (html_page_error html_url).
Proof.
  intros Hin Hraise. induction links as [|l links IH]; [by apply elem_of_nil in Hin|].
  simpl. destruct (link_to_folder P l) as [folder|e0] eqn:Hl; [|done].
  apply elem_of_cons in Hin as [->|Hin].
  { apply link_to_folder_parsed in Hl as [u Hu]. congruence. }
  specialize (IH Hin). destruct (String.eqb folder ""); [done|].
  by destruct (iterate_links P html_url f links).
Qed.

(** When the page or one of its anchors cannot be parsed, the iteration
    ends with the connection error for the given URL, whatever the filter. *)
Lemma iterate_folders_unparsed html_doc html_url f :
  (exists e, find_all_a P html_doc = Raise e)
  \/ (exists links link e,
        find_all_a P html_doc = Ok links /\ link ∈ links
        /\ urlparse P (default "" link) = Raise e) ->
  (iterate_folders P html_doc html_url f).2 = Some (html_page_error html_url).
Proof.
  unfold iterate_folders. intros [[e ->]|(links & link & e & -> & Hin & He)]; [done|].
  by apply (iterate_links_unparsed _ _ _ link e).
Qed.

End IndexFailure.

(** X12.  A directory page that cannot be parsed, or that holds one anchor
    whose reference cannot be parsed, fails the whole listing, of versions
    and of tools alike: the connection error raised names the configured
    base URL, whichever host served the page, and the folders found before
    the anchor are dropped. *)
Theorem listing_unparsed_page :
  forall (World : Type) (H : Helper World) (S : Settings) (P : Parsers)
         (Version_new : string -> option Version) (self : MetadataFactory)
         (ext : string) (st st' : St World) (url html_doc : string),
    to_url (archive_id self) = Ok url ->
    fetch_http H S self url false st = (Ok html_doc, st') ->
    (exists e, find_all_a P html_doc = Raise e)
    \/ (exists links link e,
          find_all_a P html_doc = Ok links /\ link ∈ links
          /\ urlparse P (default "" link) = Raise e) ->
    fetch_versions H S P Version_new self ext st
    = (Raise (html_page_error (base_url self)), st')
    /\ fetch_tools H S P self st
       = (Raise (html_page_error (base_url self)), st').
Proof.
  intros World H S P Version_new self ext st st' url html_doc Hurl Hfetch Hbad.
  split.
  - unfold fetch_versions. rewrite Hurl. unfold mbind, M_bind, lift. simpl.
    rewrite Hfetch. unfold get_versions_extensions.
    pose proof (iterate_folders_unparsed P html_doc (base_url self)
                  (category (archive_id self)) Hbad) as Herr.
    destruct (iterate_folders P html_doc (base_url self) _) as [folders err].
    simpl in Herr. by rewrite Herr.
  - unfold fetch_tools. rewrite Hurl. unfold mbind, M_bind, lift. simpl.
    rewrite Hfetch.
    pose proof (iterate_folders_unparsed P html_doc (base_url self) "tools" Hbad)
      as Herr.
    destruct (iterate_folders P html_doc (base_url self) "tools") as [folders err].
    simpl in Herr. by rewrite Herr.
Qed.

(** X11.  Every name [fetch_tools] returns is a single path segment, not
    empty and neither [.] nor [..], that starts with [tools] or is
    [sdktool]. *)
Theorem fetch_tools_names :
  forall (World : Type) (H : Helper World) (S : Settings) (P : Parsers)
         (self : MetadataFactory) (st st' : St World) (names : list string),
    fetch_tools H S P self st = (Ok names, st') ->
    forall x, x ∈ names ->
      (Py.startswith x "tools" = true \/ x = "sdktool")
      /\ Py.contains_char "/" x = false
      /\ x <> "" /\ x <> "." /\ x <> "..".
Proof.
  intros World H S P self st st' names Hrun x Hx.
  unfold fetch_tools in Hrun. unfold mbind, M_bind, lift in Hrun.
  destruct (to_url (archive_id self)) as [url|e]; [|done]. simpl in Hrun.
  destruct (fetch_http H S self url false st) as [[html_doc|e] st1]; [|done].
  pose proof (iterate_links_sound P (base_url self) "tools") as Hsound.
  unfold iterate_folders in Hrun.
  destruct (find_all_a P html_doc) as [links|e]; [|done].
  specialize (Hsound links x).
  destruct (iterate_links P (base_url self) "tools" links) as [folders [err|]];
    [done|].
  injection Hrun as -> _. destruct (Hsound Hx) as (link & _ & Hy).
  apply elem_of_link_yields in Hy as (u & _ & _ & _ & -> & Hslash & Hdot & Hdd & Hf).
  split; [|split; [done|split; [apply normpath_nonempty|done]]].
  destruct Hf as [Hf|[_ Hf]]; auto.
Qed.

(** ** Further properties of the tool selection *)

Lemma tools_versions_app permissive before rest :
  (forall n d, (n, d) ∈ before ->
     exists t v, d !! "Version" = Some t /\ permissive t = Some v) ->
  tools_versions permissive (before ++ rest)
  = match tools_versions permissive rest with
    | Ok (Some l) =>
        match tools_versions permissive before with
        | Ok (Some l0) => Ok (Some (l0 ++ l))
        | r => r
        end
    | r => r
    end.
Proof.
  induction before as [|[n d] before IH]; intros Hall; simpl.
  { by destruct (tools_versions permissive rest) as [[l|]|e]. }
  destruct (Hall n d) as (t & v & Ht & Hv); [by left|].
  rewrite Ht. simpl. rewrite Hv. rewrite IH by (intros n' d' Hin; apply (Hall n'); by right).
  destruct (tools_versions permissive rest) as [[l|]|e]; simpl; [|done|done].
  by destruct (tools_versions permissive before) as [[l0|]|e0].
Qed.

(** X3.  The list of tool versions is built candidate by candidate, in the
    order of the manifest, and the first candidate that cannot be read
    decides: one without a [Version] attribute makes the selection raise
    [KeyError], which the handler for [ValueError] does not catch; one whose
    version does not parse makes the selection return nothing.  Whatever
    follows that candidate is not looked at. *)
Theorem choose_highest_version_first_unreadable :
  forall (permissive : string -> option Version) (before after : dict attrs)
         (name : string) (tool_data : attrs) (simple_spec : SimpleSpec),
    (forall n d, (n, d) ∈ before ->
       exists t v, d !! "Version" = Some t /\ permissive t = Some v) ->
    let all_tools_data := before ++ (name, tool_data) :: after in
    (tool_data !! "Version" = None ->
     choose_highest_version_in_spec permissive all_tools_data simple_spec
     = Raise (KeyError "Version"))
    /\ (forall t, tool_data !! "Version" = Some t -> permissive t = None ->
          choose_highest_version_in_spec permissive all_tools_data simple_spec
          = Ok None).
Proof.
  intros permissive before after name tool_data simple_spec Hall all_tools_data.
  unfold choose_highest_version_in_spec, all_tools_data.
  rewrite tools_versions_app by done. split.
  - intros Hnone. simpl. by rewrite Hnone.
  - intros t Ht Hp. simpl. rewrite Ht. simpl. by rewrite Hp.
Qed.

(** ** Requests for a desktop target on a wasm host *)

Section WasmDesktop.

Context {World : Type}.
Variable H : Helper World.
Variable S : Settings.
Variable P : Parsers.
Variable self : MetadataFactory.

Hypothesis Htarget : target (archive_id self) = "desktop".
Hypothesis Hhost :
  host (archive_id self) = "wasm_singlethread"
  \/ host (archive_id self) = "wasm_multithread".
Hypothesis Hversion : version (archive_id self) = None.

Lemma to_url_unset : to_url (archive_id self) = Raise (AttributeError "version").
Proof.
  unfold to_url. rewrite Htarget, Hversion. by destruct Hhost as [-> | ->].
Qed.

Lemma fetch_module_metadata_unset folder predicate (st : St World) :
  _fetch_module_metadata H S P self folder predicate st
  = (Raise (AttributeError "version"), st).
Proof. unfold _fetch_module_metadata. by rewrite to_url_unset. Qed.

End WasmDesktop.

(** X15.  For an archive id with a desktop target on a wasm host and no
    version attribute, which is every such id the constructor builds, each
    request fails before anything is sent: the listings of versions, tools,
    architectures and modules and the choice of the default desktop
    architecture raise [AttributeError], and the listing of archives
    reports it as corrupted metadata, although nothing was downloaded. *)
Theorem wasm_desktop_requests_fail :
  forall (World : Type) (H : Helper World) (S : Settings) (Q : QtRepoProperty)
         (X : QtRepoExtensions) (P : Parsers)
         (Version_new : string -> option Version) (self : MetadataFactory)
         (v : Version) (arch ext : string) (modules : list string)
         (is_msvc : bool) (st : St World),
    target (archive_id self) = "desktop" ->
    host (archive_id self) = "wasm_singlethread"
    \/ host (archive_id self) = "wasm_multithread" ->
    version (archive_id self) = None ->
    fetch_versions H S P Version_new self ext st
    = (Raise (AttributeError "version"), st)
    /\ fetch_tools H S P self st = (Raise (AttributeError "version"), st)
    /\ fetch_arches H S Q P self v st = (Raise (AttributeError "version"), st)
    /\ fetch_modules H S Q X P self v arch st
       = (Raise (AttributeError "version"), st)
    /\ fetch_default_desktop_arch H S Q X P self v is_msvc st
       = (Raise (AttributeError "version"), st)
    /\ fetch_archives H S Q P self v arch modules false st
       = (Raise (ArchiveListError
                   "Downloaded metadata is corrupted. 'ArchiveId' object has no attribute 'version'"),
          st).
Proof.
  intros World H S Q X P Version_new self v arch ext modules is_msvc st Ht Hh Hv.
  pose proof (to_url_unset self Ht Hh Hv) as Hurl.
  assert (Harches : fetch_arches H S Q P self v st
                    = (Raise (AttributeError "version"), st)).
  { unfold fetch_arches, all_extensions. rewrite Ht.
    assert (Hext : exists extensions,
               (if String.eqb "desktop" "desktop"
                   && is_in_wasm_range Q (host (archive_id self)) v
                then [""; "wasm"]
                else if String.eqb "desktop" "desktop" && is_in_wasm_threaded_range Q v
                then [""; "wasm_singlethread"; "wasm_multithread"]
                else if String.eqb "desktop" "android" && Ver.geb v (Ver.release 6 0 0)
                then EXTENSIONS_REQUIRED_ANDROID_QT6 Q
                else [""]) = "" :: extensions).
    { simpl. destruct (is_in_wasm_range Q _ v); [eauto|].
      destruct (is_in_wasm_threaded_range Q v); eauto. }
    destruct Hext as [extensions ->]. cbn [fetch_arches_loop].
    destruct (to_folder_compact_ok (archive_id self) self v (Some "")) as [folder ->].
    unfold mbind at 1, M_bind, lift at 1.
    unfold mbind at 1, M_bind, try_except.
    by rewrite (fetch_module_metadata_unset H S P self Ht Hh Hv). }
  split; [|split; [|split; [|split; [|split]]]].
  - unfold fetch_versions. by rewrite Hurl.
  - unfold fetch_tools. by rewrite Hurl.
  - done.
  - unfold fetch_modules.
    destruct (to_folder_compact_ok (archive_id self) self v
                (Some (extension_for_arch Q arch (Ver.geb v (Ver.release 6 0 0)))))
      as [folder ->].
    unfold mbind at 1, M_bind, lift at 1.
    unfold mbind at 1, M_bind.
    by rewrite (fetch_module_metadata_unset H S P self Ht Hh Hv).
  - unfold fetch_default_desktop_arch. rewrite Ht.
    change (negb (String.eqb "desktop" "desktop")) with false. cbv iota.
    unfold mbind, M_bind.
    destruct Hh as [-> | ->]; simpl String.eqb; simpl; by rewrite Harches.
  - unfold fetch_archives.
    destruct (to_folder_compact_ok (archive_id self) self v
                (Some (extension_for_arch Q arch (Ver.geb v (Ver.release 6 0 0)))))
      as [folder Hfolder].
    simpl in Hfolder. rewrite Hfolder.
    unfold mbind at 1, M_bind, try_except.
    unfold mbind at 1, M_bind, lift at 1.
    by rewrite (fetch_module_metadata_unset H S P self Ht Hh Hv).
Qed.

(** ** Further properties of the constructor *)

(** X16.  The constructor of [MetadataFactory] fails in one case only: for
    a category other than tools, without the latest-version flag, a modules
    query or an architectures version, when the archives query holds one
    item; the error is the input error about the two required parameters.
    An archives query that is the empty list is treated as if none had been
    given. *)
Theorem MetadataFactory_init_failure :
  forall (S : Settings) (aid : ArchiveId) (base : option string)
         (sp : option SimpleSpec) (is_latest_version : bool)
         (modules_query : option (string * string))
         (architectures_ver : option string) (archives_query : option (list string))
         (src_doc_examples_query : option (string * Version * bool))
         (tool_name : option string) (is_long_listing : bool),
    let init aq :=
      MetadataFactory_init S aid base sp is_latest_version modules_query
        architectures_ver aq src_doc_examples_query tool_name is_long_listing in
    ((exists e, init archives_query = Raise e)
     <-> (is_tools aid = false /\ is_latest_version = false
          /\ modules_query = None /\ architectures_ver = None
          /\ exists item, archives_query = Some [item]))
    /\ (forall e, init archives_query = Raise e ->
          e = CliInputError
                "The '--archives' flag requires a 'QT_VERSION' and an 'ARCHITECTURE' parameter."
                [] [])
    /\ init (Some []) = init None.
Proof.
  intros S aid base sp is_latest_version modules_query architectures_ver
    archives_query src_doc_examples_query tool_name is_long_listing init.
  subst init. cbv beta. unfold MetadataFactory_init.
  split; [|split].
  - destruct (is_tools aid).
    { split.
      - intros [e He]. destruct tool_name; [destruct is_long_listing|]; done.
      - by intros [[=] _]. }
    destruct is_latest_version.
    { split; [by intros [e [=]]|by intros (_ & [=] & _)]. }
    destruct modules_query as [[version arch]|].
    { split.
      - intros [e He]. by destruct is_long_listing.
      - by intros (_ & _ & [=] & _). }
    destruct architectures_ver as [ver_str|].
    { split; [by intros [e [=]]|by intros (_ & _ & _ & [=] & _)]. }
    destruct archives_query as [[|item [|arch modules]]|].
    + split.
      * intros [e He].
        destruct src_doc_examples_query as [[[c v] []]|]; done.
      * by intros (_ & _ & _ & _ & item & [=]).
    + split; [|by eexists]. intros _. repeat split; eauto.
    + split; [by intros [e [=]]|by intros (_ & _ & _ & _ & it & [=])].
    + split.
      * intros [e He].
        destruct src_doc_examples_query as [[[c v] []]|]; done.
      * by intros (_ & _ & _ & _ & item & [=]).
  - intros e. destruct (is_tools aid).
    { destruct tool_name; [destruct is_long_listing|]; done. }
    destruct is_latest_version; [done|].
    destruct modules_query as [[version arch]|]; [by destruct is_long_listing|].
    destruct architectures_ver; [done|].
    destruct archives_query as [[|item [|arch modules]]|].
    + destruct src_doc_examples_query as [[[c v] []]|]; done.
    + by intros [= <-].
    + done.
    + destruct src_doc_examples_query as [[[c v] []]|]; done.
  - reflexivity.
Qed.

(** ** Module names *)

Lemma strip_prefix_app p r : Py.strip_prefix p (p +:+ r) = Some r.
Proof.
  induction p as [|a p IH]; [by destruct r|].
  rewrite append_cons. simpl. by rewrite Ascii.eqb_refl.
Qed.

Lemma strip_prefix_first a p b s :
  a <> b -> Py.strip_prefix (String a p) (String b s) = None.
Proof. intros Hne. simpl. by apply Ascii.eqb_neq in Hne as ->. Qed.

Lemma contains_char_cons c a s :
  Py.contains_char c (String a s) = Ascii.eqb c a || Py.contains_char c s.
Proof.
  unfold Py.contains_char, Py.existsb. simpl.
  by destruct (Ascii.eqb c a), (Py.forallb _ s).
Qed.

Lemma dots_plain s : Py.contains_char Py.LF s = false -> Re.dots s = (s, "").
Proof.
  induction s as [|a s IH]; [done|]. rewrite contains_char_cons.
  intros [Ha Hs]%orb_false_elim. simpl. rewrite Ascii.eqb_sym, Ha.
  by rewrite (IH Hs).
Qed.

Lemma rest_group_plain s :
  s <> "" -> Py.contains_char Py.LF s = false -> Re.rest_group s = Some s.
Proof.
  intros Hne Hs. unfold Re.rest_group. rewrite (dots_plain s Hs).
  by destruct s.
Qed.

Lemma rsplit1_none c s : Py.contains_char c s = false -> Py.rsplit1 c s = None.
Proof.
  induction s as [|a s IH]; [done|]. rewrite contains_char_cons.
  intros [Ha Hs]%orb_false_elim. simpl. rewrite (IH Hs).
  by rewrite Ascii.eqb_sym, Ha.
Qed.

Lemma rsplit1_app c s t :
  Py.contains_char c t = false ->
  Py.rsplit1 c (s +:+ String c t) = Some (s, t).
Proof.
  intros Ht. induction s as [|a s IH].
  - change ("" +:+ String c t) with (String c t). simpl.
    by rewrite (rsplit1_none c t Ht), Ascii.eqb_refl.
  - rewrite append_cons. simpl. by rewrite IH.
Qed.

Lemma str_first_digit n :
  0 <= n -> exists c r, Py.str n = String c r /\ Py.is_ascii_digit c = true.
Proof.
  intros Hn. pose proof (str_digits_nonneg n Hn) as Hd.
  pose proof (str_nonempty n) as Hne.
  destruct (Py.str n) as [|c r]; [done|]. simpl in Hd.
  apply andb_prop in Hd as [Hc _]. eauto.
Qed.

Lemma digit_not_q c : Py.is_ascii_digit c = true -> "q"%char <> c.
Proof. intros Hc <-. discriminate Hc. Qed.

Section ModulesPattern.

Variables (self : MetadataFactory) (v : Version).
Hypothesis Hmajor : 0 <= major v.

Let s := _get_qt_version_str self v.

Lemma compact_not_q t u : Py.strip_prefix (String "q" t) (s +:+ u) = None.
Proof.
  unfold s, _get_qt_version_str.
  destruct (str_first_digit (major v) Hmajor) as (c & r & -> & Hc).
  rewrite !append_cons. by apply strip_prefix_first, digit_not_q.
Qed.

(** The pattern of [fetch_modules] on a name made of the optional
    [preview.], [qt.], the optional [qt<major>.], the compact string and a
    dot: the group is what [(.+)$] takes of the rest. *)
Lemma match_modules_pattern (has_preview has_major : bool) rest :
  Re.match_ (modules_pattern v s)
    ((if has_preview then "preview." else "") +:+ "qt."
     +:+ (if has_major then "qt" +:+ Py.str (major v) +:+ "." else "")
     +:+ s +:+ "." +:+ rest)
  = Re.rest_group rest.
Proof.
  assert (Htail : forall u,
            Re.match_ [Re.Lit s; Re.Lit "."] (s +:+ "." +:+ u) = Re.rest_group u).
  { intros u. simpl. rewrite strip_prefix_app.
    change ("." +:+ u) with (String "."%char u). simpl. by destruct u. }
  assert (Hmid : Re.match_ [Re.Opt ("qt" +:+ Py.str (major v) +:+ ".");
                            Re.Lit s; Re.Lit "."]
                   ((if has_major then "qt" +:+ Py.str (major v) +:+ "." else "")
                    +:+ s +:+ "." +:+ rest)
                 = Re.rest_group rest).
  { cbn [Re.match_]. destruct has_major.
    - rewrite strip_prefix_app. cbn [mbind option_bind].
      fold (Re.match_ [Re.Lit s; Re.Lit "."] (s +:+ "." +:+ rest)).
      rewrite Htail. destruct (Re.rest_group rest) as [g|] eqn:Hg; [done|].
      change ("qt" +:+ Py.str (major v) +:+ "." +:+ s +:+ "." +:+ rest)
        with (String "q" ("t" +:+ Py.str (major v) +:+ "." +:+ s +:+ "." +:+ rest)).
      destruct (str_first_digit (major v) Hmajor) as (c & r & Hs & Hc).
      unfold s at 1, _get_qt_version_str. rewrite Hs, !append_cons.
      by rewrite strip_prefix_first by by apply not_eq_sym, digit_not_q.
    - change ("" +:+ s +:+ "." +:+ rest) with (s +:+ "." +:+ rest).
      change ("qt" +:+ Py.str (major v) +:+ ".")
        with (String "q" ("t" +:+ Py.str (major v) +:+ ".")).
      rewrite compact_not_q. cbn [mbind option_bind].
      fold (Re.match_ [Re.Lit s; Re.Lit "."] (s +:+ "." +:+ rest)).
      apply Htail. }
  unfold modules_pattern. fold s.
  set (mid := (if has_major then "qt" +:+ Py.str (major v) +:+ "." else "")
              +:+ s +:+ "." +:+ rest) in *.
  set (tail := [Re.Opt ("qt" +:+ Py.str (major v) +:+ "."); Re.Lit s; Re.Lit "."])
    in *.
  destruct has_preview.
  - change ("preview." +:+ "qt." +:+ mid) with ("preview." +:+ ("qt." +:+ mid)).
    cbn [Re.match_]. rewrite strip_prefix_app. cbn [mbind option_bind].
    rewrite strip_prefix_app. fold (Re.match_ tail mid). rewrite Hmid.
    by destruct (Re.rest_group rest).
  - change ("" +:+ "qt." +:+ mid) with ("qt." +:+ mid).
    cbn [Re.match_]. rewrite strip_prefix_app.
    fold (Re.match_ tail mid). rewrite Hmid.
    change (Py.strip_prefix "preview." ("qt." +:+ mid)) with (@None string).
    done.
Qed.


End ModulesPattern.

(** X19.  How [fetch_modules] reads a package name.  After the optional
    [preview.], [qt.], the optional [qt<major>.], the compact version
    string and a dot: a rest without a dot is a name without architecture;
    otherwise the architecture is what follows the last dot and the module
    is what precedes it, without a leading [addons.].  So [qtcharts] is
    found for its architecture whether the package is named with [addons.]
    or without. *)
Theorem to_module_arch_names :
  forall (self : MetadataFactory) (v : Version) (has_preview has_major : bool)
         (module arch : string),
    0 <= major v ->
    arch <> "" ->
    Py.contains_char "." arch = false ->
    Py.contains_char Py.LF arch = false ->
    Py.contains_char Py.LF module = false ->
    let qt_ver_str := _get_qt_version_str self v in
    let pattern := modules_pattern v qt_ver_str in
    let prefix :=
      (if has_preview then "preview." else "") +:+ "qt."
      +:+ (if has_major then "qt" +:+ Py.str (major v) +:+ "." else "")
      +:+ qt_ver_str +:+ "." in
    to_module_arch pattern (prefix +:+ arch) = (Some arch, None)
    /\ to_module_arch pattern (prefix +:+ "addons." +:+ module +:+ "." +:+ arch)
       = (Some module, Some arch)
    /\ (Py.startswith module "addons." = false ->
        to_module_arch pattern (prefix +:+ module +:+ "." +:+ arch)
        = (Some module, Some arch)).
Proof.
  intros self v has_preview has_major module arch HM Hne Hdot Hlf Hmlf
    qt_ver_str pattern prefix.
  assert (Hmatch : forall rest,
            Re.match_ pattern (prefix +:+ rest) = Re.rest_group rest).
  { intros rest. unfold pattern, prefix, qt_ver_str.
    rewrite <- (match_modules_pattern self v HM has_preview has_major rest).
    f_equal. by rewrite !append_assoc. }
  assert (Hrest : forall m,
            Py.contains_char Py.LF m = false ->
            Re.rest_group (m +:+ "." +:+ arch) = Some (m +:+ "." +:+ arch)).
  { intros m Hm. apply rest_group_plain.
    - destruct m; [done|]. by rewrite append_cons.
    - by rewrite !contains_char_app, Hm, Hlf. }
  assert (Hsplit : forall m, Py.rsplit1 "." (m +:+ "." +:+ arch) = Some (m, arch)).
  { intros m. change (m +:+ "." +:+ arch) with (m +:+ String "."%char arch).
    by apply rsplit1_app. }
  unfold to_module_arch. split; [|split].
  - rewrite Hmatch, rest_group_plain by done. by rewrite rsplit1_none.
  - change (prefix +:+ "addons." +:+ module +:+ "." +:+ arch)
      with (prefix +:+ (("addons." +:+ module) +:+ "." +:+ arch)).
    rewrite Hmatch, Hrest, Hsplit.
    2: { by rewrite contains_char_app, Hmlf. }
    rewrite startswith_app. do 2 f_equal.
    unfold Py.slice_from. rewrite string_length_app.
    change (String.length "addons.") with 7%nat.
    replace (7 + String.length module - 7)%nat with (String.length module) by lia.
    change ("addons." +:+ module)
      with (String "a" (String "d" (String "d" (String "o" (String "n" (String "s"
             (String "." module))))))).
    cbn [String.substring]. apply substring_all.
  - intros Hstart. rewrite Hmatch, Hrest, Hsplit by done. by rewrite Hstart.
Qed.


(** ** The module listing *)

Section ModulesFacts.

Context {World : Type}.
Variable H : Helper World.
Variable S : Settings.
Variable P : Parsers.
Variable self : MetadataFactory.


Variables (os_arch qt_ver_str folder_arch : string).

Lemma probe_extensions_step extension_module extensions modules (st : St World) :
  probe_extensions H S self os_arch qt_ver_str folder_arch
    (extension_module :: extensions) modules st
  = match fetch_http H S self (extension_path os_arch extension_module qt_ver_str folder_arch) true st with
    | (Ok _, st1) =>
        probe_extensions H S self os_arch qt_ver_str folder_arch extensions
          (modules ++ [extension_module]) st1
    | (Raise e, st1) =>
        if is_ArchiveDownloadError e then
          probe_extensions H S self os_arch qt_ver_str folder_arch extensions
            modules st1
        else (Raise e, st1)
    end.
Proof.
  cbn [probe_extensions].
  unfold mbind at 1, M_bind, try_except. unfold mbind at 1, M_bind.
  destruct (fetch_http H S self
              (extension_path os_arch extension_module qt_ver_str folder_arch)
              true st) as [[text|e] st1]; [done|].
  by destruct (is_ArchiveDownloadError e).
Qed.

Lemma probe_extensions_result extensions modules (st st' : St World) result :
  probe_extensions H S self os_arch qt_ver_str folder_arch extensions modules st
  = (Ok result, st') ->
  (forall x, x ∈ modules -> x ∈ result)
  /\ (forall x, x ∈ result -> x ∈ modules \/ x ∈ extensions).
Proof.
  revert modules st. induction extensions as [|e extensions IH]; intros modules st.
  { intros [= -> _]. split; auto. }
  rewrite probe_extensions_step.
  destruct (fetch_http H S self (extension_path os_arch e qt_ver_str folder_arch) true st) as [[text|err] st1].
  - intros [Hsub Hsup]%IH. split.
    + intros x Hx. apply Hsub, elem_of_app. by left.
    + intros x Hx. destruct (Hsup x Hx) as [[Hm|Hs]%elem_of_app|He].
      * by left.
      * apply list_elem_of_singleton in Hs as ->. right. by left.
      * right. by right.
  - destruct (is_ArchiveDownloadError err); [|done].
    intros [Hsub Hsup]%IH. split; [done|].
    intros x Hx. destruct (Hsup x Hx); [by left|right; by right].
Qed.

End ModulesFacts.


(** X20.  What [fetch_modules] returns is in ascending order without
    repetition; it holds every module the manifest of the version names
    for the architecture, and nothing else but, from 6.8.0 on, known
    extensions; below 6.8.0 the manifest is the only request. *)
Theorem fetch_modules_result :
  forall (World : Type) (H : Helper World) (S : Settings) (Q : QtRepoProperty)
         (X : QtRepoExtensions) (P : Parsers) (self : MetadataFactory)
         (v : Version) (arch : string) (st st' : St World) (result : list string),
    fetch_modules H S Q X P self v arch st = (Ok result, st') ->
    let qt_ver_str := _get_qt_version_str self v in
    StronglySorted String.le result
    /\ NoDup result
    /\ exists folder modules_meta st1,
         to_folder (archive_id self) v qt_ver_str
           (Some (extension_for_arch Q arch (Ver.geb v (Ver.release 6 0 0))))
         = Ok folder
         /\ _fetch_module_metadata H S P self folder None st
            = (Ok modules_meta, st1)
         /\ (forall x,
               x ∈ modules_of (modules_pattern v qt_ver_str) arch (keys modules_meta) ->
               x ∈ result)
         /\ (forall x, x ∈ result ->
               x ∈ modules_of (modules_pattern v qt_ver_str) arch (keys modules_meta)
               \/ (Ver.geb v (Ver.release 6 8 0) = true /\ x ∈ known_extensions X))
         /\ (Ver.geb v (Ver.release 6 8 0) = false -> st' = st1).
Proof.
  intros World H S Q X P self v arch st st' result Hrun qt_ver_str.
  unfold fetch_modules in Hrun. fold qt_ver_str in Hrun.
  destruct (to_folder (archive_id self) v qt_ver_str _) as [folder|e] eqn:Hfolder;
    [|done].
  unfold mbind at 1, M_bind, lift at 1 in Hrun.
  unfold mbind at 1, M_bind in Hrun.
  destruct (_fetch_module_metadata H S P self folder None st)
    as [[modules_meta|e] st1] eqn:Hmeta; [|done].
  set (found := modules_of (modules_pattern v qt_ver_str) arch (keys modules_meta))
    in *.
  unfold mbind at 1, M_bind in Hrun.
  destruct (Ver.geb v (Ver.release 6 8 0)) eqn:Hge.
  - destruct (convert_arch_for_extension X (host (archive_id self)) arch)
      as [folder_arch package_arch].
    destruct (probe_extensions H S self _ qt_ver_str folder_arch
                (known_extensions X) found st1) as [[modules|e] st2] eqn:Hprobe;
      [|done].
    apply probe_extensions_result in Hprobe as [Hsub Hsup].
    injection Hrun as <- <-.
    split; [apply sorted_set_sorted|]. split; [apply sorted_set_NoDup|].
    exists folder, modules_meta, st1. split; [done|]. split; [done|].
    split; [|split; [|done]].
    + intros x Hx. apply elem_of_sorted_set. auto.
    + intros x Hx. apply (proj1 (elem_of_sorted_set _ _)) in Hx.
      destruct (Hsup x Hx); auto.
  - injection Hrun as <- <-.
    split; [apply sorted_set_sorted|]. split; [apply sorted_set_NoDup|].
    exists folder, modules_meta, st1. split; [done|]. split; [done|].
    split; [|split; [|done]].
    + intros x Hx. by apply elem_of_sorted_set.
    + intros x Hx. apply (proj1 (elem_of_sorted_set _ _)) in Hx. by left.
Qed.


(** ** Package names and architectures *)

Lemma split_sep_cons c s :
  Py.split (String c "") (String c s) = "" :: Py.split (String c "") s.
Proof.
  unfold Py.split. simpl. destruct (ascii_dec c c); [|done]. by destruct s.
Qed.

Lemma split_other_cons c a s :
  a <> c ->
  Py.split (String c "") (String a s)
  = match Py.split (String c "") s with
    | p :: ps => String a p :: ps
    | [] => [String a ""]
    end.
Proof.
  intros Hne. unfold Py.split. simpl.
  destruct (ascii_dec c a) as [->|_]; [done|]. reflexivity.
Qed.

Lemma split_not_nil c s : Py.split (String c "") s <> [].
Proof.
  induction s as [|a s IH]; [done|].
  destruct (ascii_dec a c) as [->|Hne].
  - by rewrite split_sep_cons.
  - rewrite split_other_cons by done. by destruct (Py.split (String c "") s).
Qed.

Lemma split_app_char c s t :
  Py.split (String c "") (s +:+ String c t)
  = Py.split (String c "") s ++ Py.split (String c "") t.
Proof.
  induction s as [|a s IH].
  - change ("" +:+ String c t) with (String c t). by rewrite split_sep_cons.
  - rewrite append_cons. destruct (ascii_dec a c) as [->|Hne].
    + by rewrite !split_sep_cons, IH.
    + rewrite !split_other_cons, IH by done.
      pose proof (split_not_nil c s) as Hnil.
      by destruct (Py.split (String c "") s).
Qed.

Lemma split_dotted c s :
  Py.contains_char c s = true -> (2 <= length (Py.split (String c "") s))%nat.
Proof.
  induction s as [|a s IH]; [done|]. rewrite contains_char_cons.
  pose proof (split_not_nil c s) as Hnil.
  destruct (ascii_dec a c) as [->|Hne].
  - intros _. rewrite split_sep_cons. simpl.
    destruct (Py.split (String c "") s); [done|simpl; lia].
  - rewrite split_other_cons by done.
    assert (Ascii.eqb c a = false) as -> by (apply Ascii.eqb_neq; congruence).
    simpl. intros Hs. specialize (IH Hs).
    destruct (Py.split (String c "") s); simpl in *; lia.
Qed.

Lemma last2_snoc2 {A} (l : list A) a b : Py.last2 (l ++ [a; b]) = [a; b].
Proof.
  unfold Py.last2. rewrite length_app. simpl.
  replace (length l + 2 - 2)%nat with (length l) by lia.
  by rewrite drop_app_length.
Qed.

(** The last two segments of a name that ends in [.<ver>.<arch>]. *)
Lemma last2_split_name pre ver arch :
  Py.contains_char "." ver = false -> Py.contains_char "." arch = false ->
  Py.last2 (Py.split "." (pre +:+ "." +:+ ver +:+ "." +:+ arch)) = [ver; arch].
Proof.
  intros Hver Harch.
  change (pre +:+ "." +:+ ver +:+ "." +:+ arch)
    with (pre +:+ String "."%char (ver +:+ String "."%char arch)).
  rewrite !split_app_char, (split_no_sep _ ver Hver), (split_no_sep _ arch Harch).
  apply last2_snoc2.
Qed.

Lemma unpack_last2_dotless name :
  Py.contains_char "." name = false ->
  unpack_last2 (Py.split "." name)
  = Raise (ValueError "not enough values to unpack (expected 2, got 1)").
Proof. intros Hname. by rewrite split_no_sep. Qed.

Lemma unpack_last2_dotted name :
  Py.contains_char "." name = true ->
  exists a b, Py.last2 (Py.split "." name) = [a; b]
              /\ unpack_last2 (Py.split "." name) = Ok (a, b).
Proof.
  intros Hlen%split_dotted. unfold unpack_last2, Py.last2.
  pose proof (length_drop (Py.split "." name) (length (Py.split "." name) - 2))
    as Hdrop.
  destruct (drop _ (Py.split "." name)) as [|a [|b [|c l]]]; simpl in Hdrop;
    try lia.
  eauto.
Qed.

Lemma digits_no_dot s :
  Py.forallb Py.is_ascii_digit s = true -> Py.contains_char "." s = false.
Proof.
  intros Hs. unfold Py.contains_char, Py.existsb.
  rewrite (forallb_impl Py.is_ascii_digit); [done| |done].
  intros c Hc. destruct c as [[] [] [] [] [] [] [] []]; done.
Qed.

(** X26.  [fetch_arches] reads the architecture of a package off the last
    two dot-separated segments of its name.  One name without a dot among
    the packages makes the whole call fail with the [ValueError] of the
    unpacking; when every name has a dot, the architectures returned are
    the last segments of the names whose segment before the last is the
    compact version string; a name that ends in [.<ver>.<arch>] has these
    two segments. *)
Theorem arches_of_names :
  forall (qt_ver_str : string) (names : list string),
    (forall name, name ∈ names -> Py.contains_char "." name = false ->
       arches_of qt_ver_str names
       = Raise (ValueError "not enough values to unpack (expected 2, got 1)"))
    /\ ((forall name, name ∈ names -> Py.contains_char "." name = true) ->
        exists arches,
          arches_of qt_ver_str names = Ok arches
          /\ forall arch,
               arch ∈ arches <->
               exists name, name ∈ names
                            /\ Py.last2 (Py.split "." name) = [qt_ver_str; arch])
    /\ (forall pre ver arch,
          Py.contains_char "." ver = false -> Py.contains_char "." arch = false ->
          Py.last2 (Py.split "." (pre +:+ "." +:+ ver +:+ "." +:+ arch))
          = [ver; arch]).
Proof.
  intros qt_ver_str names. split; [|split].
  - induction names as [|n names IH]; intros name Hin Hname.
    { by apply elem_of_nil in Hin. }
    simpl. destruct (Py.contains_char "." n) eqn:Hn.
    + destruct (unpack_last2_dotted n Hn) as (a & b & _ & ->). simpl.
      apply elem_of_cons in Hin as [->|Hin]; [congruence|].
      by rewrite (IH name Hin Hname).
    + by rewrite unpack_last2_dotless.
  - induction names as [|n names IH]; intros Hall.
    { exists []. split; [done|]. intros arch. split.
      - by intros ?%elem_of_nil.
      - by intros (name & ?%elem_of_nil & _). }
    destruct IH as (arches & Hrest & Hmem).
    { intros name Hin. apply Hall. by right. }
    destruct (unpack_last2_dotted n) as (a & b & Hab & Hun); [apply Hall; by left|].
    simpl. rewrite Hun. simpl. rewrite Hrest. simpl.
    eexists. split; [reflexivity|]. intros arch.
    destruct (String.eqb_spec a qt_ver_str) as [->|Hne].
    + rewrite elem_of_cons, Hmem. split.
      * intros [->|(name & Hin & Hl)].
        -- exists n. split; [by left|done].
        -- exists name. split; [by right|done].
      * intros (name & [->|Hin]%elem_of_cons & Hl).
        -- left. congruence.
        -- right. eauto.
    + rewrite Hmem. split.
      * intros (name & Hin & Hl). exists name. split; [by right|done].
      * intros (name & [->|Hin]%elem_of_cons & Hl); [congruence|eauto].
  - apply last2_split_name.
Qed.

(** X25.  The package name that [aqt.commercial] builds for a release is
    one the metadata engine reads back: its last two segments are the
    compact version string and the architecture, so [fetch_arches] counts
    the architecture.  The exception is 5.9.0, whose package is named with
    [590] while the engine looks for [59]. *)
Theorem commercial_package_name_read_back :
  forall (self : MetadataFactory) (installer : Commercial.CommercialInstaller),
    let v := Commercial.version installer in
    prerelease v = None ->
    0 <= major v -> 0 <= minor v -> 0 <= patch v ->
    Py.contains_char "." (Commercial.arch installer) = false ->
    (v <> Ver.release 5 9 0 ->
     arches_of (_get_qt_version_str self v) [Commercial._get_package_name installer]
     = Ok [Commercial.arch installer])
    /\ (v = Ver.release 5 9 0 ->
        arches_of (_get_qt_version_str self v)
          [Commercial._get_package_name installer]
        = Ok []).
Proof.
  intros self installer v Hpre HM Hm Hp Harch.
  set (digits := Py.str (major v) +:+ Py.str (minor v) +:+ Py.str (patch v)).
  assert (Hdigits : Py.contains_char "." digits = false).
  { apply digits_no_dot. unfold digits.
    by rewrite !forallb_app, !str_digits_nonneg. }
  assert (Hlast : Py.last2 (Py.split "." (Commercial._get_package_name installer))
                  = [digits; Commercial.arch installer]).
  { unfold Commercial._get_package_name. fold v. fold digits.
    change ("qt.qt" +:+ Py.str (major v) +:+ "." +:+ digits +:+ "."
            +:+ Commercial.arch installer)
      with (("qt.qt" +:+ Py.str (major v)) +:+ "." +:+ digits +:+ "."
            +:+ Commercial.arch installer).
    by apply last2_split_name. }
  assert (Hun : unpack_last2 (Py.split "." (Commercial._get_package_name installer))
                = Ok (digits, Commercial.arch installer)).
  { unfold unpack_last2. by rewrite Hlast. }
  rewrite get_qt_version_str_release by done. fold digits.
  split; intros Hv; simpl; rewrite Hun; simpl.
  - rewrite bool_decide_eq_false_2 by done. by rewrite String.eqb_refl.
  - rewrite bool_decide_eq_true_2 by done. subst digits. rewrite Hv. reflexivity.
Qed.

(** ** Tables *)

#[global] Instance name_le_trans : Transitive name_le.
Proof. intros a b c. unfold name_le. apply transitivity. Qed.

#[global] Instance name_le_total : Total name_le.
Proof. intros a b. unfold name_le. apply (total String.le). Qed.

Lemma mapM_Res_ok {A B} (f : A -> Res B) (g : A -> B) (l : list A) :
  (forall x, x ∈ l -> f x = Ok (g x)) -> mapM f l = Ok (map g l).
Proof.
  induction l as [|x l IH]; intros Hall; [done|].
  simpl. rewrite (Hall x) by by left. simpl.
  rewrite IH; [done|]. intros y Hy. apply Hall. by right.
Qed.

Lemma mapM_Res_raise {A B} (f : A -> Res B) (l : list A) x e :
  x ∈ l -> f x = Raise e ->
  exists y e', y ∈ l /\ f y = Raise e' /\ mapM f l = Raise e'.
Proof.
  induction l as [|a l IH]; intros Hin Hx; [by apply elem_of_nil in Hin|].
  simpl. destruct (f a) as [b|e0] eqn:Ha.
  - apply elem_of_cons in Hin as [->|Hin]; [congruence|].
    destruct (IH Hin Hx) as (y & e' & Hy & Hfy & ->).
    exists y, e'. split; [by right|done].
  - exists a, e0. split; [by left|done].
Qed.

Section RowsFacts.

Variables (self : TableMetadata) (keys : list string).

Let row_of (item : string * attrs) : Res (list string) :=
  let '(name, content) := item in
  cells ← mapM (fun key => or_raise (KeyError key) (content !! key)) keys;
  Ok (name :: cells).

Lemma rows_complete :
  (forall name content key,
     (name, content) ∈ table_data self -> key ∈ keys -> is_Some (content !! key)) ->
  _rows self keys
  = Ok (map (fun '(name, content) =>
               name :: map (fun key => default "" (content !! key)) keys)
            (merge_sort name_le (table_data self))).
Proof.
  intros Hall. unfold _rows. apply mapM_Res_ok. intros [name content] Hin.
  rewrite merge_sort_Permutation in Hin.
  rewrite (mapM_Res_ok _ (fun key => default "" (content !! key))); [done|].
  intros key Hkey. by destruct (Hall name content key Hin Hkey) as [value ->].
Qed.

Lemma rows_missing name content key :
  (name, content) ∈ table_data self -> key ∈ keys -> content !! key = None ->
  exists key', key' ∈ keys /\ _rows self keys = Raise (KeyError key').
Proof.
  intros Hin Hkey Hnone. unfold _rows.
  assert (Hrow : exists key',
            key' ∈ keys
            /\ row_of (name, content) = Raise (KeyError key')).
  { unfold row_of.
    destruct (mapM_Res_raise
                (fun key => or_raise (KeyError key) (content !! key)) keys key
                (KeyError key) Hkey) as (k & e' & Hk & Hfk & ->).
    { by rewrite Hnone. }
    exists k. split; [done|]. simpl. destruct (content !! k); [done|].
    simpl in Hfk. congruence. }
  destruct Hrow as (key' & Hkey' & Hrow).
  destruct (mapM_Res_raise row_of (merge_sort name_le (table_data self))
              (name, content) (KeyError key')) as ([n c] & e' & Hy & Hfy & Hm).
  { by rewrite merge_sort_Permutation. }
  { done. }
  unfold row_of in Hm at 1. rewrite Hm. unfold row_of in Hfy.
  destruct (mapM (fun key0 => or_raise (KeyError key0) (c !! key0)) keys)
    as [cells|e0] eqn:Hcells; [done|].
  simpl in Hfy. injection Hfy as ->.
  clear -Hcells. revert Hcells. induction keys as [|k ks IH]; [done|].
  simpl. destruct (c !! k) as [value|]; simpl.
  - destruct (mapM _ ks) as [cells'|e1]; [done|]. simpl. intros [= ->].
    destruct IH as (key' & Hk' & He); [done|]. exists key'. split; [by right|done].
  - intros [= <-]. exists k. split; [by left|done].
Qed.

End RowsFacts.

Lemma format_field_for_tty_keys field table_data name content :
  (name, content) ∈ table_data ->
  exists content',
    (name, content') ∈ format_field_for_tty field table_data
    /\ (forall key, content' !! key = None <-> content !! key = None)
    /\ (forall key, key <> field -> content' !! key = content !! key).
Proof.
  intros Hin. unfold format_field_for_tty.
  eexists. split.
  - apply list_elem_of_fmap. exists (name, content). split; [reflexivity|done].
  - destruct (content !! field) as [value|] eqn:Hf; [|done].
    destruct (String.eqb value ""); [done|]. split.
    + intros key. destruct (decide (key = field)) as [->|Hne].
      * rewrite lookup_insert_eq, Hf. done.
      * by rewrite lookup_insert_ne.
    + intros key Hne. by rewrite lookup_insert_ne.
Qed.

(** X23.  The rows of a table come in ascending order of the record
    names, one row for each record, the name first and then one cell for
    each heading key.  A record that lacks one of the heading keys makes
    [_rows] raise [KeyError]: the long listing of tools, which asks for
    [Description], fails on a manifest with a tool that has none. *)
Theorem rows_sorted_or_key_error :
  forall (self : TableMetadata) (keys : list string),
    ((forall name content key,
        (name, content) ∈ table_data self -> key ∈ keys ->
        is_Some (content !! key)) ->
     exists rows,
       _rows self keys = Ok rows
       /\ StronglySorted String.le (map (fun row => nth 0 row "") rows)
       /\ map (fun row => nth 0 row "") rows ≡ₚ map fst (table_data self)
       /\ forall row, row ∈ rows -> length row = Datatypes.S (length keys))
    /\ (forall name content key,
          (name, content) ∈ table_data self -> key ∈ keys ->
          content !! key = None ->
          exists key', key' ∈ keys /\ _rows self keys = Raise (KeyError key'))
    /\ (forall tool_data name content,
          (name, content) ∈ tool_data -> content !! "Description" = None ->
          exists key',
            _rows (ToolData tool_data) (long_heading_keys ToolData_headings)
            = Raise (KeyError key')).
Proof.
  intros self keys. split; [|split].
  - intros Hall. eexists. split; [by apply rows_complete|].
    rewrite map_map.
    assert (Hfst : map (fun x : string * attrs =>
                          nth 0 (let '(name, content) := x in
                                 name :: map (fun key => default "" (content !! key))
                                           keys) "")
                       (merge_sort name_le (table_data self))
                   = map fst (merge_sort name_le (table_data self))).
    { apply map_ext. by intros [name content]. }
    rewrite Hfst. split; [|split].
    + apply (StronglySorted_fmap fst name_le String.le).
      * by intros a b.
      * apply StronglySorted_merge_sort; apply _.
    + by rewrite merge_sort_Permutation.
    + intros row Hrow. apply list_elem_of_fmap in Hrow as ([name content] & -> & _).
      simpl. by rewrite length_map.
  - intros name content key. apply rows_missing.
  - intros tool_data name content Hin Hnone.
    destruct (format_field_for_tty_keys "Description" tool_data name content Hin)
      as (content' & Hin' & Hnone' & _).
    destruct (rows_missing (ToolData tool_data)
                (long_heading_keys ToolData_headings) name content' "Description")
      as (key' & _ & Hrows).
    + done.
    + simpl. right. right. right. by left.
    + by apply Hnone'.
    + eauto.
Qed.

(** ** Line-break markers *)

Lemma prefix_cons a p b s :
  String.prefix (String a p) (String b s)
  = if Ascii.eqb a b then String.prefix p s else false.
Proof.
  simpl. destruct (ascii_dec a b) as [->|Hne].
  - by rewrite Ascii.eqb_refl.
  - by apply Ascii.eqb_neq in Hne as ->.
Qed.





Lemma keys_format_field_for_tty field table_data :
  keys (format_field_for_tty field table_data) = keys table_data.
Proof.
  unfold keys, format_field_for_tty. rewrite map_map. apply map_ext.
  by intros [key content].
Qed.


(** ** The base package and the modules *)

Lemma rev_app_append s t : String.rev_app s t = String.rev s +:+ t.
Proof.
  unfold String.rev. revert t. induction s as [|a s IH]; intros t; [done|].
  simpl. rewrite (IH (String a t)), (IH (String a "")).
  by rewrite append_assoc.
Qed.

Lemma rev_append s t : String.rev (s +:+ t) = String.rev t +:+ String.rev s.
Proof.
  induction s as [|a s IH].
  - change ("" +:+ t) with t. by rewrite append_nil_r.
  - rewrite append_cons. unfold String.rev at 1 3. simpl.
    rewrite !rev_app_append, IH. by rewrite append_assoc.
Qed.

Lemma rev_involutive s : String.rev (String.rev s) = s.
Proof.
  induction s as [|a s IH]; [done|].
  unfold String.rev at 2. simpl. rewrite rev_app_append, rev_append, IH.
  reflexivity.
Qed.

Lemma prefix_inv p s : String.prefix p s = true -> exists r, s = p +:+ r.
Proof.
  revert s. induction p as [|a p IH]; intros s; [by exists s|].
  destruct s as [|b s]; [done|]. rewrite prefix_cons.
  destruct (Ascii.eqb_spec a b) as [->|]; [|done].
  intros [r ->]%IH. exists r. by rewrite append_cons.
Qed.

Lemma endswith_inv s p : Py.endswith s p = true -> exists pre, s = pre +:+ p.
Proof.
  unfold Py.endswith. intros [r Hr]%prefix_inv. exists (String.rev r).
  rewrite <- (rev_involutive s), Hr, rev_append. by rewrite rev_involutive.
Qed.

(** X14.  The base package of a version, the one [fetch_archives] keeps
    when no module is asked for, is never taken for a module: the predicate
    for all modules rejects it, and so does the predicate for named
    modules unless the compact version string itself is among the names.
    Conversely a package kept as a module is not kept as the base package. *)
Theorem base_package_not_a_module :
  forall (S : Settings) (arch qt_version_str : string) (element : Element),
    Py.contains_char "." qt_version_str = false ->
    Py.contains_char "." arch = false ->
    (no_modules S arch qt_version_str element = Ok true ->
     all_modules S arch qt_version_str element = Ok false
     /\ forall modules, qt_version_str ∉ modules ->
          specify_modules S arch modules element = Ok false)
    /\ (all_modules S arch qt_version_str element = Ok true ->
        no_modules S arch qt_version_str element = Ok false).
Proof.
  intros S arch ver element Hver Harch.
  assert (Hlast : forall name,
            Py.endswith name ("." +:+ ver +:+ "." +:+ arch) = true ->
            unpack_last2 (Py.split "." name) = Ok (ver, arch)).
  { intros name [pre ->]%endswith_inv. unfold unpack_last2.
    by rewrite last2_split_name. }
  split.
  - unfold no_modules, all_modules, specify_modules, require_text.
    destruct (find "Name" element) as [[tg [name|] at_]|]; [|done|done].
    destruct (Py.endswith name _) eqn:Hend; [|done]. intros _.
    simpl. rewrite (Hlast name Hend). simpl.
    rewrite !String.eqb_refl. split; [done|].
    intros modules Hnot. unfold str_in. by rewrite bool_decide_eq_false_2.
  - unfold no_modules, all_modules, require_text.
    destruct (find "Name" element) as [[tg [name|] at_]|]; [|done|done].
    simpl. destruct (Py.endswith name _) eqn:Hend; [|done].
    rewrite (Hlast name Hend). simpl. by rewrite !String.eqb_refl.
Qed.

(** ** Architectures without a default extension *)

Lemma all_extensions_default Q a v :
  "" ∉ all_extensions Q a v ->
  target a = "android" /\ Ver.geb v (Ver.release 6 0 0) = true
  /\ all_extensions Q a v = EXTENSIONS_REQUIRED_ANDROID_QT6 Q.
Proof.
  unfold all_extensions. intros Hnot.
  destruct (String.eqb (target a) "desktop" && is_in_wasm_range Q (host a) v).
  { destruct Hnot. by left. }
  destruct (String.eqb (target a) "desktop" && is_in_wasm_threaded_range Q v).
  { destruct Hnot. by left. }
  destruct (String.eqb_spec (target a) "android") as [Ht|]; simpl in *.
  - destruct (Ver.geb v (Ver.release 6 0 0)); [done|]. destruct Hnot. by left.
  - destruct Hnot. by left.
Qed.

Lemma fetch_arches_loop_all_missing {World} (H : Helper World) S P self v
    extensions arches (st : St World) :
  "" ∉ extensions ->
  (forall folder st0,
     exists e st1,
       _fetch_module_metadata H S P self folder None st0 = (Raise e, st1)
       /\ is_ArchiveDownloadError e = true) ->
  exists st',
    fetch_arches_loop H S P self v (_get_qt_version_str self v) extensions
      arches st = (Ok arches, st').
Proof.
  intros Hnot Hfail. revert st.
  induction extensions as [|extension extensions IH]; intros st; [by eexists|].
  destruct (to_folder_compact_ok (archive_id self) self v (Some extension))
    as [folder Hfolder].
  rewrite (fetch_arches_loop_step H S P self v _ _ _ _ _ _ Hfolder).
  destruct (Hfail folder st) as (e & st1 & -> & ->).
  assert (String.eqb extension "" = false) as ->.
  { apply String.eqb_neq. intros ->. apply Hnot. by left. }
  apply IH. intros Hin. apply Hnot. by right.
Qed.

(** X17.  The failure of a download is fatal to [fetch_arches] for the
    default extension only.  Where the extensions of a version do not
    include the default one, which can only be an android target from
    6.0.0 on, no missing manifest is fatal: when the download of every
    manifest fails, the call returns the empty list instead of raising. *)
Theorem fetch_arches_without_default_extension :
  forall (World : Type) (H : Helper World) (S : Settings) (Q : QtRepoProperty)
         (P : Parsers) (self : MetadataFactory) (v : Version) (st : St World),
    "" ∉ all_extensions Q (archive_id self) v ->
    (forall folder st0,
       exists e st1,
         _fetch_module_metadata H S P self folder None st0 = (Raise e, st1)
         /\ is_ArchiveDownloadError e = true) ->
    (target (archive_id self) = "android"
     /\ Ver.geb v (Ver.release 6 0 0) = true
     /\ all_extensions Q (archive_id self) v = EXTENSIONS_REQUIRED_ANDROID_QT6 Q)
    /\ exists st', fetch_arches H S Q P self v st = (Ok [], st').
Proof.
  intros World H S Q P self v st Hnot Hfail.
  split; [by apply all_extensions_default|].
  unfold fetch_arches. by apply fetch_arches_loop_all_missing.
Qed.

(** ** The further properties on the sample inputs *)

Lemma example_groups :
  versions (group_versions Cases.versions_factory "" Sample.example_versions)
  = [[Ver.release 5 12 0; Ver.release 5 12 1]; [Ver.release 5 15 0];
     [Ver.release 6 0 0]].
Proof. vm_compute. reflexivity. Qed.

(** In the groups of 5.12.1, 5.12.0, 6.0.0 and 5.15.0 the first two
    groups have different minor numbers. *)
Lemma group_versions_by_major_minor_witness :
  (major (Ver.release 5 12 1) = major (Ver.release 5 15 0) ->
   minor (Ver.release 5 12 1) = minor (Ver.release 5 15 0) -> 0%nat = 1%nat)
  /\ (1%nat = (0 + 1)%nat ->
      minor (Ver.release 5 12 1) <> minor (Ver.release 5 15 0))
  /\ (spec Cases.versions_factory = None ->
      versions (group_versions Cases.versions_factory ""
                  [(Some (Ver.release 6 12 0), "");
                   (Some (Ver.release 5 15 0), "");
                   (Some (Ver.release 5 12 0), "")])
      = [[Ver.release 5 12 0]; [Ver.release 5 15 0]; [Ver.release 6 12 0]]).
Proof.
  apply (group_versions_by_major_minor Cases.versions_factory ""
           Sample.example_versions 0 1
           [Ver.release 5 12 0; Ver.release 5 12 1] [Ver.release 5 15 0]).
  - rewrite example_groups. reflexivity.
  - rewrite example_groups. reflexivity.
  - right. left.
  - left.
Defined.

Lemma sample_tools_parse n d :
  (n, d) ∈ Sample.tools ->
  exists t v, d !! "Version" = Some t /\ Sample.permissive t = Some v.
Proof.
  unfold Sample.tools. intros Hin.
  repeat (apply elem_of_cons in Hin as [[= -> ->]|Hin];
          [eexists _, _; split; vm_compute; reflexivity|]).
  by apply elem_of_nil in Hin.
Qed.

(** After the three sample tools a candidate without a version raises
    [KeyError]. *)
Lemma choose_highest_version_first_unreadable_witness :
  ((∅ : attrs) !! "Version" = None ->
   choose_highest_version_in_spec Sample.permissive
     (Sample.tools ++ [("qt.tools.undeclared", ∅)]) Sample.any_version
   = Raise (KeyError "Version"))
  /\ (forall t, (∅ : attrs) !! "Version" = Some t -> Sample.permissive t = None ->
        choose_highest_version_in_spec Sample.permissive
          (Sample.tools ++ [("qt.tools.undeclared", ∅)]) Sample.any_version
        = Ok None).
Proof.
  apply (choose_highest_version_first_unreadable Sample.permissive Sample.tools []
           "qt.tools.undeclared" ∅ Sample.any_version).
  apply sample_tools_parse.
Defined.

(** A certificate failure of the primary host is raised after the one
    request. *)
Lemma fetch_http_not_retried_witness :
  let run :=
    fetch_http (Sample.helper Cases.net_broken 0) Sample.settings
      Cases.versions_factory "online/x/" false Sample.start in
  run.1 = Raise (OtherError "SSLError")
  /\ world run.2 = tt
  /\ requested (trace run.2)
     = requested [EvChoice (fallbacks Sample.settings)]
       ++ [Py.join (base_url Cases.versions_factory) ["online/x/"]].
Proof.
  apply (fetch_http_not_retried unit (Sample.helper Cases.net_broken 0)
           Sample.settings Cases.versions_factory "online/x/" false Sample.start
           Sample.start (mkSt tt [EvChoice (fallbacks Sample.settings)]) None
           "https://mirror-a.example" (OtherError "SSLError") tt);
    reflexivity.
Defined.

(** Without a published hash the checked fetch raises the failure of the
    lookup. *)
Lemma fetch_http_hash_failure_witness :
  fetch_http Cases.helper_no_hash Sample.settings Cases.versions_factory
    "online/x/Updates.xml" true Sample.start
  = (Raise (ArchiveDownloadError "no hash published"),
     mkSt tt [EvGetHash "online/x/Updates.xml"]).
Proof.
  apply (fetch_http_hash_failure unit Cases.helper_no_hash Sample.settings
           Cases.versions_factory "online/x/Updates.xml" Sample.start
           (ArchiveDownloadError "no hash published") tt).
  reflexivity.
Defined.

(** The compact string of 6.2.10 is decoded as 6.21.0. *)
Lemma compact_version_decode_witness :
  ((0 <= 2 < 10 /\ 0 <= 10 < 10) \/ (10 <= 2 < 100 /\ 0 <= 10) ->
   get_semantic_version Ver.of_string
     (_get_qt_version_str Cases.versions_factory (Ver.release 6 2 10)) false
   = Ver.of_string (version_str 6 2 10 false))
  /\ (0 <= 2 < 10 /\ 10 <= 10 < 100 ->
      get_semantic_version Ver.of_string
        (_get_qt_version_str Cases.versions_factory (Ver.release 6 2 10)) false
      = Ver.of_string (version_str 6 (10 * 2 + 10 / 10) (10 mod 10) false)).
Proof.
  apply (compact_version_decode Ver.of_string Cases.versions_factory
           (Ver.release 6 2 10)).
  - reflexivity.
  - simpl. lia.
Defined.

(** The folder of 6.2.0 for the extension [wasm] is read back as 6.2.0
    and [wasm]. *)
Lemma folder_name_round_trip_witness :
  (Ver.geb (Ver.release 6 2 0) (Ver.release 6 8 0) = false ->
   exists folder,
     to_folder (archive_id Cases.versions_factory) (Ver.release 6 2 0)
       (_get_qt_version_str Cases.versions_factory (Ver.release 6 2 0))
       (Some "wasm") = Ok folder
     /\ folder_to_version_extension Ver.of_string folder
        = (Ver.of_string (version_str 6 2 0 false), "wasm"))
  /\ (Ver.geb (Ver.release 6 2 0) (Ver.release 6 8 0) = true ->
      exists top,
        to_folder (archive_id Cases.versions_factory) (Ver.release 6 2 0)
          (_get_qt_version_str Cases.versions_factory (Ver.release 6 2 0))
          (Some "wasm") = Ok (top +:+ "/" +:+ top +:+ ext_suffix (Some "wasm"))
        /\ folder_to_version_extension Ver.of_string top
           = (Ver.of_string (version_str 6 2 0 false), "")).
Proof.
  apply (folder_name_round_trip Ver.of_string Cases.versions_factory
           (Ver.release 6 2 0) "wasm").
  - reflexivity.
  - simpl. lia.
  - left. simpl. lia.
  - reflexivity.
  - reflexivity.
Defined.

(** The folder [qt6_6_8_0] yields no version. *)
Lemma underscore_folder_not_decoded_witness :
  folder_to_version_extension Ver.of_string ("qt6" +:+ "_" +:+ underscore_form 6 8 0)
  = (None, Py.str 8 +:+ "_" +:+ Py.str 0).
Proof.
  apply (underscore_folder_not_decoded Ver.of_string "qt6" 6 8 0).
  - reflexivity.
  - lia.
Defined.

Lemma sample_fetch_tools :
  fetch_tools (Sample.helper Sample.net_up 0) Sample.settings Sample.page_parsers
    (mkMetadataFactory Sample.tools_linux None "https://download.example"
       "tools" ActTools) Sample.start
  = (Ok ["sdktool"; "tools_ifw"], Cases.after_fetch Cases.desktop_url).
Proof. vm_compute. reflexivity. Qed.

(** [sdktool] is among the tools of the sample page. *)
Lemma fetch_tools_names_witness :
  (Py.startswith "sdktool" "tools" = true \/ "sdktool" = "sdktool")
  /\ Py.contains_char "/" "sdktool" = false
  /\ "sdktool" <> "" /\ "sdktool" <> "." /\ "sdktool" <> "..".
Proof.
  apply (fetch_tools_names unit (Sample.helper Sample.net_up 0) Sample.settings
           Sample.page_parsers
           (mkMetadataFactory Sample.tools_linux None "https://download.example"
              "tools" ActTools)
           Sample.start (Cases.after_fetch Cases.desktop_url)
           ["sdktool"; "tools_ifw"]).
  - apply sample_fetch_tools.
  - left.
Defined.

Lemma sample_fetch_page P :
  fetch_http (Sample.helper Sample.net_up 0) Sample.settings
    (mkMetadataFactory Sample.linux_desktop None "https://download.example"
       "versions" P)
    "online/qtsdkrepository/linux_x64/desktop/" false Sample.start
  = (Ok "manifest", Cases.after_fetch Cases.desktop_url).
Proof. vm_compute. reflexivity. Qed.

(** The page with the reference [urlparse] rejects fails both listings. *)
Lemma listing_unparsed_page_witness :
  fetch_versions (Sample.helper Sample.net_up 0) Sample.settings
    Cases.broken_index_parsers Ver.of_string Cases.versions_factory ""
    Sample.start
  = (Raise (html_page_error (base_url Cases.versions_factory)),
     Cases.after_fetch Cases.desktop_url)
  /\ fetch_tools (Sample.helper Sample.net_up 0) Sample.settings
       Cases.broken_index_parsers Cases.versions_factory Sample.start
     = (Raise (html_page_error (base_url Cases.versions_factory)),
        Cases.after_fetch Cases.desktop_url).
Proof.
  apply (listing_unparsed_page unit (Sample.helper Sample.net_up 0)
           Sample.settings Cases.broken_index_parsers Ver.of_string
           Cases.versions_factory "" Sample.start
           (Cases.after_fetch Cases.desktop_url)
           "online/qtsdkrepository/linux_x64/desktop/" "manifest").
  - reflexivity.
  - apply sample_fetch_page.
  - right. exists [Some "qt6_620/"; Some "http://[broken"], (Some "http://[broken"),
      (ValueError "Invalid IPv6 URL").
    split; [reflexivity|]. split; [right; left|reflexivity].
Defined.

Lemma sample_index_versions :
  get_versions_extensions Cases.index_parsers Ver.of_string
    Cases.versions_factory "manifest" (category (archive_id Cases.versions_factory))
  = (Cases.index_versions, None).
Proof. vm_compute. reflexivity. Qed.

(** On the sample page the latest version without extension is found. *)
Lemma fetch_latest_version_greatest_witness :
  exists r : option Version,
    fetch_latest_version (Sample.helper Sample.net_up 0) Sample.settings
      Cases.index_parsers Ver.of_string Cases.versions_factory "" Sample.start
    = (Ok r, Cases.after_fetch Cases.desktop_url)
    /\ (r = None <->
        forall v, (Some v, "") ∈ Cases.index_versions ->
                  ~ spec_matches Cases.versions_factory v)
    /\ (forall m, r = Some m <->
          (Some m, "") ∈ Cases.index_versions
          /\ spec_matches Cases.versions_factory m
          /\ forall v, (Some v, "") ∈ Cases.index_versions ->
                       spec_matches Cases.versions_factory v -> Ver.le v m).
Proof.
  apply (fetch_latest_version_greatest unit (Sample.helper Sample.net_up 0)
           Sample.settings Cases.index_parsers Ver.of_string
           Cases.versions_factory "" Sample.start
           (Cases.after_fetch Cases.desktop_url)
           "online/qtsdkrepository/linux_x64/desktop/" "manifest"
           Cases.index_versions).
  - reflexivity.
  - apply sample_fetch_page.
  - apply sample_index_versions.
Defined.

(** The base package of 6.2.0 for [gcc_64]. *)
Lemma base_package_not_a_module_witness :
  (no_modules Sample.settings "gcc_64" "620" Cases.base_package = Ok true ->
   all_modules Sample.settings "gcc_64" "620" Cases.base_package = Ok false
   /\ forall modules, "620" ∉ modules ->
        specify_modules Sample.settings "gcc_64" modules Cases.base_package
        = Ok false)
  /\ (all_modules Sample.settings "gcc_64" "620" Cases.base_package = Ok true ->
      no_modules Sample.settings "gcc_64" "620" Cases.base_package = Ok false).
Proof.
  apply (base_package_not_a_module Sample.settings "gcc_64" "620"
           Cases.base_package); reflexivity.
Defined.

(** The requests for the desktop target on [wasm_singlethread]. *)
Lemma wasm_desktop_requests_fail_witness :
  fetch_versions (Sample.helper Sample.net_up 0) Sample.settings Sample.parsers
    Ver.of_string Cases.wasm_desktop "" Sample.start
  = (Raise (AttributeError "version"), Sample.start)
  /\ fetch_tools (Sample.helper Sample.net_up 0) Sample.settings Sample.parsers
       Cases.wasm_desktop Sample.start
     = (Raise (AttributeError "version"), Sample.start)
  /\ fetch_arches (Sample.helper Sample.net_up 0) Sample.settings Sample.repo
       Sample.parsers Cases.wasm_desktop (Ver.release 6 7 0) Sample.start
     = (Raise (AttributeError "version"), Sample.start)
  /\ fetch_modules (Sample.helper Sample.net_up 0) Sample.settings Sample.repo
       Cases.extensions Sample.parsers Cases.wasm_desktop (Ver.release 6 7 0)
       "wasm_singlethread" Sample.start
     = (Raise (AttributeError "version"), Sample.start)
  /\ fetch_default_desktop_arch (Sample.helper Sample.net_up 0) Sample.settings
       Sample.repo Cases.extensions Sample.parsers Cases.wasm_desktop
       (Ver.release 6 7 0) false Sample.start
     = (Raise (AttributeError "version"), Sample.start)
  /\ fetch_archives (Sample.helper Sample.net_up 0) Sample.settings Sample.repo
       Sample.parsers Cases.wasm_desktop (Ver.release 6 7 0) "wasm_singlethread"
       [] false Sample.start
     = (Raise (ArchiveListError
                 "Downloaded metadata is corrupted. 'ArchiveId' object has no attribute 'version'"),
        Sample.start).
Proof.
  apply (wasm_desktop_requests_fail unit (Sample.helper Sample.net_up 0)
           Sample.settings Sample.repo Cases.extensions Sample.parsers
           Ver.of_string Cases.wasm_desktop (Ver.release 6 7 0)
           "wasm_singlethread" "" [] false Sample.start).
  - reflexivity.
  - left. reflexivity.
  - reflexivity.
Defined.

Lemma android_no_default_extension :
  "" ∉ all_extensions Sample.repo (archive_id Cases.android) (Ver.release 6 2 0).
Proof.
  intros Hin. vm_compute in Hin.
  repeat (apply elem_of_cons in Hin as [Hd|Hin]; [discriminate Hd|]).
  by apply elem_of_nil in Hin.
Qed.

Lemma android_all_missing folder (st0 : St unit) :
  exists e st1,
    _fetch_module_metadata (Sample.helper Cases.net_down 0) Sample.settings
      Sample.parsers Cases.android folder None st0 = (Raise e, st1)
    /\ is_ArchiveDownloadError e = true.
Proof.
  exists (ArchiveDownloadError "404 Not Found").
  unfold _fetch_module_metadata.
  change (to_url (archive_id Cases.android))
    with (@Ok string "online/qtsdkrepository/linux_x64/android/").
  unfold mbind at 1, M_bind, lift at 1.
  change (negb (ignore_hash Sample.settings)) with false. cbv iota.
  unfold mbind at 1, M_bind.
  set (rest_of_url := Py.join _ _).
  rewrite (fetch_http_attempts (Sample.helper Cases.net_down 0) Sample.settings
             Cases.android rest_of_url false st0 None st0
             "https://mirror-a.example"
             (mkSt tt (trace st0 ++ [EvChoice (fallbacks Sample.settings)])));
    [|reflexivity|by destruct st0 as [[] tr]].
  simpl. eauto.
Qed.

(** For the android target of the sample repository every manifest is
    missing and the architectures are the empty list. *)
Lemma fetch_arches_without_default_extension_witness :
  (target (archive_id Cases.android) = "android"
   /\ Ver.geb (Ver.release 6 2 0) (Ver.release 6 0 0) = true
   /\ all_extensions Sample.repo (archive_id Cases.android) (Ver.release 6 2 0)
      = EXTENSIONS_REQUIRED_ANDROID_QT6 Sample.repo)
  /\ exists st',
       fetch_arches (Sample.helper Cases.net_down 0) Sample.settings Sample.repo
         Sample.parsers Cases.android (Ver.release 6 2 0) Sample.start
       = (Ok [], st').
Proof.
  apply (fetch_arches_without_default_extension unit
           (Sample.helper Cases.net_down 0) Sample.settings Sample.repo
           Sample.parsers Cases.android (Ver.release 6 2 0) Sample.start).
  - apply android_no_default_extension.
  - apply android_all_missing.
Defined.



(** The add-on [qtcharts] of 6.2.0 for [gcc_64]. *)
Lemma to_module_arch_names_witness :
  let qt_ver_str := _get_qt_version_str Cases.modules_factory (Ver.release 6 2 0) in
  let pattern := modules_pattern (Ver.release 6 2 0) qt_ver_str in
  let prefix := "" +:+ "qt." +:+ ("qt" +:+ Py.str 6 +:+ ".") +:+ qt_ver_str +:+ "." in
  to_module_arch pattern (prefix +:+ "gcc_64") = (Some "gcc_64", None)
  /\ to_module_arch pattern (prefix +:+ "addons." +:+ "qtcharts" +:+ "." +:+ "gcc_64")
     = (Some "qtcharts", Some "gcc_64")
  /\ (Py.startswith "qtcharts" "addons." = false ->
      to_module_arch pattern (prefix +:+ "qtcharts" +:+ "." +:+ "gcc_64")
      = (Some "qtcharts", Some "gcc_64")).
Proof.
  apply (to_module_arch_names Cases.modules_factory (Ver.release 6 2 0) false true
           "qtcharts" "gcc_64").
  - simpl. lia.
  - discriminate.
  - reflexivity.
  - reflexivity.
  - reflexivity.
Defined.

Lemma sample_fetch_modules :
  fetch_modules (Sample.helper Sample.net_up 0) Sample.settings Sample.repo
    Cases.extensions Sample.parsers Cases.modules_factory (Ver.release 6 2 0)
    "gcc_64" Sample.start
  = (Ok ["qtcharts"],
     Cases.after_fetch
       "https://download.example/online/qtsdkrepository/linux_x64/desktop/qt6_620/Updates.xml").
Proof. vm_compute. reflexivity. Qed.

(** The modules of 6.2.0 for [gcc_64] on the sample manifest. *)
Lemma fetch_modules_result_witness :
  let qt_ver_str := _get_qt_version_str Cases.modules_factory (Ver.release 6 2 0) in
  StronglySorted String.le ["qtcharts"]
  /\ NoDup ["qtcharts"]
  /\ exists folder modules_meta st1,
       to_folder (archive_id Cases.modules_factory) (Ver.release 6 2 0) qt_ver_str
         (Some (extension_for_arch Sample.repo "gcc_64"
                  (Ver.geb (Ver.release 6 2 0) (Ver.release 6 0 0))))
       = Ok folder
       /\ _fetch_module_metadata (Sample.helper Sample.net_up 0) Sample.settings
            Sample.parsers Cases.modules_factory folder None Sample.start
          = (Ok modules_meta, st1)
       /\ (forall x,
             x ∈ modules_of (modules_pattern (Ver.release 6 2 0) qt_ver_str)
                   "gcc_64" (keys modules_meta) ->
             x ∈ ["qtcharts"])
       /\ (forall x, x ∈ ["qtcharts"] ->
             x ∈ modules_of (modules_pattern (Ver.release 6 2 0) qt_ver_str)
                   "gcc_64" (keys modules_meta)
             \/ (Ver.geb (Ver.release 6 2 0) (Ver.release 6 8 0) = true
                 /\ x ∈ known_extensions Cases.extensions))
       /\ (Ver.geb (Ver.release 6 2 0) (Ver.release 6 8 0) = false ->
           Cases.after_fetch
             "https://download.example/online/qtsdkrepository/linux_x64/desktop/qt6_620/Updates.xml"
           = st1).
Proof.
  apply (fetch_modules_result unit (Sample.helper Sample.net_up 0)
           Sample.settings Sample.repo Cases.extensions Sample.parsers
           Cases.modules_factory (Ver.release 6 2 0) "gcc_64" Sample.start).
  apply sample_fetch_modules.
Defined.


(** The package of 6.2.0 for [gcc_64]. *)
Lemma commercial_package_name_read_back_witness :
  (Ver.release 6 2 0 <> Ver.release 5 9 0 ->
   arches_of (_get_qt_version_str Cases.versions_factory (Ver.release 6 2 0))
     [Commercial._get_package_name Cases.installer]
   = Ok [Commercial.arch Cases.installer])
  /\ (Ver.release 6 2 0 = Ver.release 5 9 0 ->
      arches_of (_get_qt_version_str Cases.versions_factory (Ver.release 6 2 0))
        [Commercial._get_package_name Cases.installer]
      = Ok []).
Proof.
  apply (commercial_package_name_read_back Cases.versions_factory Cases.installer).
  - reflexivity.
  - simpl. lia.
  - simpl. lia.
  - simpl. lia.
  - reflexivity.
Defined.

(** ** Requests that share their manifest *)

(** X27.  With [all] among the requested modules the other names do not
    matter to [fetch_archives]: the request, the outcome and the trace are
    those of the list that holds [all] alone, and a name that no package
    has is not reported. *)
Theorem fetch_archives_all_overrides :
  forall (World : Type) (H : Helper World) (S : Settings) (Q : QtRepoProperty)
         (P : Parsers) (self : MetadataFactory) (v : Version) (arch : string)
         (modules : list string) (is_sde : bool) (st : St World),
    "all" ∈ modules ->
    fetch_archives H S Q P self v arch modules is_sde st
    = fetch_archives H S Q P self v arch ["all"] is_sde st.
Proof.
  intros World H S Q P self v arch modules is_sde st Hall.
  unfold fetch_archives.
  assert (Hne : bool_decide (modules = []) = false).
  { apply bool_decide_eq_false_2. intros ->. by apply elem_of_nil in Hall. }
  assert (Hin : str_in "all" modules = true) by by apply bool_decide_eq_true_2.
  rewrite Hne, Hin. reflexivity.
Qed.

(** X28.  The three requests about one tool read the same manifest and
    leave the same trace; the long listing holds exactly the variants that
    the short listing names, in the same order. *)
Theorem tool_listings_agree :
  forall (World : Type) (H : Helper World) (S : Settings) (P : Parsers)
         (self : MetadataFactory) (tool_name : string) (simple_spec : SimpleSpec)
         (permissive : string -> option Version) (st : St World),
    let manifest := _fetch_module_metadata H S P self tool_name None st in
    (fetch_tool_modules H S P self tool_name st).2 = manifest.2
    /\ (fetch_tool_long_listing H S P self tool_name st).2 = manifest.2
    /\ (fetch_tool_by_simple_spec H S P permissive self tool_name simple_spec st).2
       = manifest.2
    /\ (forall names st',
          fetch_tool_modules H S P self tool_name st = (Ok names, st') <->
          exists table,
            fetch_tool_long_listing H S P self tool_name st = (Ok table, st')
            /\ keys (table_data table) = names).
Proof.
  intros World H S P self tool_name simple_spec permissive st manifest.
  unfold fetch_tool_modules, fetch_tool_long_listing, fetch_tool_by_simple_spec.
  unfold mbind, M_bind. subst manifest.
  destruct (_fetch_module_metadata H S P self tool_name None st)
    as [[tool_data|e] st1]; simpl.
  - split; [done|]. split; [done|]. split.
    { unfold lift.
      by destruct (choose_highest_version_in_spec permissive tool_data simple_spec). }
    intros names st'. split.
    + intros [= <- <-]. exists (ToolData tool_data). split; [done|].
      apply keys_format_field_for_tty.
    + intros (table & [= <- <-] & <-). simpl.
      by rewrite keys_format_field_for_tty.
  - split; [done|]. split; [done|]. split; [done|].
    intros names st'. split; [done|]. by intros (table & [=] & _).
Qed.

Lemma sample_all_requested : "all" ∈ ["all"; "doesnotexist"].
Proof. left. Qed.

(** [all] with a name that no package has. *)
Lemma fetch_archives_all_overrides_witness :
  fetch_archives (Sample.helper Sample.net_up 0) Sample.settings Sample.repo
    Sample.parsers Cases.modules_factory (Ver.release 6 2 0) "gcc_64"
    ["all"; "doesnotexist"] false Sample.start
  = fetch_archives (Sample.helper Sample.net_up 0) Sample.settings Sample.repo
      Sample.parsers Cases.modules_factory (Ver.release 6 2 0) "gcc_64" ["all"]
      false Sample.start.
Proof.
  apply (fetch_archives_all_overrides unit (Sample.helper Sample.net_up 0)
           Sample.settings Sample.repo Sample.parsers Cases.modules_factory
           (Ver.release 6 2 0) "gcc_64" ["all"; "doesnotexist"] false
           Sample.start).
  apply sample_all_requested.
Defined.
